(** * ts_hexapod: lookup-table interpolator and mock controller

    A shallow embedding of [lookup_table.py], of [mock_controller.py] and
    of the compensation of [hexapod_csc.py].

    Numbers.  The lookup table and the compensation compute with Python
    floats: these are the IEEE binary64 numbers of [PrimFloat], with their
    rounding, their infinities and not-a-number, and [float()] rounds a
    decimal literal to the nearest of them.  The controller stores and
    compares the parameters it is sent and uses not-a-number as a
    sentinel; there a float is a rational or one of the special values
    (type [pyfloat]). *)

From Stdlib Require Import String Ascii ZArith QArith List Bool Lia Sorted.
From Stdlib Require Import Floats.
Import ListNotations.

Set Warnings "-inexact-float".

Open Scope Z_scope.

(** ** Python exceptions and results

    [ValueErrorRange] is the [ValueError] of [get_correction], with the
    values its message names.  [RecursionLimit] marks a loop of the model
    that ran out of its bound; [bisect_right_total] shows it is never
    reached. *)

Inductive exn : Type :=
| RuntimeError (msg : string)
| ValueError (msg : string)
| ValueErrorRange (input_value lo hi : PrimFloat.float)
| IndexError
| ZeroDivisionError
| OverflowError
| RecursionLimit.
Inductive result (A : Type) : Type :=
| Ok (a : A)
| Raise (e : exn).
Arguments Ok {A} a.
Arguments Raise {A} e.

Definition rbind {A B} (r : result A) (k : A -> result B) : result B :=
  match r with
  | Ok a => k a
  | Raise e => Raise e
  end.

Notation "x <- r ;; k" := (rbind r (fun x => k))
  (at level 61, r at next level, right associativity).

Fixpoint rmap {A B} (f : A -> result B) (l : list A) : result (list B) :=
  match l with
  | [] => Ok []
  | a :: l' => b <- f a ;; bs <- rmap f l' ;; Ok (b :: bs)
  end.

(** Python sequence indexing: a negative index counts from the end, an
    index outside the sequence raises [IndexError]. *)
Definition py_index {A} (l : list A) (i : Z) : result A :=
  let n := Z.of_nat (length l) in
  let j := if i <? 0 then n + i else i in
  if (j <? 0) || (n <=? j) then Raise IndexError
  else match nth_error l (Z.to_nat j) with
       | Some a => Ok a
       | None => Raise IndexError
       end.

(** ** Strings: [str.strip], [str.split], [str.lower], [float]

    The calibration file is an ASCII table (docstring of [LookupTable]):
    a string is ASCII text. *)

Module PyStr.

Definition is_space (c : ascii) : bool :=
  let n := nat_of_ascii c in
  ((9 <=? n) && (n <=? 13) || (28 <=? n) && (n <=? 32))%nat.

Fixpoint lstrip (s : string) : string :=
  match s with
  | String c s' => if is_space c then lstrip s' else s
  | EmptyString => EmptyString
  end.

(** [rstrip]: a character is kept when it is not white space or when
    something that is kept follows it. *)
Fixpoint rstrip (s : string) : string :=
  match s with
  | EmptyString => EmptyString
  | String c s' =>
      match rstrip s' with
      | EmptyString => if is_space c then EmptyString else String c EmptyString
      | t => String c t
      end
  end.

Definition strip (s : string) : string := rstrip (lstrip s).

(** [split_aux cur s]: [cur] is the word being read, reversed. *)
Fixpoint split_aux (cur : list ascii) (s : string) : list string :=
  let flush := match cur with
               | [] => []
               | _ => [string_of_list_ascii (rev cur)]
               end in
  match s with
  | EmptyString => flush
  | String c s' =>
      if is_space c then flush ++ split_aux [] s'
      else split_aux (c :: cur) s'
  end.

Definition split (s : string) : list string := split_aux [] s.

Definition lower_ascii (c : ascii) : ascii :=
  let n := nat_of_ascii c in
  if ((65 <=? n) && (n <=? 90))%nat then ascii_of_nat (n + 32) else c.

Fixpoint lower (s : string) : string :=
  match s with
  | EmptyString => EmptyString
  | String c s' => String (lower_ascii c) (lower s')
  end.

Definition digit_of (c : ascii) : option Z :=
  let n := nat_of_ascii c in
  if ((48 <=? n) && (n <=? 57))%nat then Some (Z.of_nat (n - 48)) else None.

Definition is_digit (c : ascii) : bool :=
  match digit_of c with Some _ => true | None => false end.

(** Reads a [digitpart]: decimal digits, where one underscore may stand
    between two digits.  Returns the value accumulated, the number of
    digits read and the rest of the string. *)
Fixpoint digits (acc : Z) (cnt : nat) (s : string) : Z * nat * string :=
  match s with
  | String c s' =>
      match digit_of c with
      | Some d => digits (10 * acc + d) (S cnt) s'
      | None =>
          match cnt, s' with
          | S _, String c' _ =>
              if (Ascii.eqb c "_" && is_digit c')%bool then digits acc cnt s'
              else (acc, cnt, s)
          | _, _ => (acc, cnt, s)
          end
      end
  | EmptyString => (acc, cnt, s)
  end.

Definition sign (s : string) : bool * string :=
  match s with
  | String "-"%char s' => (true, s')
  | String "+"%char s' => (false, s')
  | _ => (false, s)
  end.

(** The double nearest to [n / d], ties to even: the quotient and its
    rounding are those of the division of [SpecFloat]. *)
Definition nearest (neg : bool) (n d : positive) : PrimFloat.float :=
  SF2Prim
    (let '(q, e, l) := SFdiv_core_binary prec emax (Zpos n) 0 (Zpos d) 0 in
     binary_round_aux prec emax neg q e l).

(** [m * 10^e] as a double, for [0 <= m]. *)
Definition scale10 (neg : bool) (m e : Z) : PrimFloat.float :=
  match m with
  | Zpos p =>
      if 0 <=? e then nearest neg (p * Z.to_pos (10 ^ e)) 1
      else nearest neg p (Z.to_pos (10 ^ (- e)))
  | _ => if neg then neg_zero else zero
  end.

(** The spellings of infinity and not-a-number, in any case. *)
Definition special (s : string) : option PrimFloat.float :=
  let low := lower s in
  if (String.eqb low "inf" || String.eqb low "infinity")%bool
  then Some infinity
  else if String.eqb low "nan" then Some nan
  else None.

Definition bad_float (s : string) : exn :=
  ValueError ("could not convert string to float: " ++ s)%string.

(** The grammar of [float] on a string without white space: a sign, then
    infinity, not-a-number, or digits with an optional fraction and an
    optional exponent, with a digit in the mantissa. *)
Definition parse_float (s : string) : option PrimFloat.float :=
  let '(neg, s1) := sign s in
  match special s1 with
  | Some x => Some (if neg then (- x)%float else x)
  | None =>
      let '(ip, ni, s2) := digits 0 0 s1 in
      let '(m, nf, s3) :=
        match s2 with
        | String "."%char t => let '(m, nf, t') := digits ip 0 t in (m, nf, t')
        | _ => (ip, 0%nat, s2)
        end in
      if (ni + nf =? 0)%nat then None
      else
        match s3 with
        | EmptyString => Some (scale10 neg m (- Z.of_nat nf))
        | String c t =>
            if (Ascii.eqb c "e" || Ascii.eqb c "E")%bool then
              let '(eneg, t1) := sign t in
              let '(e, ne, t2) := digits 0 0 t1 in
              match ne, t2 with
              | S _, EmptyString =>
                  Some (scale10 neg m ((if eneg then - e else e) - Z.of_nat nf))
              | _, _ => None
              end
            else None
        end
  end.

(** [float(s)]. *)
Definition float (s : string) : result PrimFloat.float :=
  match parse_float s with
  | Some x => Ok x
  | None => Raise (bad_float s)
  end.

End PyStr.

(** ** IEEE doubles: the order of [SpecFloat] as propositions *)

Module Binary64.

Definition sf_lt (x y : spec_float) : Prop := SFcompare x y = Some Lt.

Definition sf_le (x y : spec_float) : Prop :=
  SFcompare x y = Some Lt \/ SFcompare x y = Some Eq.

Definition sf_eq (x y : spec_float) : Prop := SFcompare x y = Some Eq.

(** Neither a zero nor not-a-number. *)
Definition regular (x : spec_float) : Prop :=
  match x with
  | S754_finite _ _ _ | S754_infinity _ => True
  | _ => False
  end.

End Binary64.

(** ** lookup_table.py *)

Module LookupTable.

(** The six corrections of one table row (a numpy array of six floats);
    the operations of numpy act on each component. *)
Record vec6 : Type :=
  V6 { cx : PrimFloat.float; cy : PrimFloat.float; cz : PrimFloat.float;
       cu : PrimFloat.float; cv : PrimFloat.float; cw : PrimFloat.float }.

Definition vmap2 (f : PrimFloat.float -> PrimFloat.float -> PrimFloat.float)
  (a b : vec6) : vec6 :=
  V6 (f (cx a) (cx b)) (f (cy a) (cy b)) (f (cz a) (cz b))
     (f (cu a) (cu b)) (f (cv a) (cv b)) (f (cw a) (cw b)).

Definition vadd : vec6 -> vec6 -> vec6 := vmap2 PrimFloat.add.
Definition vsub : vec6 -> vec6 -> vec6 := vmap2 PrimFloat.sub.
Definition vscale (k : PrimFloat.float) (a : vec6) : vec6 :=
  V6 (k * cx a)%float (k * cy a)%float (k * cz a)%float
     (k * cu a)%float (k * cv a)%float (k * cw a)%float.

Record t : Type := Table {
  input_name : option string;
  input_data : list PrimFloat.float;
  corr_data : list vec6
}.

(** A float object of a list: its position in the list, which tells it
    from the other objects, and its value. *)
Definition obj : Type := (nat * PrimFloat.float)%type.

Definition objects (a : list PrimFloat.float) : list obj :=
  combine (seq 0 (length a)) a.

(** [sorted]: a stable sort that only uses [<]; here the insertion sort
    that moves each element back over the elements it is below, the sorted
    part being kept last element first.  On values without not-a-number
    [<] is a total preorder, and the stable arrangement is the one Python
    returns.  With a not-a-number among them [<] is no order: a list in
    which no element is below the one before comes back as it is, from
    this sort as from Python's, whose first pass finds it to be one run;
    on the other lists with a not-a-number the arrangement depends on the
    interpreter's algorithm, which this sort does not follow. *)
Fixpoint insert (x : obj) (l : list obj) : list obj :=
  match l with
  | [] => [x]
  | y :: l' => if (snd x <? snd y)%float then y :: insert x l' else x :: l
  end.

Definition sorted (l : list obj) : list obj :=
  rev (fold_left (fun acc x => insert x acc) l []).

(** [==] on two elements of a list: the same object, or equal values. *)
Definition obj_eq (x y : obj) : bool :=
  (fst x =? fst y)%nat || (snd x =? snd y)%float.

(** [==] on lists. *)
Fixpoint list_eq (l1 l2 : list obj) : bool :=
  match l1, l2 with
  | [], [] => true
  | a :: l1', b :: l2' => obj_eq a b && list_eq l1' l2'
  | _, _ => false
  end.

Definition input_names : list string :=
  ["elevation"; "azimuth"; "temperature"]%string.

Definition corr_names : list string :=
  ["x"; "y"; "z"; "u"; "v"; "w"]%string.

Definition string_list_eqb (a b : list string) : bool :=
  if list_eq_dec string_dec a b then true else false.

(** The loop body of [__init__]: one line of the file. *)
Definition read_line (tbl : t) (line : string) : result t :=
  let line := PyStr.strip line in
  match line with
  | EmptyString => Ok tbl
  | String c _ =>
      if Ascii.eqb c "#" then Ok tbl
      else
        let entries := PyStr.split line in
        if negb (length entries =? 7)%nat then
          Raise (RuntimeError "Line has other than 7 entries")
        else
          match input_name tbl with
          | None =>
              let name := PyStr.lower (hd EmptyString entries) in
              if negb (existsb (String.eqb name) input_names) then
                Raise (RuntimeError "Input name must be one of elevation, azimuth, or temperature")
              else if negb (string_list_eqb (map PyStr.lower (tl entries)) corr_names) then
                Raise (RuntimeError "Column names must be x, y, z, u, v, w")
              else Ok (Table (Some name) (input_data tbl) (corr_data tbl))
          | Some _ =>
              data <- rmap PyStr.float entries ;;
              match data with
              | [i; x; y; z; u; v; w] =>
                  Ok (Table (input_name tbl)
                            (input_data tbl ++ [i])
                            (corr_data tbl ++ [V6 x y z u v w]))
              | _ => Raise (RuntimeError "Line has other than 7 entries")
              end
          end
  end.

Fixpoint read_lines (tbl : t) (lines : list string) : result t :=
  match lines with
  | [] => Ok tbl
  | line :: rest => tbl' <- read_line tbl line ;; read_lines tbl' rest
  end.

(** [LookupTable.__init__] on the lines of the file at [path]. *)
Definition init (lines : list string) : result t :=
  tbl <- read_lines (Table None [] []) lines ;;
  if negb (list_eq (objects (input_data tbl))
             (sorted (objects (input_data tbl)))) then
    Raise (RuntimeError "data not monotonically increasing")
  else Ok tbl.

(** [bisect.bisect_right]: the loop [while lo < hi], with [fuel] bounding
    the number of iterations. *)
Fixpoint bisect_loop (fuel : nat) (a : list PrimFloat.float)
  (x : PrimFloat.float) (lo hi : Z) : result Z :=
  if lo <? hi then
    match fuel with
    | O => Raise RecursionLimit
    | S fuel' =>
        let mid := (lo + hi) / 2 in
        am <- py_index a mid ;;
        if (x <? am)%float then bisect_loop fuel' a x lo mid
        else bisect_loop fuel' a x (mid + 1) hi
    end
  else Ok lo.

Definition bisect_right (a : list PrimFloat.float) (x : PrimFloat.float)
  : result Z :=
  bisect_loop (S (length a)) a x 0 (Z.of_nat (length a)).

(** True division of Python floats: a zero divisor, of either sign,
    raises. *)
Definition truediv (a b : PrimFloat.float) : result PrimFloat.float :=
  if (b =? 0)%float then Raise ZeroDivisionError else Ok (a / b)%float.

Definition interpolate (row next_row : vec6) (frac_value : PrimFloat.float)
  : vec6 :=
  vadd row (vscale frac_value (vsub next_row row)).

(** [LookupTable.get_correction]. *)
Definition get_correction (tbl : t) (input_value : PrimFloat.float)
  : result vec6 :=
  first <- py_index (input_data tbl) 0 ;;
  last <- py_index (input_data tbl) (-1) ;;
  if ((input_value <? first) || (last <? input_value))%float then
    Raise (ValueErrorRange input_value first last)
  else
    ind <- bisect_right (input_data tbl) input_value ;;
    let ind := ind - 1 in
    let ind := if ind =? Z.of_nat (length (input_data tbl)) - 1
               then ind - 1 else ind in
    lo <- py_index (input_data tbl) ind ;;
    hi <- py_index (input_data tbl) (ind + 1) ;;
    frac_value <- truediv (input_value - lo)%float (hi - lo)%float ;;
    row <- py_index (corr_data tbl) ind ;;
    next_row <- py_index (corr_data tbl) (ind + 1) ;;
    Ok (interpolate row next_row frac_value).

(** The order of floats, as propositions. *)
Definition flt (x y : PrimFloat.float) : Prop := (x <? y)%float = true.
Definition fle (x y : PrimFloat.float) : Prop := (x <=? y)%float = true.

(** [y] is not below [x]: what two neighbours of a list satisfy when
    there is no descent between them. *)
Definition no_descent (x y : PrimFloat.float) : Prop :=
  (y <? x)%float = false.

(** The order of the values of two objects. *)
Definition value_le (x y : obj) : Prop := fle (snd x) (snd y).

(** Index form of the order of the breakpoints. *)
Definition increasing_at (a : list PrimFloat.float) : Prop :=
  forall i j, (i < j < length a)%nat -> flt (nth i a 0%float) (nth j a 0%float).

End LookupTable.


(** ** Floats with the IEEE special values *)

Inductive pyfloat : Type :=
| Fin (q : Q)
| PInf
| NInf
| NaN.

Module PyFloat.

Definition of_Z (z : Z) : pyfloat := Fin (inject_Z z).

(** [a < b]; every comparison with not-a-number is false. *)
Definition lt (a b : pyfloat) : bool :=
  match a, b with
  | NaN, _ | _, NaN => false
  | Fin x, Fin y => negb (Qle_bool y x)
  | NInf, (Fin _ | PInf) => true
  | Fin _, PInf => true
  | _, _ => false
  end.

(** [a <= b]. *)
Definition le (a b : pyfloat) : bool :=
  match a, b with
  | NaN, _ | _, NaN => false
  | Fin x, Fin y => Qle_bool x y
  | NInf, _ => true
  | _, PInf => true
  | _, _ => false
  end.

Definition neg (a : pyfloat) : pyfloat :=
  match a with
  | Fin x => Fin (- x)
  | PInf => NInf
  | NInf => PInf
  | NaN => NaN
  end.

Definition inf_of_sign (s : comparison) : pyfloat :=
  match s with
  | Gt => PInf
  | Lt => NInf
  | Eq => NaN
  end.

Definition sgn (a : pyfloat) : comparison :=
  match a with
  | Fin x => (x ?= 0)%Q
  | PInf => Gt
  | NInf => Lt
  | NaN => Eq
  end.

Definition mul_sign (s1 s2 : comparison) : comparison :=
  match s1, s2 with
  | Eq, _ | _, Eq => Eq
  | Lt, Lt | Gt, Gt => Gt
  | _, _ => Lt
  end.

(** [a * b]: exact on finite values. *)
Definition mul (a b : pyfloat) : pyfloat :=
  match a, b with
  | NaN, _ | _, NaN => NaN
  | Fin x, Fin y => Fin (x * y)
  | _, _ => inf_of_sign (mul_sign (sgn a) (sgn b))
  end.

(** [math.isfinite]. *)
Definition isfinite (a : pyfloat) : bool :=
  match a with
  | Fin _ => true
  | _ => false
  end.

(** [int(a)]: truncation toward zero. *)
Definition int (a : pyfloat) : result Z :=
  match a with
  | Fin x => Ok (Z.quot (Qnum x) (Zpos (Qden x)))
  | PInf | NInf => Raise OverflowError
  | NaN => Raise (ValueError "cannot convert float NaN to integer")
  end.

End PyFloat.

(** ** enums.py and the enumerations of [lsst.ts.idl.enums.Hexapod] *)

Inductive SalIndex : Type := CAM_HEXAPOD | M2_HEXAPOD.

Module CommandCode.
Definition SET_STATE : Z := 0x8000.
Definition SET_ENABLED_SUBSTATE : Z := 0x8001.
Definition POSITION_SET : Z := 0x8004.
Definition SET_PIVOTPOINT : Z := 0x8007.
Definition CONFIG_ACCEL : Z := 0x800B.
Definition CONFIG_VEL : Z := 0x800C.
Definition CONFIG_LIMITS : Z := 0x800D.
Definition OFFSET : Z := 0x8010.

Definition members : list Z :=
  [SET_STATE; SET_ENABLED_SUBSTATE; POSITION_SET; SET_PIVOTPOINT;
   CONFIG_ACCEL; CONFIG_VEL; CONFIG_LIMITS; OFFSET].

(** [enums.CommandCode(value)]. *)
Definition of_value (v : Z) : result Z :=
  if existsb (Z.eqb v) members then Ok v
  else Raise (ValueError "not a valid CommandCode").
End CommandCode.

Module SetStateParam.
Definition INVALID : Z := 0.
Definition START : Z := 1.
Definition ENABLE : Z := 2.
Definition STANDBY : Z := 3.
Definition DISABLE : Z := 4.
Definition EXIT : Z := 5.
Definition CLEAR_ERROR : Z := 6.
Definition ENTER_CONTROL : Z := 7.
End SetStateParam.

Module SetEnabledSubstateParam.
Definition ENABLED_INVALID : Z := 0.
Definition MOVE_POINT_TO_POINT : Z := 1.
Definition TRACK : Z := 2.
Definition STOP : Z := 3.
Definition INITIALIZE : Z := 4.
Definition RELATIVE : Z := 5.
Definition CONST_VEL : Z := 6.
Definition SPARE2 : Z := 7.
Definition MOVE_LUT : Z := 8.
End SetEnabledSubstateParam.

Inductive ControllerState : Type :=
| OFFLINE | STANDBY | DISABLED | ENABLED | FAULT.

Definition ControllerState_eqb (a b : ControllerState) : bool :=
  match a, b with
  | OFFLINE, OFFLINE | STANDBY, STANDBY | DISABLED, DISABLED
  | ENABLED, ENABLED | FAULT, FAULT => true
  | _, _ => false
  end.

(** The substates are stored as numbers: [set_state] writes a plain [0]
    outside the owning state. *)
Module OfflineSubstate.
Definition PUBLISH_ONLY : Z := 0.
Definition AVAILABLE : Z := 1.
End OfflineSubstate.

Module EnabledSubstate.
Definition STATIONARY : Z := 0.
Definition MOVING_POINT_TO_POINT : Z := 1.
End EnabledSubstate.

(** ** mock_controller.py *)

Record tuple3 : Type := T3 { a0 : pyfloat; a1 : pyfloat; a2 : pyfloat }.

Record tuple4 : Type :=
  T4 { b0 : pyfloat; b1 : pyfloat; b2 : pyfloat; b3 : pyfloat }.

Record tuple6 : Type :=
  T6 { t0 : pyfloat; t1 : pyfloat; t2 : pyfloat;
       t3 : pyfloat; t4 : pyfloat; t5 : pyfloat }.

(** [(v,)*6]. *)
Definition six (v : pyfloat) : tuple6 := T6 v v v v v v.

(** One strut of the kinematics model. *)
Record Actuator : Type := {
  curr_pos : pyfloat;
  end_pos : pyfloat;
  moving : bool
}.

(** The call surface of [simple_hexapod.SimpleHexapod] the controller
    uses.  [move] may raise, and may have changed the model when it does. *)
Class SimpleHexapod (H : Type) : Type := {
  make_zigzag_model :
    forall (base_radius mirror_radius mirror_z base_angle0 : pyfloat)
           (pivot : tuple3) (min_length max_length speed : pyfloat), H;
  move : forall (pos xyzrot : tuple3), H -> result unit * H;
  stop : H -> H;
  actuators : H -> list Actuator
}.

(** The values of [constants.py] and of [Hexapod.ApplicationStatus]. *)
Record Constants : Type := {
  XY_MAX_LIMIT : SalIndex -> pyfloat;
  Z_MIN_LIMIT : SalIndex -> pyfloat;
  Z_MAX_LIMIT : SalIndex -> pyfloat;
  UV_MAX_LIMIT : SalIndex -> pyfloat;
  W_MIN_LIMIT : SalIndex -> pyfloat;
  W_MAX_LIMIT : SalIndex -> pyfloat;
  MAX_ACCEL_LIMIT : pyfloat;
  MAX_LINEAR_VEL_LIMIT : pyfloat;
  MAX_ANGULAR_VEL_LIMIT : pyfloat;
  HEX_MOVE_COMPLETE_MASK : Z
}.

(** [structs.Config]. *)
Record Config : Type := {
  strut_acceleration : pyfloat;
  pos_limits : tuple6;
  vel_limits : tuple4;
  initial_pos : tuple6;
  pivot : tuple3;
  strut_displacement_max : pyfloat;
  strut_velocity_max : pyfloat
}.

(** [structs.Telemetry]. *)
Record Telemetry : Type := {
  state : ControllerState;
  offline_substate : Z;
  enabled_substate : Z;
  commanded_pos : tuple6;
  commanded_length : list pyfloat;
  measured_pos : tuple6;
  status_word : list Z;
  latching_fault_status_register : list Z;
  copley_fault_status_register : list Z;
  application_status : list Z;
  input_pin_states : list Z;
  test_state : Z;
  strut_encoder_raw : list pyfloat;
  strut_encoder_microns : list pyfloat
}.

(** A command from the wire. *)
Record Command : Type := {
  cmd : Z;
  param1 : pyfloat;
  param2 : pyfloat;
  param3 : pyfloat;
  param4 : pyfloat;
  param5 : pyfloat;
  param6 : pyfloat
}.

Inductive log_record : Type :=
| debug_run_command (c : Z) (p1 p2 p3 : pyfloat)
| debug_set_state (st : ControllerState) (off en : Z)
| error_unrecognized (c : Z) (p1 : pyfloat)
| error_failed (c : Z) (p1 : pyfloat) (e : exn).

(** The keys of [command_table]. *)
Inductive key : Type :=
| KeyPair (c p : Z)
| KeyCode (c : Z).

Definition key_eqb (a b : key) : bool :=
  match a, b with
  | KeyPair c p, KeyPair c' p' => (c =? c') && (p =? p')
  | KeyCode c, KeyCode c' => c =? c'
  | _, _ => false
  end.

(** The bound methods stored in [command_table]. *)
Inductive method : Type :=
| m_start | m_enable | m_standby | m_disable | m_exit | m_clear_error
| m_enter_control | m_move_point_to_point | m_stop | m_position_set
| m_set_pivotpoint | m_config_accel | m_config_limits | m_config_vel.

Definition method_eqb (a b : method) : bool :=
  match a, b with
  | m_start, m_start | m_enable, m_enable | m_standby, m_standby
  | m_disable, m_disable | m_exit, m_exit | m_clear_error, m_clear_error
  | m_enter_control, m_enter_control
  | m_move_point_to_point, m_move_point_to_point | m_stop, m_stop
  | m_position_set, m_position_set | m_set_pivotpoint, m_set_pivotpoint
  | m_config_accel, m_config_accel | m_config_limits, m_config_limits
  | m_config_vel, m_config_vel => true
  | _, _ => false
  end.

(** Modelled from the spec: the validation primitives of [utils.py], which
    is not among the sources ("positive-bounded: 0 < value <= bound",
    "negative-bounded: -bound <= value < 0", "symmetric-range",
    "asymmetric-range(low, high)").  The controller passes to
    [check_negative_value] its limit [z_min_limit] (or [w_min_limit]), the
    negative number that is also the low end of the range [do_position_set]
    checks z (or w) against: the bound of "negative-bounded" is the
    magnitude of that limit, and the check is
    [min_value <= value < 0]. *)
Module utils.

Definition check_positive_value (value : pyfloat) (name : string)
  (max_value : pyfloat) : result unit :=
  if PyFloat.lt (PyFloat.of_Z 0) value && PyFloat.le value max_value
  then Ok tt else Raise (ValueError name).

Definition check_negative_value (value : pyfloat) (name : string)
  (min_value : pyfloat) : result unit :=
  if PyFloat.le min_value value && PyFloat.lt value (PyFloat.of_Z 0)
  then Ok tt else Raise (ValueError name).

Definition check_symmetrical_range (value : pyfloat) (name : string)
  (max_value : pyfloat) : result unit :=
  if PyFloat.le (PyFloat.neg max_value) value && PyFloat.le value max_value
  then Ok tt else Raise (ValueError name).

Definition check_range (value : pyfloat) (name : string)
  (min_value max_value : pyfloat) : result unit :=
  if PyFloat.le min_value value && PyFloat.le value max_value
  then Ok tt else Raise (ValueError name).

End utils.

Module MockMTHexapodController.

Record t (H : Type) : Type := Controller {
  encoder_resolution : pyfloat;
  xy_max_limit : pyfloat;
  z_min_limit : pyfloat;
  z_max_limit : pyfloat;
  uv_max_limit : pyfloat;
  w_min_limit : pyfloat;
  w_max_limit : pyfloat;
  config : Config;
  hexapod : H;
  telemetry : Telemetry;
  set_position : tuple6;
  log : list log_record
}.
Arguments Controller {H}.
Arguments encoder_resolution {H}.
Arguments xy_max_limit {H}.
Arguments z_min_limit {H}.
Arguments z_max_limit {H}.
Arguments uv_max_limit {H}.
Arguments w_min_limit {H}.
Arguments w_max_limit {H}.
Arguments config {H}.
Arguments hexapod {H}.
Arguments telemetry {H}.
Arguments set_position {H}.
Arguments log {H}.

(** Arguments of [SimpleHexapod.make_zigzag_model] (class attributes). *)
Definition base_radius : pyfloat := PyFloat.of_Z 1000000.
Definition mirror_radius : pyfloat := PyFloat.of_Z 1000000.
Definition mirror_z : pyfloat := PyFloat.of_Z 500000.
Definition base_angle0 : pyfloat := PyFloat.of_Z 0.
Definition class_pivot : tuple3 :=
  T3 (PyFloat.of_Z 0) (PyFloat.of_Z 0) (PyFloat.of_Z 600000).
Definition max_length : pyfloat := PyFloat.of_Z 1500000.
Definition speed : pyfloat := PyFloat.of_Z 1000.

Section Controller.

Context {H : Type} {hex : SimpleHexapod H} (constants : Constants).

Local Abbreviation controller := (t H).

(** *** Attribute assignment *)

Definition with_config (cfg : Config) (c : controller) : controller :=
  Controller (encoder_resolution c) (xy_max_limit c) (z_min_limit c)
    (z_max_limit c) (uv_max_limit c) (w_min_limit c) (w_max_limit c)
    cfg (hexapod c) (telemetry c) (set_position c) (log c).

Definition with_hexapod (h : H) (c : controller) : controller :=
  Controller (encoder_resolution c) (xy_max_limit c) (z_min_limit c)
    (z_max_limit c) (uv_max_limit c) (w_min_limit c) (w_max_limit c)
    (config c) h (telemetry c) (set_position c) (log c).

Definition with_telemetry (tel : Telemetry) (c : controller) : controller :=
  Controller (encoder_resolution c) (xy_max_limit c) (z_min_limit c)
    (z_max_limit c) (uv_max_limit c) (w_min_limit c) (w_max_limit c)
    (config c) (hexapod c) tel (set_position c) (log c).

Definition with_set_position (p : tuple6) (c : controller) : controller :=
  Controller (encoder_resolution c) (xy_max_limit c) (z_min_limit c)
    (z_max_limit c) (uv_max_limit c) (w_min_limit c) (w_max_limit c)
    (config c) (hexapod c) (telemetry c) p (log c).

Definition with_log (l : list log_record) (c : controller) : controller :=
  Controller (encoder_resolution c) (xy_max_limit c) (z_min_limit c)
    (z_max_limit c) (uv_max_limit c) (w_min_limit c) (w_max_limit c)
    (config c) (hexapod c) (telemetry c) (set_position c) l.

Definition tel_with_states (st : ControllerState) (off en : Z)
  (tel : Telemetry) : Telemetry :=
  {| state := st; offline_substate := off; enabled_substate := en;
     commanded_pos := commanded_pos tel;
     commanded_length := commanded_length tel;
     measured_pos := measured_pos tel;
     status_word := status_word tel;
     latching_fault_status_register := latching_fault_status_register tel;
     copley_fault_status_register := copley_fault_status_register tel;
     application_status := application_status tel;
     input_pin_states := input_pin_states tel;
     test_state := test_state tel;
     strut_encoder_raw := strut_encoder_raw tel;
     strut_encoder_microns := strut_encoder_microns tel |}.

Definition tel_with_enabled_substate (en : Z) (tel : Telemetry) : Telemetry :=
  tel_with_states (state tel) (offline_substate tel) en tel.

Definition tel_with_commanded_pos (p : tuple6) (tel : Telemetry) : Telemetry :=
  {| state := state tel; offline_substate := offline_substate tel;
     enabled_substate := enabled_substate tel;
     commanded_pos := p;
     commanded_length := commanded_length tel;
     measured_pos := measured_pos tel;
     status_word := status_word tel;
     latching_fault_status_register := latching_fault_status_register tel;
     copley_fault_status_register := copley_fault_status_register tel;
     application_status := application_status tel;
     input_pin_states := input_pin_states tel;
     test_state := test_state tel;
     strut_encoder_raw := strut_encoder_raw tel;
     strut_encoder_microns := strut_encoder_microns tel |}.

Definition tel_with_commanded_length (l : list pyfloat) (tel : Telemetry)
  : Telemetry :=
  {| state := state tel; offline_substate := offline_substate tel;
     enabled_substate := enabled_substate tel;
     commanded_pos := commanded_pos tel;
     commanded_length := l;
     measured_pos := measured_pos tel;
     status_word := status_word tel;
     latching_fault_status_register := latching_fault_status_register tel;
     copley_fault_status_register := copley_fault_status_register tel;
     application_status := application_status tel;
     input_pin_states := input_pin_states tel;
     test_state := test_state tel;
     strut_encoder_raw := strut_encoder_raw tel;
     strut_encoder_microns := strut_encoder_microns tel |}.

Definition with_pos_limits (p : tuple6) (cfg : Config) : Config :=
  {| strut_acceleration := strut_acceleration cfg; pos_limits := p;
     vel_limits := vel_limits cfg; initial_pos := initial_pos cfg;
     pivot := pivot cfg;
     strut_displacement_max := strut_displacement_max cfg;
     strut_velocity_max := strut_velocity_max cfg |}.

Definition with_vel_limits (v : tuple4) (cfg : Config) : Config :=
  {| strut_acceleration := strut_acceleration cfg;
     pos_limits := pos_limits cfg;
     vel_limits := v; initial_pos := initial_pos cfg;
     pivot := pivot cfg;
     strut_displacement_max := strut_displacement_max cfg;
     strut_velocity_max := strut_velocity_max cfg |}.

Definition with_strut_acceleration (a : pyfloat) (cfg : Config) : Config :=
  {| strut_acceleration := a; pos_limits := pos_limits cfg;
     vel_limits := vel_limits cfg; initial_pos := initial_pos cfg;
     pivot := pivot cfg;
     strut_displacement_max := strut_displacement_max cfg;
     strut_velocity_max := strut_velocity_max cfg |}.

Definition with_pivot (p : tuple3) (cfg : Config) : Config :=
  {| strut_acceleration := strut_acceleration cfg;
     pos_limits := pos_limits cfg;
     vel_limits := vel_limits cfg; initial_pos := initial_pos cfg;
     pivot := p;
     strut_displacement_max := strut_displacement_max cfg;
     strut_velocity_max := strut_velocity_max cfg |}.

(** *** Methods: a computation reads and writes the controller and either
    returns or raises, keeping what it wrote before raising. *)

Definition M (A : Type) : Type := controller -> result A * controller.

Definition ret {A} (a : A) : M A := fun c => (Ok a, c).
Definition raise {A} (e : exn) : M A := fun c => (Raise e, c).
Definition bind {A B} (m : M A) (k : A -> M B) : M B :=
  fun c => match m c with
           | (Ok a, c') => k a c'
           | (Raise e, c') => (Raise e, c')
           end.
Definition get : M controller := fun c => (Ok c, c).
Definition modify (f : controller -> controller) : M unit :=
  fun c => (Ok tt, f c).
Definition lift {A} (r : result A) : M A := fun c => (r, c).
(** [try: m except Exception as e: handler(e)]. *)
Definition try_except (m : M unit) (handler : exn -> M unit) : M unit :=
  fun c => match m c with
           | (Ok tt, c') => (Ok tt, c')
           | (Raise e, c') => handler e c'
           end.

Notation "x <~ m ;; k" := (bind m (fun x => k))
  (at level 61, m at next level, right associativity).
Notation "m ;;; k" := (bind m (fun _ => k))
  (at level 61, right associativity).

Definition log_record_add (r : log_record) : M unit :=
  modify (fun c => with_log (log c ++ [r]) c).

(** [await self.write_config()]: the configuration goes out on the
    command socket; nothing of the controller changes. *)
Definition write_config : M unit := ret tt.

(** *** State and substates *)

Definition state_of (c : controller) : ControllerState := state (telemetry c).
Definition offline_substate_of (c : controller) : Z :=
  offline_substate (telemetry c).
Definition enabled_substate_of (c : controller) : Z :=
  enabled_substate (telemetry c).

Definition set_state (st : ControllerState) : M unit :=
  let off := match st with
             | OFFLINE => OfflineSubstate.AVAILABLE
             | _ => 0
             end in
  let en := match st with
            | ENABLED => EnabledSubstate.STATIONARY
            | _ => 0
            end in
  modify (fun c => with_telemetry (tel_with_states st off en (telemetry c)) c) ;;;
  log_record_add (debug_set_state st off en).

Definition assert_state (st : ControllerState)
  (offline_substate enabled_substate : option Z) : M unit :=
  c <~ get ;;
  if negb (ControllerState_eqb (state_of c) st) then
    raise (RuntimeError "state; must be the required state for this command.")
  else if match offline_substate with
          | Some off => negb (offline_substate_of c =? off)
          | None => false
          end then
    raise (RuntimeError "offline_substate; must be the required one for this command.")
  else if match enabled_substate with
          | Some en => negb (enabled_substate_of c =? en)
          | None => false
          end then
    raise (RuntimeError "enabled_substate; must be the required one for this command.")
  else ret tt.

Definition assert_stationary : M unit :=
  assert_state ENABLED None (Some EnabledSubstate.STATIONARY).

Definition get_command_key (command : Command) : result key :=
  if (cmd command =? CommandCode.SET_STATE)
     || (cmd command =? CommandCode.SET_ENABLED_SUBSTATE)
  then p <- PyFloat.int (param1 command) ;; Ok (KeyPair (cmd command) p)
  else Ok (KeyCode (cmd command)).

(** *** Command handlers *)

Definition do_enter_control (command : Command) : M unit :=
  assert_state OFFLINE (Some OfflineSubstate.AVAILABLE) None ;;;
  set_state STANDBY.

Definition do_start (command : Command) : M unit :=
  assert_state STANDBY None None ;;; set_state DISABLED.

Definition do_enable (command : Command) : M unit :=
  assert_state DISABLED None None ;;; set_state ENABLED.

Definition do_disable (command : Command) : M unit :=
  assert_state ENABLED None None ;;; set_state DISABLED.

Definition do_standby (command : Command) : M unit :=
  assert_state DISABLED None None ;;; set_state STANDBY.

Definition do_exit (command : Command) : M unit :=
  assert_state STANDBY None None ;;; set_state OFFLINE.

Definition do_clear_error (command : Command) : M unit :=
  c <~ get ;;
  if negb (ControllerState_eqb (state_of c) FAULT
           || ControllerState_eqb (state_of c) OFFLINE) then
    raise (RuntimeError "state; must be FAULT or OFFLINE for this command.")
  else set_state OFFLINE.

Definition do_config_accel (command : Command) : M unit :=
  assert_stationary ;;;
  if negb (PyFloat.lt (PyFloat.of_Z 0) (param1 command)
           && PyFloat.le (param1 command) (MAX_ACCEL_LIMIT constants)) then
    raise (ValueError "Requested accel limit not in range")
  else
    modify (fun c =>
      with_config (with_strut_acceleration (param1 command) (config c)) c) ;;;
    write_config.

Definition do_config_limits (command : Command) : M unit :=
  assert_stationary ;;;
  c <~ get ;;
  lift (utils.check_positive_value (param1 command) "xymax" (xy_max_limit c)) ;;;
  lift (utils.check_negative_value (param2 command) "zmin" (z_min_limit c)) ;;;
  lift (utils.check_positive_value (param3 command) "zmax" (z_max_limit c)) ;;;
  lift (utils.check_positive_value (param4 command) "uvmax" (uv_max_limit c)) ;;;
  lift (utils.check_negative_value (param5 command) "wmin" (w_min_limit c)) ;;;
  lift (utils.check_positive_value (param6 command) "wmax" (w_max_limit c)) ;;;
  modify (fun c =>
    with_config
      (with_pos_limits
         (T6 (param1 command) (param2 command) (param3 command)
             (param4 command) (param5 command) (param6 command))
         (config c)) c) ;;;
  write_config.

Definition do_config_vel (command : Command) : M unit :=
  assert_stationary ;;;
  lift (utils.check_positive_value (param1 command) "xymax"
          (MAX_LINEAR_VEL_LIMIT constants)) ;;;
  lift (utils.check_positive_value (param2 command) "rxrymax"
          (MAX_ANGULAR_VEL_LIMIT constants)) ;;;
  lift (utils.check_positive_value (param3 command) "zmax"
          (MAX_LINEAR_VEL_LIMIT constants)) ;;;
  lift (utils.check_positive_value (param4 command) "rzmax"
          (MAX_ANGULAR_VEL_LIMIT constants)) ;;;
  modify (fun c =>
    with_config
      (with_vel_limits
         (T4 (param1 command) (param2 command) (param3 command)
             (param4 command))
         (config c)) c) ;;;
  write_config.

Definition do_offset (command : Command) : M unit :=
  assert_stationary.

Definition do_position_set (command : Command) : M unit :=
  assert_stationary ;;;
  c <~ get ;;
  let lim := pos_limits (config c) in
  lift (utils.check_symmetrical_range (param1 command) "x" (t0 lim)) ;;;
  lift (utils.check_symmetrical_range (param2 command) "y" (t0 lim)) ;;;
  lift (utils.check_range (param3 command) "z" (t1 lim) (t2 lim)) ;;;
  lift (utils.check_symmetrical_range (param4 command) "u" (t3 lim)) ;;;
  lift (utils.check_symmetrical_range (param5 command) "v" (t3 lim)) ;;;
  lift (utils.check_range (param6 command) "w" (t4 lim) (t5 lim)) ;;;
  modify (with_set_position
            (T6 (param1 command) (param2 command) (param3 command)
                (param4 command) (param5 command) (param6 command))).

Definition do_set_pivotpoint (command : Command) : M unit :=
  assert_stationary ;;;
  modify (fun c =>
    with_config
      (with_pivot (T3 (param1 command) (param2 command) (param3 command))
         (config c)) c) ;;;
  write_config.

Definition do_stop (command : Command) : M unit :=
  assert_state ENABLED None None ;;;
  modify (fun c => with_hexapod (stop (hexapod c)) c) ;;;
  modify (fun c =>
    with_telemetry
      (tel_with_enabled_substate EnabledSubstate.STATIONARY (telemetry c)) c).

(** [self.hexapod.move(pos=..., xyzrot=...)]. *)
Definition hexapod_move (pos xyzrot : tuple3) : M unit :=
  fun c => let '(r, h) := move pos xyzrot (hexapod c) in
           (r, with_hexapod h c).

Definition do_move_point_to_point (command : Command) : M unit :=
  c <~ get ;;
  if negb (PyFloat.isfinite (t0 (set_position c))) then
    raise (RuntimeError "Must call POSITION_SET before calling MOVE_POINT_TO_POINT")
  else
    modify (fun c =>
      with_telemetry
        (tel_with_commanded_pos (set_position c) (telemetry c)) c) ;;;
    c <~ get ;;
    let p := commanded_pos (telemetry c) in
    hexapod_move (T3 (t0 p) (t1 p) (t2 p)) (T3 (t3 p) (t4 p) (t5 p)) ;;;
    modify (fun c =>
      with_telemetry
        (tel_with_commanded_length
           (map end_pos (actuators (hexapod c))) (telemetry c)) c) ;;;
    modify (fun c =>
      with_telemetry
        (tel_with_enabled_substate EnabledSubstate.MOVING_POINT_TO_POINT
           (telemetry c)) c).

(** *** Dispatch *)

Definition command_table : list (key * method) :=
  [ (KeyPair CommandCode.SET_STATE SetStateParam.START, m_start);
    (KeyPair CommandCode.SET_STATE SetStateParam.ENABLE, m_enable);
    (KeyPair CommandCode.SET_STATE SetStateParam.STANDBY, m_standby);
    (KeyPair CommandCode.SET_STATE SetStateParam.DISABLE, m_disable);
    (KeyPair CommandCode.SET_STATE SetStateParam.EXIT, m_exit);
    (KeyPair CommandCode.SET_STATE SetStateParam.CLEAR_ERROR, m_clear_error);
    (KeyPair CommandCode.SET_STATE SetStateParam.ENTER_CONTROL, m_enter_control);
    (KeyPair CommandCode.SET_ENABLED_SUBSTATE
       SetEnabledSubstateParam.MOVE_POINT_TO_POINT, m_move_point_to_point);
    (KeyPair CommandCode.SET_ENABLED_SUBSTATE
       SetEnabledSubstateParam.MOVE_LUT, m_move_point_to_point);
    (KeyPair CommandCode.SET_ENABLED_SUBSTATE
       SetEnabledSubstateParam.STOP, m_stop);
    (KeyCode CommandCode.POSITION_SET, m_position_set);
    (KeyCode CommandCode.SET_PIVOTPOINT, m_set_pivotpoint);
    (KeyCode CommandCode.CONFIG_ACCEL, m_config_accel);
    (KeyCode CommandCode.CONFIG_LIMITS, m_config_limits);
    (KeyCode CommandCode.CONFIG_VEL, m_config_vel) ].

(** [self.command_table.get(key, None)]. *)
Fixpoint table_get (k : key) (table : list (key * method)) : option method :=
  match table with
  | [] => None
  | (k', m) :: rest => if key_eqb k k' then Some m else table_get k rest
  end.

(** Calling a bound method. *)
Definition call (m : method) : Command -> M unit :=
  match m with
  | m_start => do_start
  | m_enable => do_enable
  | m_standby => do_standby
  | m_disable => do_disable
  | m_exit => do_exit
  | m_clear_error => do_clear_error
  | m_enter_control => do_enter_control
  | m_move_point_to_point => do_move_point_to_point
  | m_stop => do_stop
  | m_position_set => do_position_set
  | m_set_pivotpoint => do_set_pivotpoint
  | m_config_accel => do_config_accel
  | m_config_limits => do_config_limits
  | m_config_vel => do_config_vel
  end.

Definition run_command (command : Command) : M unit :=
  code <~ lift (CommandCode.of_value (cmd command)) ;;
  log_record_add (debug_run_command code (param1 command) (param2 command)
                    (param3 command)) ;;;
  k <~ lift (get_command_key command) ;;
  match table_get k command_table with
  | None => log_record_add (error_unrecognized (cmd command) (param1 command))
  | Some cmd_method =>
      try_except (call cmd_method command)
        (fun e =>
           log_record_add (error_failed (cmd command) (param1 command) e)) ;;;
      if negb (method_eqb cmd_method m_position_set) then
        modify (with_set_position (six NaN))
      else ret tt
  end.

(** *** Telemetry *)

Definition update_telemetry : M unit :=
  c <~ get ;;
  let tel := telemetry c in
  let axes_in_position := map (fun a => negb (moving a)) (actuators (hexapod c)) in
  let curr := map curr_pos (actuators (hexapod c)) in
  let tel1 :=
    {| state := state tel; offline_substate := offline_substate tel;
       enabled_substate := enabled_substate tel;
       commanded_pos := commanded_pos tel;
       commanded_length := commanded_length tel;
       measured_pos := commanded_pos tel;
       status_word := repeat 0 6;
       latching_fault_status_register := repeat 0 6;
       copley_fault_status_register := repeat 0 6;
       application_status :=
         map (fun in_position : bool =>
                (if in_position then 1 else 0)
                * HEX_MOVE_COMPLETE_MASK constants) axes_in_position;
       input_pin_states := repeat 0 3;
       test_state := 0;
       strut_encoder_raw :=
         map (fun pos => PyFloat.mul pos (encoder_resolution c)) curr;
       strut_encoder_microns := curr |} in
  modify (with_telemetry tel1) ;;;
  if ControllerState_eqb (state tel1) ENABLED
     && (enabled_substate tel1 =? EnabledSubstate.MOVING_POINT_TO_POINT)
     && forallb (fun b : bool => b) axes_in_position
  then
    modify (fun c =>
      with_telemetry
        (tel_with_enabled_substate EnabledSubstate.STATIONARY (telemetry c)) c)
  else ret tt.

(** [close]: stops the hexapod, then the servers. *)
Definition close : M unit :=
  modify (fun c => with_hexapod (stop (hexapod c)) c).

(** *** Construction *)

Definition init (index : SalIndex) (initial_state : ControllerState)
  : controller :=
  let cfg :=
    {| strut_acceleration := PyFloat.of_Z 500;
       pos_limits :=
         T6 (XY_MAX_LIMIT constants index) (Z_MIN_LIMIT constants index)
            (Z_MAX_LIMIT constants index) (UV_MAX_LIMIT constants index)
            (W_MIN_LIMIT constants index) (W_MAX_LIMIT constants index);
       vel_limits :=
         T4 (MAX_LINEAR_VEL_LIMIT constants) (MAX_ANGULAR_VEL_LIMIT constants)
            (MAX_LINEAR_VEL_LIMIT constants) (MAX_ANGULAR_VEL_LIMIT constants);
       initial_pos := six (PyFloat.of_Z 0);
       pivot := class_pivot;
       strut_displacement_max := max_length;
       strut_velocity_max := speed |} in
  let tel :=
    {| state := OFFLINE; offline_substate := 0; enabled_substate := 0;
       commanded_pos := six (PyFloat.of_Z 0);
       commanded_length := repeat (PyFloat.of_Z 0) 6;
       measured_pos := six (PyFloat.of_Z 0);
       status_word := repeat 0 6;
       latching_fault_status_register := repeat 0 6;
       copley_fault_status_register := repeat 0 6;
       application_status := repeat 0 6;
       input_pin_states := repeat 0 3;
       test_state := 0;
       strut_encoder_raw := repeat (PyFloat.of_Z 0) 6;
       strut_encoder_microns := repeat (PyFloat.of_Z 0) 6 |} in
  let c :=
    {| encoder_resolution := PyFloat.of_Z 200000;
       xy_max_limit := XY_MAX_LIMIT constants index;
       z_min_limit := Z_MIN_LIMIT constants index;
       z_max_limit := Z_MAX_LIMIT constants index;
       uv_max_limit := UV_MAX_LIMIT constants index;
       w_min_limit := W_MIN_LIMIT constants index;
       w_max_limit := W_MAX_LIMIT constants index;
       config := cfg;
       hexapod :=
         make_zigzag_model base_radius mirror_radius mirror_z base_angle0
           class_pivot (PyFloat.of_Z 0) max_length speed;
       telemetry := tel;
       set_position := six NaN;
       log := [] |} in
  snd (set_state initial_state c).

(** *** Runs of the controller *)

(** The controllers a run can be in: constructed by [init], then driven by
    commands, telemetry ticks and [close], with time passing in between.
    A call that raises leaves the controller as it was when the exception
    left the method.  The struts of the kinematics model move with the
    clock, not with the calls of the controller: what an actuator reports
    as its position and as [moving] changes between two calls.  The step
    [reach_elapse] stands for it and lets the kinematics model become any
    other, which covers whatever the clock does to it; the controller's
    own attributes stay. *)
Inductive reachable : controller -> Prop :=
| reach_init index initial_state : reachable (init index initial_state)
| reach_run_command c command :
    reachable c -> reachable (snd (run_command command c))
| reach_update_telemetry c :
    reachable c -> reachable (snd (update_telemetry c))
| reach_close c :
    reachable c -> reachable (snd (close c))
| reach_elapse c h :
    reachable c -> reachable (with_hexapod h c).

(** The bound method [run_command] finds for a command, if it gets as far
    as finding one. *)
Definition handler_of (command : Command) : option method :=
  match CommandCode.of_value (cmd command) with
  | Raise _ => None
  | Ok _ =>
      match get_command_key command with
      | Raise _ => None
      | Ok k => table_get k command_table
      end
  end.

(** The declared transition table, following the specification: the state
    (and substate) each state-change and substate-change command requires.
    [MOVE_LUT] stands with [MOVE_POINT_TO_POINT], as in [command_table]. *)
Definition transition_declared (k : key) (c : controller) : bool :=
  let in_state st := ControllerState_eqb (state_of c) st in
  match k with
  | KeyCode _ => false
  | KeyPair code p =>
      if code =? CommandCode.SET_STATE then
        if p =? SetStateParam.ENTER_CONTROL then
          in_state OFFLINE
          && (offline_substate_of c =? OfflineSubstate.AVAILABLE)
        else if p =? SetStateParam.START then in_state STANDBY
        else if p =? SetStateParam.ENABLE then in_state DISABLED
        else if p =? SetStateParam.DISABLE then in_state ENABLED
        else if p =? SetStateParam.STANDBY then in_state DISABLED
        else if p =? SetStateParam.EXIT then in_state STANDBY
        else if p =? SetStateParam.CLEAR_ERROR then
          in_state FAULT || in_state OFFLINE
        else false
      else if code =? CommandCode.SET_ENABLED_SUBSTATE then
        if (p =? SetEnabledSubstateParam.MOVE_POINT_TO_POINT)
           || (p =? SetEnabledSubstateParam.MOVE_LUT) then in_state ENABLED
        else if p =? SetEnabledSubstateParam.STOP then in_state ENABLED
        else false
      else false
  end.

(** A command is legal in a controller when its key can be computed and
    the transition table allows it there. *)
Definition legal (command : Command) (c : controller) : bool :=
  match get_command_key command with
  | Ok k => transition_declared k c
  | Raise _ => false
  end.

(** The staged target and the enabled substate agree with the state: the
    enabled substate is zero outside [ENABLED], and a target is staged
    only in [ENABLED] and [STATIONARY]. *)
Definition consistent (c : controller) : Prop :=
  (state_of c <> ENABLED -> enabled_substate_of c = 0)
  /\ (PyFloat.isfinite (t0 (set_position c)) = true ->
      state_of c = ENABLED
      /\ enabled_substate_of c = EnabledSubstate.STATIONARY).

(** What telemetry shows of the state machine. *)
Definition states_of (c : controller) : ControllerState * Z * Z :=
  (state_of c, offline_substate_of c, enabled_substate_of c).

End Controller.

End MockMTHexapodController.

(** ** A kinematics model and constants to run examples with *)

Module Sample.

Definition rest : Actuator :=
  {| curr_pos := PyFloat.of_Z 0; end_pos := PyFloat.of_Z 0; moving := false |}.

(** Six struts; a move sets every strut going toward the requested [z],
    and is refused beyond the strut length. *)
#[global] Instance model : SimpleHexapod (list Actuator) := {
  make_zigzag_model _ _ _ _ _ _ _ _ := repeat rest 6;
  move pos _ h :=
    if PyFloat.le (a2 pos) MockMTHexapodController.max_length then
      (Ok tt,
       map (fun a => {| curr_pos := curr_pos a; end_pos := a2 pos;
                        moving := true |}) h)
    else (Raise (ValueError "strut length out of range"), h);
  stop h :=
    map (fun a => {| curr_pos := curr_pos a; end_pos := curr_pos a;
                     moving := false |}) h;
  actuators h := h
}.

Definition constants : Constants :=
  {| XY_MAX_LIMIT _ := PyFloat.of_Z 11400;
     Z_MIN_LIMIT _ := PyFloat.of_Z (-13100);
     Z_MAX_LIMIT _ := PyFloat.of_Z 13100;
     UV_MAX_LIMIT _ := PyFloat.of_Z 1;
     W_MIN_LIMIT _ := PyFloat.of_Z (-1);
     W_MAX_LIMIT _ := PyFloat.of_Z 1;
     MAX_ACCEL_LIMIT := PyFloat.of_Z 500;
     MAX_LINEAR_VEL_LIMIT := PyFloat.of_Z 2000;
     MAX_ANGULAR_VEL_LIMIT := PyFloat.of_Z 1;
     HEX_MOVE_COMPLETE_MASK := 0x2000 |}.

Definition command (code : Z) (p1 p2 p3 p4 p5 p6 : Z) : Command :=
  {| cmd := code;
     param1 := PyFloat.of_Z p1; param2 := PyFloat.of_Z p2;
     param3 := PyFloat.of_Z p3; param4 := PyFloat.of_Z p4;
     param5 := PyFloat.of_Z p5; param6 := PyFloat.of_Z p6 |}.

Definition position_set : Command :=
  command CommandCode.POSITION_SET 100 200 300 0 0 0.

Definition run (commands : list Command)
  (c : MockMTHexapodController.t (list Actuator))
  : MockMTHexapodController.t (list Actuator) :=
  fold_left
    (fun c command => snd (MockMTHexapodController.run_command constants command c))
    commands c.

(** An enabled controller with a staged target. *)
Definition staged : MockMTHexapodController.t (list Actuator) :=
  run [position_set] (MockMTHexapodController.init constants CAM_HEXAPOD ENABLED).

(** The struts after the time their move takes: every strut at its end
    position, none moving. *)
Definition arrive (h : list Actuator) : list Actuator :=
  map (fun a => {| curr_pos := end_pos a; end_pos := end_pos a;
                   moving := false |}) h.

(** Calibration files, line by line. *)
Definition elevation_lines : list string :=
  ["# elevation corrections"; "   ";
   "Elevation X Y Z U V W";
   " 0  0  0.5 0 0 0 0";
   "10  1  1.5 0 0 0 0";
   "20  2  2.5 0 0 0 0";
   "30  3  3.5 0 0 0 0";
   "40  4  4.5 0 0 0 0"]%string.

Definition elevation : LookupTable.t :=
  LookupTable.Table (Some "elevation"%string)
    [0; 10; 20; 30; 40]%float
    [LookupTable.V6 0 0.5 0 0 0 0; LookupTable.V6 1 1.5 0 0 0 0;
     LookupTable.V6 2 2.5 0 0 0 0; LookupTable.V6 3 3.5 0 0 0 0;
     LookupTable.V6 4 4.5 0 0 0 0]%float.

(** The input value 1 twice. *)
Definition duplicate_lines : list string :=
  ["elevation x y z u v w";
   "0 0 0 0 0 0 0";
   "1 1 1 1 1 1 1";
   "1 2 2 2 2 2 2"]%string.

Definition duplicate : LookupTable.t :=
  LookupTable.Table (Some "elevation"%string)
    [0; 1; 1]%float
    [LookupTable.V6 0 0 0 0 0 0; LookupTable.V6 1 1 1 1 1 1;
     LookupTable.V6 2 2 2 2 2 2]%float.



(** A single data line whose input value is not a number. *)
Definition nan_row_lines : list string :=
  ["temperature x y z u v w";
   "nan 1 2 3 4 5 6"]%string.

Definition nan_row : LookupTable.t :=
  LookupTable.Table (Some "temperature"%string) [nan]
    [LookupTable.V6 1 2 3 4 5 6]%float.



(** A not-a-number between two inputs in decreasing order. *)
Definition nan_between_lines : list string :=
  ["elevation x y z u v w";
   "0 0 0 0 0 0 0";
   "nan 1 1 1 1 1 1";
   "-1 2 2 2 2 2 2"]%string.

Definition nan_between : LookupTable.t :=
  LookupTable.Table (Some "elevation"%string)
    [0; nan; -1]%float
    [LookupTable.V6 0 0 0 0 0 0; LookupTable.V6 1 1 1 1 1 1;
     LookupTable.V6 2 2 2 2 2 2]%float.

End Sample.

(** ** Lines a calibration file may hold besides its table *)

(** A line [__init__] skips: blank once stripped, or a comment. *)
Definition is_skipped (line : string) : bool :=
  match PyStr.strip line with
  | EmptyString => true
  | String c _ => Ascii.eqb c "#"
  end.

(** ** The compensation of [HexapodCsc.do_compensatedMove] *)

Module HexapodCsc.

(** The fields of the [compensatedMove] command the computation reads. *)
Record CompensatedMoveData : Type := MoveData {
  elevation : PrimFloat.float;
  azimuth : PrimFloat.float;
  temperature : PrimFloat.float;
  x : PrimFloat.float;
  y : PrimFloat.float;
  z : PrimFloat.float;
  u : PrimFloat.float;
  v : PrimFloat.float;
  w : PrimFloat.float
}.

(** The three tables of the CSC. *)
Record t : Type := Csc {
  elevation_lut : LookupTable.t;
  azimuth_lut : LookupTable.t;
  temperature_lut : LookupTable.t
}.

(** [max(a, b)] and [min(a, b)] of two arguments: the first one unless the
    second is strictly larger (smaller); so a first argument that is
    not-a-number stays. *)
Definition py_max (a b : PrimFloat.float) : PrimFloat.float :=
  if (a <? b)%float then b else a.
Definition py_min (a b : PrimFloat.float) : PrimFloat.float :=
  if (b <? a)%float then b else a.

Section Compensation.

(** [salobj.angle_wrap_nonnegative(angle).deg], of the salobj package: the
    angle in degrees, taken as a Python float. *)
Variable angle_wrap_nonnegative : PrimFloat.float -> PrimFloat.float.

(** The position [do_compensatedMove] computes (the x, y, z, u, v, w of
    [corr_data]): the body of the method from the elevation look-up to the
    loop that fills [corr_data], after the substate assertion and before
    the commands are made. *)
Definition compensated_position (self : t) (data : CompensatedMoveData)
  : result LookupTable.vec6 :=
  elevation_corr <-
    LookupTable.get_correction (elevation_lut self) (elevation data) ;;
  let azimuth := angle_wrap_nonnegative (azimuth data) in
  azimuth_corr <- LookupTable.get_correction (azimuth_lut self) azimuth ;;
  let temperature := temperature data in
  first <- py_index (LookupTable.input_data (temperature_lut self)) 0 ;;
  let temperature := py_max temperature first in
  last <- py_index (LookupTable.input_data (temperature_lut self)) (-1) ;;
  let temperature := py_min temperature last in
  temperature_corr <-
    LookupTable.get_correction (temperature_lut self) temperature ;;
  let total_corr :=
    LookupTable.vadd (LookupTable.vadd elevation_corr azimuth_corr)
      temperature_corr in
  Ok (LookupTable.vadd
        (LookupTable.V6 (x data) (y data) (z data) (u data) (v data) (w data))
        total_corr).

End Compensation.

End HexapodCsc.

(** A table [get_correction] can interpolate on: strictly increasing
    inputs, at least two of them, and a row for each. *)
Definition well_formed (tbl : LookupTable.t) : Prop :=
  Sorted LookupTable.flt (LookupTable.input_data tbl)
  /\ (2 <= length (LookupTable.input_data tbl))%nat
  /\ length (LookupTable.corr_data tbl)
     = length (LookupTable.input_data tbl).

(** A value inside the range of a table. *)
Definition in_range (tbl : LookupTable.t) (value : PrimFloat.float) : Prop :=
  LookupTable.fle (hd 0%float (LookupTable.input_data tbl)) value
  /\ LookupTable.fle value (last (LookupTable.input_data tbl) 0%float).

(** The nearest value of [[lo, hi]]; not-a-number stays. *)
Definition truncated (lo hi value : PrimFloat.float) : PrimFloat.float :=
  if (value <? lo)%float then lo
  else if (hi <? value)%float then hi else value.

(** ** Sequences of commands and what a run keeps fixed *)

Section Runs.

Context {H : Type} {hex : SimpleHexapod H} (constants : Constants).

(** The commands of a list, dispatched one after the other. *)
Definition run_commands (commands : list Command)
  (c : MockMTHexapodController.t H) : MockMTHexapodController.t H :=
  fold_left
    (fun c command =>
       snd (MockMTHexapodController.run_command constants command c))
    commands c.

(** The attributes [__init__] sets once: the encoder resolution and the
    hardware limits. *)
Definition envelope (c : MockMTHexapodController.t H)
  : pyfloat * (pyfloat * pyfloat * pyfloat * pyfloat * pyfloat * pyfloat) :=
  (MockMTHexapodController.encoder_resolution c,
   (MockMTHexapodController.xy_max_limit c,
    MockMTHexapodController.z_min_limit c,
    MockMTHexapodController.z_max_limit c,
    MockMTHexapodController.uv_max_limit c,
    MockMTHexapodController.w_min_limit c,
    MockMTHexapodController.w_max_limit c)).

End Runs.

(** A SET_STATE command with the given trigger. *)
Definition set_state_command (p : Z) : Command :=
  {| cmd := CommandCode.SET_STATE; param1 := PyFloat.of_Z p;
     param2 := PyFloat.of_Z 0; param3 := PyFloat.of_Z 0;
     param4 := PyFloat.of_Z 0; param5 := PyFloat.of_Z 0;
     param6 := PyFloat.of_Z 0 |}.

(** The state each state-change handler passes to [set_state]. *)
Definition set_state_target (m : method) : option ControllerState :=
  match m with
  | m_enter_control => Some STANDBY
  | m_start => Some DISABLED
  | m_enable => Some ENABLED
  | m_disable => Some DISABLED
  | m_standby => Some STANDBY
  | m_exit => Some OFFLINE
  | m_clear_error => Some OFFLINE
  | _ => None
  end.

Import MockMTHexapodController.

(** * Proofs *)

(** ** Controller *)

Section ControllerProofs.

Context {H : Type} {hex : SimpleHexapod H} (constants : Constants).

Local Abbreviation controller := (MockMTHexapodController.t H).

Ltac unfold_monad :=
  cbv beta iota zeta delta
    [bind ret raise get modify lift try_except log_record_add write_config
     hexapod_move set_state assert_state assert_stationary
     do_start do_enable do_standby do_disable do_exit do_clear_error
     do_enter_control do_move_point_to_point do_stop do_position_set
     do_set_pivotpoint do_config_accel do_config_limits do_config_vel
     call close
     utils.check_positive_value utils.check_negative_value
     utils.check_symmetrical_range utils.check_range] in *.

Ltac unfold_state :=
  cbv beta iota zeta delta
    [state_of offline_substate_of enabled_substate_of states_of
     with_log with_telemetry with_config with_hexapod with_set_position
     tel_with_states tel_with_enabled_substate tel_with_commanded_pos
     tel_with_commanded_length
     encoder_resolution xy_max_limit z_min_limit z_max_limit uv_max_limit
     w_min_limit w_max_limit config hexapod telemetry set_position log
     state offline_substate enabled_substate commanded_pos fst snd] in *.

Ltac split_ifs :=
  repeat match goal with
    | |- context [if ?b then _ else _] => destruct b eqn:?
    | |- context [match move ?p ?q ?h with _ => _ end] =>
        destruct (move p q h) as [[[]|?] ?] eqn:?
    end.

Lemma ControllerState_eqb_eq a b :
  ControllerState_eqb a b = true <-> a = b.
Proof. destruct a, b; simpl; split; congruence. Qed.

Lemma ControllerState_eqb_neq a b :
  ControllerState_eqb a b = false <-> a <> b.
Proof. destruct a, b; simpl; split; congruence. Qed.

Lemma key_eqb_eq a b : key_eqb a b = true -> a = b.
Proof.
  destruct a, b; simpl; try discriminate.
  - intros E. apply andb_true_iff in E as [E1 E2].
    apply Z.eqb_eq in E1, E2. congruence.
  - intros E. apply Z.eqb_eq in E. congruence.
Qed.

Lemma table_get_In k m table :
  table_get k table = Some m -> In (k, m) table.
Proof.
  induction table as [|[k' m'] rest IH]; simpl; [discriminate|].
  destruct (key_eqb k k') eqn:E.
  - intros [= ->]. left. apply key_eqb_eq in E. congruence.
  - intros E'. right. auto.
Qed.

(** What a handler can do to the state machine: a handler other than
    [do_position_set] keeps the first half of [consistent]. *)
Lemma call_states m command (c : controller) :
  (state_of c <> ENABLED -> enabled_substate_of c = 0) ->
  (m = m_move_point_to_point ->
   PyFloat.isfinite (t0 (set_position c)) = true -> state_of c = ENABLED) ->
  let c' := snd (call constants m command c) in
  state_of c' <> ENABLED -> enabled_substate_of c' = 0.
Proof.
  intros H1 H2.
  destruct m; unfold_monad; split_ifs; simpl; auto;
    try (intros; congruence).
  all: try (intros E; exfalso; apply E; apply H2; auto;
            match goal with
            | Hf : negb _ = false |- _ =>
                apply negb_false_iff in Hf; exact Hf
            end).
Qed.

(** [run_command], step by step. *)
Lemma run_command_eq command (c : controller) :
  run_command constants command c =
  match CommandCode.of_value (cmd command) with
  | Raise e => (Raise e, c)
  | Ok code =>
      let c1 :=
        with_log (log c ++ [debug_run_command code (param1 command)
                              (param2 command) (param3 command)]) c in
      match get_command_key command with
      | Raise e => (Raise e, c1)
      | Ok k =>
          match table_get k command_table with
          | None =>
              (Ok tt,
               with_log (log c1 ++ [error_unrecognized (cmd command)
                                      (param1 command)]) c1)
          | Some m =>
              let rc := call constants m command c1 in
              let c3 :=
                match fst rc with
                | Ok _ => snd rc
                | Raise e =>
                    with_log (log (snd rc)
                              ++ [error_failed (cmd command) (param1 command) e])
                      (snd rc)
                end in
              (Ok tt,
               if method_eqb m m_position_set then c3
               else with_set_position (six NaN) c3)
          end
      end
  end.
Proof.
  unfold run_command.
  cbv beta iota zeta delta [bind lift log_record_add modify try_except ret].
  destruct (CommandCode.of_value (cmd command)); [|reflexivity].
  destruct (get_command_key command) as [k|]; [|reflexivity].
  destruct (table_get k command_table) as [m|]; [|reflexivity].
  destruct (call constants m command _) as [[[]|e] c2]; simpl;
    destruct (method_eqb m m_position_set); reflexivity.
Qed.

(** The log plays no part in what a handler does. *)
Lemma call_log m command (c : controller) l :
  fst (call constants m command (with_log l c))
  = fst (call constants m command c)
  /\ with_log [] (snd (call constants m command (with_log l c)))
     = with_log [] (snd (call constants m command c)).
Proof.
  destruct c as [er l1 l2 l3 l4 l5 l6 cfg h tel sp lg].
  destruct m; unfold_monad; unfold_state; split_ifs; auto.
Qed.

(** A handler that raises has changed nothing, except that
    [do_move_point_to_point] has already copied the staged target into the
    commanded position when the kinematics model refuses the move. *)
Lemma call_raise m command (c : controller) e :
  fst (call constants m command c) = Raise e ->
  snd (call constants m command c) = c
  \/ (m = m_move_point_to_point
      /\ PyFloat.isfinite (t0 (set_position c)) = true
      /\ exists h,
          snd (call constants m command c)
          = with_hexapod h
              (with_telemetry
                 (tel_with_commanded_pos (set_position c) (telemetry c)) c)).
Proof.
  destruct c as [er l1 l2 l3 l4 l5 l6 cfg h tel sp lg].
  destruct m; unfold_monad; unfold_state; split_ifs;
    try discriminate; auto.
  intros _. right. split; [reflexivity|].
  match goal with
  | Hf : negb _ = false |- _ => apply negb_false_iff in Hf
  end.
  split; [assumption|]. eexists. reflexivity.
Qed.

(** [do_position_set] either raises and changes nothing, or stages its six
    parameters, which it does only when enabled and stationary. *)
Lemma position_set_effect command (c : controller) :
  (exists e, do_position_set command c = (Raise e, c))
  \/ (do_position_set command c
      = (Ok tt,
         with_set_position
           (T6 (param1 command) (param2 command) (param3 command)
               (param4 command) (param5 command) (param6 command)) c)
      /\ state_of c = ENABLED
      /\ enabled_substate_of c = EnabledSubstate.STATIONARY).
Proof.
  unfold_monad. unfold_state. split_ifs; try (left; eexists; reflexivity).
  right. split; [reflexivity|].
  repeat match goal with
         | Hf : negb _ = false |- _ => apply negb_false_iff in Hf
         end.
  split.
  - now apply ControllerState_eqb_eq.
  - now apply Z.eqb_eq.
Qed.

Lemma consistent_with_log l (c : controller) :
  consistent (with_log l c) <-> consistent c.
Proof. reflexivity. Qed.

Lemma run_command_consistent command (c : controller) :
  consistent c -> consistent (snd (run_command constants command c)).
Proof.
  intros Hc. rewrite run_command_eq.
  destruct (CommandCode.of_value (cmd command)) as [code|]; [|exact Hc].
  cbv zeta.
  destruct (get_command_key command) as [k|]; [|exact Hc].
  destruct (table_get k command_table) as [m|]; [|exact Hc].
  set (c1 := with_log _ c).
  assert (Hc1 : consistent c1) by exact Hc.
  clearbody c1. simpl snd.
  destruct (method_eqb m m_position_set) eqn:Em.
  - assert (m = m_position_set) as -> by (destruct m; simpl in Em; congruence).
    simpl call.
    destruct (position_set_effect command c1) as [[e ->]|[-> [Hs He]]];
      simpl; [exact Hc1|].
    split; intros; simpl in *; auto; try congruence.
  - split.
    + assert (Hm := call_states m command c1 (proj1 Hc1)).
      cbv zeta in Hm.
      destruct (fst (call constants m command c1)); apply Hm;
        intros _ Hf; apply (proj2 Hc1 Hf).
    + simpl. discriminate.
Qed.

Lemma update_telemetry_consistent (c : controller) :
  consistent c -> consistent (snd (update_telemetry constants c)).
Proof.
  destruct c as [er l1 l2 l3 l4 l5 l6 cfg h tel sp lg].
  destruct tel as [st off en cp cl mp sw lf cf ap ip ts sr sm].
  unfold consistent, update_telemetry. unfold_monad. unfold_state.
  intros [H1 H2].
  destruct (ControllerState_eqb st ENABLED) eqn:Est; simpl andb.
  - apply ControllerState_eqb_eq in Est.
    split_ifs; unfold_state; split; intros; try congruence; auto.
  - unfold_state. split; auto.
Qed.

Lemma init_consistent index initial_state :
  consistent (init (H:=H) constants index initial_state).
Proof.
  destruct initial_state; split; simpl; try discriminate; auto; congruence.
Qed.

Lemma reachable_consistent (c : controller) :
  reachable constants c -> consistent c.
Proof.
  induction 1.
  - apply init_consistent.
  - now apply run_command_consistent.
  - now apply update_telemetry_consistent.
  - exact IHreachable.
  - exact IHreachable.
Qed.

Lemma states_of_frame (c : controller) e l :
  states_of (with_set_position e (with_log l c)) = states_of c.
Proof. reflexivity. Qed.

(** A handler found under a key the transition table does not allow in the
    current state leaves state and substates alone. *)
Lemma call_illegal k m command (c : controller) :
  In (k, m) command_table ->
  transition_declared k c = false ->
  consistent c ->
  states_of (snd (call constants m command c)) = states_of c.
Proof.
  intros Hin Hk [_ Hc].
  destruct c as [er l1 l2 l3 l4 l5 l6 cfg h tel sp lg].
  destruct tel as [st off en cp cl mp sw lf cf ap ip ts sr sm].
  unfold consistent in Hc. unfold_state.
  simpl in Hin.
  repeat (destruct Hin as [Hin|Hin]; [injection Hin as <- <-|]);
    try contradiction;
    cbv in Hk; unfold_monad; unfold_state.
  all: try (destruct st; try discriminate Hk; reflexivity).
  all: try (split_ifs; reflexivity).
  - (* ENTER_CONTROL *)
    destruct st; try reflexivity.
    simpl. unfold OfflineSubstate.AVAILABLE.
    destruct off as [|[]|]; try reflexivity; discriminate Hk.
  - (* MOVE_POINT_TO_POINT *)
    destruct (PyFloat.isfinite (t0 sp)) eqn:Ef; [|reflexivity].
    destruct (Hc eq_refl) as [-> _]. discriminate Hk.
  - (* MOVE_LUT *)
    destruct (PyFloat.isfinite (t0 sp)) eqn:Ef; [|reflexivity].
    destruct (Hc eq_refl) as [-> _]. discriminate Hk.
Qed.

(** C3. From every controller a run can reach, dispatching a state-change
    or substate-change command that the declared transition table does not
    allow in the current state (or substate) leaves the controller state,
    the offline substate and the enabled substate exactly as they were.
    (This holds for every opcode: a command whose key cannot be computed or
    is not in the table is illegal too.) *)
Theorem illegal_command_keeps_states command (c : controller) :
  reachable constants c ->
  legal command c = false ->
  states_of (snd (run_command constants command c)) = states_of c.
Proof.
  intros Hr Hl. apply reachable_consistent in Hr.
  rewrite run_command_eq. unfold legal in Hl.
  destruct (CommandCode.of_value (cmd command)) as [code|]; [|reflexivity].
  cbv zeta.
  destruct (get_command_key command) as [k|]; [|reflexivity].
  destruct (table_get k command_table) as [m|] eqn:Em; [|reflexivity].
  apply table_get_In in Em.
  set (c1 := with_log _ c).
  assert (Hs : states_of (snd (call constants m command c1)) = states_of c).
  { apply (call_illegal k m command c1 Em); [exact Hl | exact Hr]. }
  simpl snd.
  destruct (fst (call constants m command c1));
    destruct (method_eqb m m_position_set); exact Hs.
Qed.

Lemma method_eqb_eq a b : method_eqb a b = true <-> a = b.
Proof. destruct a, b; simpl; split; congruence. Qed.

Lemma call_log_fields m command (c : controller) l :
  let c1 := snd (call constants m command (with_log l c)) in
  let c0 := snd (call constants m command c) in
  telemetry c1 = telemetry c0 /\ config c1 = config c0
  /\ set_position c1 = set_position c0 /\ hexapod c1 = hexapod c0.
Proof.
  destruct (call_log m command c l) as [_ E]. cbv zeta.
  repeat split.
  - apply (f_equal telemetry) in E. exact E.
  - apply (f_equal config) in E. exact E.
  - apply (f_equal set_position) in E. exact E.
  - apply (f_equal hexapod) in E. exact E.
Qed.

Lemma handler_of_position_set command :
  handler_of command = Some m_position_set
  <-> cmd command = CommandCode.POSITION_SET.
Proof.
  unfold handler_of, get_command_key, rbind. split.
  - destruct (CommandCode.of_value (cmd command)); [|discriminate].
    destruct ((cmd command =? CommandCode.SET_STATE)
              || (cmd command =? CommandCode.SET_ENABLED_SUBSTATE)) eqn:Ek.
    + destruct (PyFloat.int (param1 command)) as [p|]; [|discriminate].
      intros Hg. apply table_get_In in Hg. simpl in Hg.
      repeat (destruct Hg as [Hg|Hg]; [discriminate Hg|]). contradiction.
    + intros Hg. apply table_get_In in Hg. simpl in Hg.
      repeat (destruct Hg as [Hg|Hg]; [try discriminate Hg|]);
        try contradiction.
      now injection Hg.
  - intros ->. reflexivity.
Qed.

(** C4 (amended). Dispatch resets the staged target to the unset sentinel
    after every command for which it found a handler other than the
    POSITION_SET handler, whether that handler succeeded or raised; a
    command for which it found no handler (an opcode outside
    [CommandCode], a key that cannot be computed, a key that is not in
    [command_table]) leaves the staged target as it was.  The POSITION_SET
    handler is found exactly for the opcode POSITION_SET. *)
Theorem staged_target_after_dispatch command (c : controller) :
  let c' := snd (run_command constants command c) in
  (forall m, handler_of command = Some m -> m <> m_position_set ->
             set_position c' = six NaN)
  /\ (handler_of command = None -> set_position c' = set_position c)
  /\ (handler_of command = Some m_position_set
      <-> cmd command = CommandCode.POSITION_SET).
Proof.
  cbv zeta. rewrite run_command_eq. unfold handler_of.
  split; [|split; [|apply handler_of_position_set]].
  - intros m Hm Hne.
    destruct (CommandCode.of_value (cmd command)); [|discriminate].
    cbv zeta.
    destruct (get_command_key command) as [k|]; [|discriminate].
    rewrite Hm. simpl snd.
    destruct (method_eqb m m_position_set) eqn:E; [|reflexivity].
    apply method_eqb_eq in E. contradiction.
  - intros Hm.
    destruct (CommandCode.of_value (cmd command)); [|reflexivity].
    cbv zeta.
    destruct (get_command_key command) as [k|]; [|reflexivity].
    rewrite Hm. reflexivity.
Qed.

(** C6 (amended). When the handler of a command raises, the exception is
    caught at the dispatch boundary and logged; state, substates and Config
    are exactly as before dispatch; the staged target is as before when the
    handler is the POSITION_SET one and is reset to unset otherwise; the
    commanded pose and the kinematics model are as before unless the
    failure arose in the kinematics move of a staged target. *)
Theorem failed_command_effect command (c : controller) m e :
  handler_of command = Some m ->
  fst (call constants m command c) = Raise e ->
  let c' := snd (run_command constants command c) in
  fst (run_command constants command c) = Ok tt
  /\ In (error_failed (cmd command) (param1 command) e) (log c')
  /\ states_of c' = states_of c
  /\ config c' = config c
  /\ set_position c'
     = (if method_eqb m m_position_set then set_position c else six NaN)
  /\ ((m = m_move_point_to_point ->
       PyFloat.isfinite (t0 (set_position c)) = false) ->
      commanded_pos (telemetry c') = commanded_pos (telemetry c)
      /\ hexapod c' = hexapod c).
Proof.
  intros Hm He. cbv zeta. rewrite run_command_eq.
  unfold handler_of in Hm.
  destruct (CommandCode.of_value (cmd command)) as [code|]; [|discriminate].
  cbv zeta.
  destruct (get_command_key command) as [k|]; [|discriminate].
  rewrite Hm.
  match goal with
  | |- context [call constants m command (with_log ?l c)] =>
      destruct (call_log m command c l) as [Ef _];
      destruct (call_log_fields m command c l) as (Et & Ec & Es & Eh);
      set (c1 := with_log l c) in *
  end.
  rewrite He in Ef. rewrite Ef. simpl fst. simpl snd.
  set (c2 := snd (call constants m command c1)) in *.
  assert (Hraise := call_raise m command c e He).
  assert (Hfr : telemetry c2 = telemetry c /\ hexapod c2 = hexapod c
                \/ (m = m_move_point_to_point
                    /\ PyFloat.isfinite (t0 (set_position c)) = true
                    /\ state (telemetry c2) = state (telemetry c)
                    /\ offline_substate (telemetry c2)
                       = offline_substate (telemetry c)
                    /\ enabled_substate (telemetry c2)
                       = enabled_substate (telemetry c))).
  { destruct Hraise as [E|(-> & Hf & h & E)].
    - left. rewrite Et, Eh, E. auto.
    - right. rewrite Et, E. auto. }
  assert (Hcfg : config c2 = config c /\ set_position c2 = set_position c).
  { destruct Hraise as [E|(_ & _ & h & E)]; rewrite Ec, Es, E; auto. }
  destruct Hcfg as [Hcfg Hsp].
  split; [reflexivity|].
  split.
  { destruct (method_eqb m m_position_set); simpl;
      apply in_or_app; right; left; reflexivity. }
  split.
  { unfold states_of, state_of, offline_substate_of, enabled_substate_of.
    destruct Hfr as [[E _]|(_ & _ & E1 & E2 & E3)];
      destruct (method_eqb m m_position_set); simpl;
      congruence. }
  split.
  { destruct (method_eqb m m_position_set); simpl; exact Hcfg. }
  split.
  { destruct (method_eqb m m_position_set); simpl; [exact Hsp|reflexivity]. }
  intros Hmove.
  destruct Hfr as [[E1 E2]|(Em & Hf & _)].
  - destruct (method_eqb m m_position_set); simpl; rewrite E1, E2; auto.
  - rewrite (Hmove Em) in Hf. discriminate.
Qed.

(** C9. A POSITION_SET command whose handler raises (wrong state or
    substate, or a parameter outside the current position limits) is
    caught by dispatch, which skips the reset for this handler: the staged
    target, like the rest of the controller but its log, is left as it
    was. *)
Theorem rejected_position_set_keeps_target command (c : controller) e :
  cmd command = CommandCode.POSITION_SET ->
  fst (do_position_set command c) = Raise e ->
  let c' := snd (run_command constants command c) in
  handler_of command = Some m_position_set
  /\ fst (run_command constants command c) = Ok tt
  /\ set_position c' = set_position c
  /\ telemetry c' = telemetry c
  /\ config c' = config c
  /\ hexapod c' = hexapod c.
Proof.
  intros Hcmd He.
  assert (Hm : handler_of command = Some m_position_set)
    by now apply handler_of_position_set.
  split; [exact Hm|].
  cbv zeta. rewrite run_command_eq. unfold handler_of in Hm.
  destruct (CommandCode.of_value (cmd command)); [|discriminate].
  cbv zeta.
  destruct (get_command_key command); [|discriminate].
  rewrite Hm. simpl call.
  match goal with
  | |- context [do_position_set command (with_log ?l c)] =>
      destruct (call_log m_position_set command c l) as [Ef _];
      set (c1 := with_log l c) in *
  end.
  destruct (position_set_effect command c1) as [[e' E]|[E _]].
  - rewrite E. simpl. repeat split; reflexivity.
  - simpl call in Ef. rewrite E, He in Ef. discriminate.
Qed.

Lemma all_in_position l :
  forallb (fun b : bool => b) (map (fun a => negb (moving a)) l) = true
  <-> Forall (fun a => moving a = false) l.
Proof.
  induction l as [|a l IH]; simpl.
  - split; auto.
  - rewrite andb_true_iff, negb_true_iff, IH. split.
    + intros [? ?]. now constructor.
    + now inversion 1.
Qed.

(** C8. On a telemetry tick of a controller a run can reach: if the enabled
    substate is MOVING_POINT_TO_POINT and no actuator is moving, the
    enabled substate becomes STATIONARY; the tick never changes the state
    or the offline substate, and changes the enabled substate in that case
    only. *)
Theorem sampler_completes_motion (c : controller) :
  reachable constants c ->
  let c' := snd (update_telemetry constants c) in
  (enabled_substate_of c = EnabledSubstate.MOVING_POINT_TO_POINT ->
   Forall (fun a => moving a = false) (actuators (hexapod c)) ->
   enabled_substate_of c' = EnabledSubstate.STATIONARY)
  /\ state_of c' = state_of c
  /\ offline_substate_of c' = offline_substate_of c
  /\ (enabled_substate_of c' <> enabled_substate_of c ->
      enabled_substate_of c = EnabledSubstate.MOVING_POINT_TO_POINT
      /\ Forall (fun a => moving a = false) (actuators (hexapod c))
      /\ enabled_substate_of c' = EnabledSubstate.STATIONARY).
Proof.
  intros Hr. apply reachable_consistent in Hr. destruct Hr as [H1 _].
  revert H1.
  destruct c as [er l1 l2 l3 l4 l5 l6 cfg h tel sp lg].
  destruct tel as [st off en cp cl mp sw lf cf ap ip ts sr sm].
  unfold update_telemetry. unfold_monad. unfold_state. intros H1.
  destruct (ControllerState_eqb st ENABLED) eqn:Est; cbn [andb].
  - destruct (en =? EnabledSubstate.MOVING_POINT_TO_POINT) eqn:Een;
      cbn [andb].
    + apply Z.eqb_eq in Een.
      destruct (forallb _ _) eqn:Eall; cbn [andb]; unfold_state.
      * apply all_in_position in Eall. repeat split; auto.
      * repeat split; auto; try congruence.
        intros _ Hall. apply all_in_position in Hall. congruence.
    + apply Z.eqb_neq in Een. unfold_state.
      repeat split; auto; congruence.
  - apply ControllerState_eqb_neq in Est. unfold_state.
    repeat split; auto; try congruence.
    all: intros Hen; rewrite (H1 Est) in Hen; discriminate.
Qed.

(** C10. A SET_ENABLED_SUBSTATE command whose first parameter is MOVE_LUT
    is dispatched to the handler MOVE_POINT_TO_POINT is dispatched to, and
    in every controller the two commands have the same outcome and leave
    the same controller behind (the log, which records the parameters of
    each command, apart). *)
Theorem move_lut_is_move_point_to_point lut ptp (c : controller) :
  cmd lut = CommandCode.SET_ENABLED_SUBSTATE ->
  PyFloat.int (param1 lut) = Ok SetEnabledSubstateParam.MOVE_LUT ->
  cmd ptp = CommandCode.SET_ENABLED_SUBSTATE ->
  PyFloat.int (param1 ptp) = Ok SetEnabledSubstateParam.MOVE_POINT_TO_POINT ->
  handler_of lut = Some m_move_point_to_point
  /\ handler_of ptp = Some m_move_point_to_point
  /\ fst (run_command constants lut c) = fst (run_command constants ptp c)
  /\ with_log [] (snd (run_command constants lut c))
     = with_log [] (snd (run_command constants ptp c)).
Proof.
  intros Hl1 Hl2 Hp1 Hp2.
  assert (Hhl : handler_of lut = Some m_move_point_to_point).
  { unfold handler_of, get_command_key. rewrite Hl1, Hl2. reflexivity. }
  assert (Hhp : handler_of ptp = Some m_move_point_to_point).
  { unfold handler_of, get_command_key. rewrite Hp1, Hp2. reflexivity. }
  split; [exact Hhl|]. split; [exact Hhp|].
  rewrite !run_command_eq.
  unfold handler_of in Hhl, Hhp.
  destruct (CommandCode.of_value (cmd lut)); [|discriminate].
  destruct (CommandCode.of_value (cmd ptp)); [|discriminate].
  cbv zeta.
  destruct (get_command_key lut); [|discriminate].
  destruct (get_command_key ptp); [|discriminate].
  rewrite Hhl, Hhp. split; [reflexivity|].
  cbv beta iota zeta. simpl snd. simpl call.
  change (do_move_point_to_point ptp)
    with (do_move_point_to_point (H:=H) lut).
  match goal with
  | |- context [do_move_point_to_point lut (with_log ?l c)] =>
      destruct (call_log m_move_point_to_point lut c l) as [Ef1 Es1];
      simpl call in Ef1, Es1;
      set (r1 := do_move_point_to_point lut (with_log l c)) in *
  end.
  match goal with
  | |- context [do_move_point_to_point lut (with_log ?l c)] =>
      destruct (call_log m_move_point_to_point lut c l) as [Ef2 Es2];
      simpl call in Ef2, Es2;
      set (r2 := do_move_point_to_point lut (with_log l c)) in *
  end.
  rewrite Ef1, Ef2.
  apply (f_equal (with_set_position (six NaN))) in Es1, Es2.
  destruct (fst (do_move_point_to_point lut c)); simpl;
    exact (eq_trans Es1 (eq_sym Es2)).
Qed.

End ControllerProofs.

(** *** The controller on examples *)

Lemma reachable_run commands (c : MockMTHexapodController.t (list Actuator)) :
  reachable Sample.constants c ->
  reachable Sample.constants (Sample.run commands c).
Proof.
  revert c. induction commands as [|command rest IH]; intros c Hc.
  - exact Hc.
  - apply IH. now constructor.
Defined.

Lemma reachable_staged : reachable Sample.constants Sample.staged.
Proof. apply reachable_run. constructor. Defined.

(** START in OFFLINE is not in the transition table: nothing moves. *)
Lemma illegal_command_keeps_states_witness :
  let start := Sample.command CommandCode.SET_STATE SetStateParam.START 0 0 0 0 0 in
  let c := init Sample.constants CAM_HEXAPOD OFFLINE in
  reachable Sample.constants c
  /\ legal start c = false
  /\ states_of (snd (run_command Sample.constants start c))
     = (OFFLINE, OfflineSubstate.AVAILABLE, 0).
Proof.
  cbv zeta. split; [constructor|]. split; [reflexivity|].
  rewrite (illegal_command_keeps_states Sample.constants
             (Sample.command CommandCode.SET_STATE SetStateParam.START
                0 0 0 0 0)
             (init Sample.constants CAM_HEXAPOD OFFLINE)
             (reach_init Sample.constants CAM_HEXAPOD OFFLINE) eq_refl).
  reflexivity.
Defined.

(** C4 (as stated, refuted). OFFSET is an opcode of [CommandCode] without
    an entry in [command_table]: the target staged before it is still
    staged after it. *)
Lemma unrecognized_command_keeps_target :
  let offset := Sample.command CommandCode.OFFSET 1 0 0 0 0 0 in
  reachable Sample.constants Sample.staged
  /\ cmd offset <> CommandCode.POSITION_SET
  /\ fst (run_command Sample.constants offset Sample.staged) = Ok tt
  /\ set_position (snd (run_command Sample.constants offset Sample.staged))
     = T6 (PyFloat.of_Z 100) (PyFloat.of_Z 200) (PyFloat.of_Z 300)
          (PyFloat.of_Z 0) (PyFloat.of_Z 0) (PyFloat.of_Z 0)
  /\ set_position (snd (run_command Sample.constants offset Sample.staged))
     <> six NaN.
Proof.
  cbv zeta. split; [exact reachable_staged|].
  split; [discriminate|]. split; [reflexivity|].
  split; [reflexivity|]. vm_compute. discriminate.
Qed.

Lemma staged_target_after_dispatch_witness :
  let stop := Sample.command CommandCode.SET_ENABLED_SUBSTATE
                SetEnabledSubstateParam.STOP 0 0 0 0 0 in
  let offset := Sample.command CommandCode.OFFSET 1 0 0 0 0 0 in
  (handler_of stop = Some m_stop
   /\ set_position (snd (run_command Sample.constants stop Sample.staged))
      = six NaN)
  /\ (handler_of offset = None
      /\ set_position (snd (run_command Sample.constants offset Sample.staged))
         = set_position Sample.staged).
Proof.
  cbv zeta. split; (split; [reflexivity|]).
  - apply (proj1 (staged_target_after_dispatch Sample.constants
                    (Sample.command CommandCode.SET_ENABLED_SUBSTATE
                       SetEnabledSubstateParam.STOP 0 0 0 0 0)
                    Sample.staged)
             m_stop eq_refl).
    discriminate.
  - apply (proj1 (proj2 (staged_target_after_dispatch Sample.constants
                           (Sample.command CommandCode.OFFSET 1 0 0 0 0 0)
                           Sample.staged))).
    reflexivity.
Defined.

(** C6 (as stated, refuted). CONFIG_ACCEL with acceleration 0 raises in
    its handler, and the staged target is gone afterwards. *)
Lemma failed_command_resets_target :
  let accel := Sample.command CommandCode.CONFIG_ACCEL 0 0 0 0 0 0 in
  reachable Sample.constants Sample.staged
  /\ handler_of accel = Some m_config_accel
  /\ fst (call Sample.constants m_config_accel accel Sample.staged)
     = Raise (ValueError "Requested accel limit not in range")
  /\ set_position (snd (run_command Sample.constants accel Sample.staged))
     = six NaN
  /\ set_position (snd (run_command Sample.constants accel Sample.staged))
     <> set_position Sample.staged.
Proof.
  cbv zeta. split; [exact reachable_staged|].
  split; [reflexivity|]. split; [reflexivity|]. split; [reflexivity|].
  vm_compute. discriminate.
Qed.

Lemma failed_command_effect_witness :
  let accel := Sample.command CommandCode.CONFIG_ACCEL 0 0 0 0 0 0 in
  let e := ValueError "Requested accel limit not in range" in
  let c' := snd (run_command Sample.constants accel Sample.staged) in
  handler_of accel = Some m_config_accel
  /\ fst (call Sample.constants m_config_accel accel Sample.staged) = Raise e
  /\ fst (run_command Sample.constants accel Sample.staged) = Ok tt
  /\ In (error_failed (cmd accel) (param1 accel) e) (log c')
  /\ states_of c' = (ENABLED, 0, EnabledSubstate.STATIONARY)
  /\ config c' = config Sample.staged
  /\ set_position c' = six NaN.
Proof.
  cbv zeta.
  split; [reflexivity|]. split; [reflexivity|].
  destruct (failed_command_effect Sample.constants
              (Sample.command CommandCode.CONFIG_ACCEL 0 0 0 0 0 0)
              Sample.staged m_config_accel
              (ValueError "Requested accel limit not in range")
              eq_refl eq_refl) as (H1 & H2 & H3 & H4 & H5 & _).
  repeat split; assumption.
Defined.

(** A POSITION_SET beyond the x limit after one within the limits: the
    first target stays staged. *)
Lemma rejected_position_set_keeps_target_witness :
  let far := Sample.command CommandCode.POSITION_SET 1000000 0 0 0 0 0 in
  cmd far = CommandCode.POSITION_SET
  /\ fst (do_position_set far Sample.staged) = Raise (ValueError "x")
  /\ set_position (snd (run_command Sample.constants far Sample.staged))
     = T6 (PyFloat.of_Z 100) (PyFloat.of_Z 200) (PyFloat.of_Z 300)
          (PyFloat.of_Z 0) (PyFloat.of_Z 0) (PyFloat.of_Z 0).
Proof.
  cbv zeta. split; [reflexivity|]. split; [reflexivity|].
  destruct (rejected_position_set_keeps_target Sample.constants
              (Sample.command CommandCode.POSITION_SET 1000000 0 0 0 0 0)
              Sample.staged (ValueError "x") eq_refl eq_refl)
    as (_ & _ & Hsp & _).
  rewrite Hsp. reflexivity.
Defined.

(** After POSITION_SET and MOVE_POINT_TO_POINT the struts move; once the
    time of the move has passed and the struts have arrived, with no call
    of the controller in between, the next tick finds the motion
    complete. *)
Lemma sampler_completes_motion_witness :
  let move := Sample.command CommandCode.SET_ENABLED_SUBSTATE
                SetEnabledSubstateParam.MOVE_POINT_TO_POINT 0 0 0 0 0 in
  let in_motion := Sample.run [move] Sample.staged in
  let arrived :=
    with_hexapod (Sample.arrive (hexapod in_motion)) in_motion in
  reachable Sample.constants arrived
  /\ Exists (fun a => moving a = true) (actuators (hexapod in_motion))
  /\ enabled_substate_of arrived = EnabledSubstate.MOVING_POINT_TO_POINT
  /\ Forall (fun a => moving a = false) (actuators (hexapod arrived))
  /\ enabled_substate_of (snd (update_telemetry Sample.constants arrived))
     = EnabledSubstate.STATIONARY.
Proof.
  cbv zeta.
  set (in_motion :=
         Sample.run
           [Sample.command CommandCode.SET_ENABLED_SUBSTATE
              SetEnabledSubstateParam.MOVE_POINT_TO_POINT 0 0 0 0 0]
           Sample.staged).
  assert (Hr : reachable Sample.constants
                 (with_hexapod (Sample.arrive (hexapod in_motion))
                    in_motion)).
  { apply reach_elapse. apply reachable_run. exact reachable_staged. }
  assert (Hm : enabled_substate_of
                 (with_hexapod (Sample.arrive (hexapod in_motion))
                    in_motion)
               = EnabledSubstate.MOVING_POINT_TO_POINT) by reflexivity.
  assert (Hs : Forall (fun a => moving a = false)
                 (actuators
                    (hexapod
                       (with_hexapod (Sample.arrive (hexapod in_motion))
                          in_motion)))).
  { repeat constructor. }
  split; [exact Hr|]. split; [left; reflexivity|].
  split; [exact Hm|]. split; [exact Hs|].
  exact (proj1 (sampler_completes_motion Sample.constants _ Hr) Hm Hs).
Defined.

Lemma move_lut_is_move_point_to_point_witness :
  let lut := Sample.command CommandCode.SET_ENABLED_SUBSTATE
               SetEnabledSubstateParam.MOVE_LUT 0 0 0 0 0 in
  let ptp := Sample.command CommandCode.SET_ENABLED_SUBSTATE
               SetEnabledSubstateParam.MOVE_POINT_TO_POINT 0 0 0 0 0 in
  cmd lut = CommandCode.SET_ENABLED_SUBSTATE
  /\ PyFloat.int (param1 lut) = Ok SetEnabledSubstateParam.MOVE_LUT
  /\ cmd ptp = CommandCode.SET_ENABLED_SUBSTATE
  /\ PyFloat.int (param1 ptp) = Ok SetEnabledSubstateParam.MOVE_POINT_TO_POINT
  /\ enabled_substate_of (snd (run_command Sample.constants lut Sample.staged))
     = EnabledSubstate.MOVING_POINT_TO_POINT
  /\ with_log [] (snd (run_command Sample.constants lut Sample.staged))
     = with_log [] (snd (run_command Sample.constants ptp Sample.staged)).
Proof.
  cbv zeta. repeat (split; [reflexivity|]).
  exact (proj2 (proj2 (proj2
           (move_lut_is_move_point_to_point Sample.constants
              (Sample.command CommandCode.SET_ENABLED_SUBSTATE
                 SetEnabledSubstateParam.MOVE_LUT 0 0 0 0 0)
              (Sample.command CommandCode.SET_ENABLED_SUBSTATE
                 SetEnabledSubstateParam.MOVE_POINT_TO_POINT 0 0 0 0 0)
              Sample.staged eq_refl eq_refl eq_refl eq_refl)))).
Defined.

(** CONFIG_LIMITS within the hardware limits sets the six position
    limits; with a positive z minimum it is rejected and Config stays. *)
Example config_limits_scenarios :
  let inside := Sample.command CommandCode.CONFIG_LIMITS
                  1000 (-1000) 1000 1 (-1) 1 in
  let positive_zmin := Sample.command CommandCode.CONFIG_LIMITS
                         1000 1000 1000 1 (-1) 1 in
  pos_limits (config (snd (run_command Sample.constants inside Sample.staged)))
  = T6 (PyFloat.of_Z 1000) (PyFloat.of_Z (-1000)) (PyFloat.of_Z 1000)
       (PyFloat.of_Z 1) (PyFloat.of_Z (-1)) (PyFloat.of_Z 1)
  /\ fst (do_config_limits positive_zmin Sample.staged)
     = Raise (ValueError "zmin")
  /\ config (snd (run_command Sample.constants positive_zmin Sample.staged))
     = config Sample.staged.
Proof. cbv zeta. repeat split; reflexivity. Qed.

(** The start-up sequence, a move and its completion, a move without a
    target and a stop in mid-motion. *)
Example controller_scenarios :
  let set_state p := Sample.command CommandCode.SET_STATE p 0 0 0 0 0 in
  let substate p := Sample.command CommandCode.SET_ENABLED_SUBSTATE p 0 0 0 0 0 in
  let offline := init Sample.constants CAM_HEXAPOD OFFLINE in
  let enabled :=
    Sample.run [set_state SetStateParam.ENTER_CONTROL;
                set_state SetStateParam.START;
                set_state SetStateParam.ENABLE] offline in
  let in_motion :=
    Sample.run [Sample.position_set;
                substate SetEnabledSubstateParam.MOVE_POINT_TO_POINT] enabled in
  states_of offline = (OFFLINE, OfflineSubstate.AVAILABLE, 0)
  /\ states_of (Sample.run [set_state SetStateParam.ENTER_CONTROL] offline)
     = (STANDBY, 0, 0)
  /\ states_of enabled = (ENABLED, 0, EnabledSubstate.STATIONARY)
  /\ states_of in_motion = (ENABLED, 0, EnabledSubstate.MOVING_POINT_TO_POINT)
  /\ set_position in_motion = six NaN
  /\ states_of
       (Sample.run [substate SetEnabledSubstateParam.MOVE_POINT_TO_POINT]
          enabled)
     = states_of enabled
  /\ states_of (Sample.run [substate SetEnabledSubstateParam.STOP] in_motion)
     = (ENABLED, 0, EnabledSubstate.STATIONARY)
  /\ Forall (fun a => moving a = false)
       (actuators
          (hexapod (Sample.run [substate SetEnabledSubstateParam.STOP] in_motion))).
Proof.
  cbv zeta. repeat split; try reflexivity. repeat constructor.
Qed.

(** ** IEEE doubles

    The facts about [PrimFloat] the lookup table rests on, from the
    specification of its operations in [SpecFloat]: [<] and [<=] order the
    numbers, the difference of two numbers in order is never zero, and the
    difference of two equal finite numbers is. *)

Section FloatFacts.

Import LookupTable Binary64.

(** *** The order *)

Ltac compare_cases :=
  repeat match goal with
  | H : context [Z.compare ?a ?b] |- _ =>
      let E := fresh "E" in destruct (Z.compare_spec a b) as [E|E|E]
  | |- context [Z.compare ?a ?b] =>
      let E := fresh "E" in destruct (Z.compare_spec a b) as [E|E|E]
  | H : context [Pos.compare ?a ?b] |- _ =>
      let E := fresh "E" in destruct (Pos.compare_spec a b) as [E|E|E]
  | |- context [Pos.compare ?a ?b] =>
      let E := fresh "E" in destruct (Pos.compare_spec a b) as [E|E|E]
  end.

Ltac spec_order :=
  unfold sf_lt, sf_le, sf_eq, SFcompare; intros;
  repeat match goal with
  | x : spec_float |- _ => destruct x
  | s : bool |- _ => destruct s
  end;
  change (Pos.compare_cont Eq) with Pos.compare in *;
  simpl in *;
  try solve [intuition congruence];
  compare_cases; simpl in *; subst;
  try solve [intuition congruence]; try lia;
  try solve [intuition (try congruence; try lia)].

Lemma slt_trans x y z : sf_lt x y -> sf_lt y z -> sf_lt x z.
Proof. spec_order. Qed.


Lemma sle_slt_trans x y z : sf_le x y -> sf_lt y z -> sf_lt x z.
Proof. spec_order. Qed.

Lemma sle_trans x y z : sf_le x y -> sf_le y z -> sf_le x z.
Proof. spec_order. Qed.

Lemma slt_sle x y : sf_lt x y -> sf_le x y.
Proof. spec_order. Qed.

Lemma slt_numbers x y : sf_lt x y -> sf_le x x /\ sf_le y y.
Proof. spec_order. Qed.

Lemma sle_numbers x y : sf_le x y -> sf_le x x /\ sf_le y y.
Proof. spec_order. Qed.

Lemma sle_total x y : sf_le x x -> sf_le y y -> ~ sf_lt x y -> sf_le y x.
Proof. spec_order. Qed.

Lemma sle_not_slt x y : sf_le x y -> ~ sf_lt y x.
Proof. spec_order. Qed.


Lemma seq_sle x y : sf_eq x y -> sf_le x y /\ sf_le y x.
Proof. spec_order. Qed.

Lemma ltb_slt x y : (x <? y)%float = true <-> sf_lt (Prim2SF x) (Prim2SF y).
Proof.
  rewrite ltb_spec. unfold SFltb, sf_lt.
  destruct (SFcompare _ _) as [[| |]|]; split; congruence.
Qed.

Lemma leb_sle x y : (x <=? y)%float = true <-> sf_le (Prim2SF x) (Prim2SF y).
Proof.
  rewrite leb_spec. unfold SFleb, sf_le.
  destruct (SFcompare _ _) as [[| |]|]; split; intuition congruence.
Qed.

Lemma eqb_seq x y : (x =? y)%float = true <-> sf_eq (Prim2SF x) (Prim2SF y).
Proof.
  rewrite eqb_spec. unfold SFeqb, sf_eq.
  destruct (SFcompare _ _) as [[| |]|]; split; congruence.
Qed.

Lemma flt_trans x y z : flt x y -> flt y z -> flt x z.
Proof. unfold flt. rewrite !ltb_slt. apply slt_trans. Qed.


Lemma fle_flt_trans x y z : fle x y -> flt y z -> flt x z.
Proof. unfold flt, fle. rewrite !ltb_slt, leb_sle. apply sle_slt_trans. Qed.

Lemma fle_trans x y z : fle x y -> fle y z -> fle x z.
Proof. unfold fle. rewrite !leb_sle. apply sle_trans. Qed.

Lemma flt_fle x y : flt x y -> fle x y.
Proof. unfold flt, fle. rewrite ltb_slt, leb_sle. apply slt_sle. Qed.

(** [x <= x] says that [x] is a number. *)
Lemma fle_refl_iff x : fle x x <-> is_nan x = false.
Proof.
  unfold fle, is_nan. rewrite negb_false_iff, leb_sle, eqb_seq.
  generalize (Prim2SF x). spec_order.
Qed.

Lemma flt_numbers x y : flt x y -> fle x x /\ fle y y.
Proof. unfold flt, fle. rewrite ltb_slt, !leb_sle. apply slt_numbers. Qed.

Lemma fle_numbers x y : fle x y -> fle x x /\ fle y y.
Proof. unfold fle. rewrite !leb_sle. apply sle_numbers. Qed.

(** Two numbers are comparable. *)
Lemma fle_total x y :
  fle x x -> fle y y -> (x <? y)%float = false -> fle y x.
Proof.
  unfold fle. rewrite !leb_sle. intros Hx Hy Hlt.
  apply sle_total; [exact Hx|exact Hy|].
  intros H. apply ltb_slt in H. congruence.
Qed.

Lemma fle_not_flt x y : fle x y -> (y <? x)%float = false.
Proof.
  unfold fle. rewrite leb_sle. intros Hle.
  destruct (y <? x)%float eqn:E; [|reflexivity].
  apply ltb_slt in E. exfalso. exact (sle_not_slt _ _ Hle E).
Qed.

Lemma flt_irrefl x : (x <? x)%float = false.
Proof.
  destruct (x <? x)%float eqn:E; [|reflexivity].
  assert (H := E). apply flt_numbers in H as [H _].
  rewrite (fle_not_flt _ _ H) in E. discriminate.
Qed.


Lemma feq_fle x y : (x =? y)%float = true -> fle x y /\ fle y x.
Proof. unfold fle. rewrite !leb_sle, eqb_seq. apply seq_sle. Qed.

(** *** Differences *)

Lemma digits2_pos_bounds (m : positive) :
  2 ^ (Zpos (digits2_pos m) - 1) <= Zpos m < 2 ^ Zpos (digits2_pos m).
Proof.
  induction m as [m IH|m IH|]; simpl digits2_pos.
  - rewrite Pos2Z.inj_succ.
    replace (Z.succ (Zpos (digits2_pos m)) - 1) with (Zpos (digits2_pos m))
      by lia.
    rewrite Z.pow_succ_r by lia.
    assert (H : 2 ^ Zpos (digits2_pos m)
                = 2 * 2 ^ (Zpos (digits2_pos m) - 1)).
    { rewrite <- Z.pow_succ_r by lia. f_equal. lia. }
    lia.
  - rewrite Pos2Z.inj_succ.
    replace (Z.succ (Zpos (digits2_pos m)) - 1) with (Zpos (digits2_pos m))
      by lia.
    rewrite Z.pow_succ_r by lia.
    assert (H : 2 ^ Zpos (digits2_pos m)
                = 2 * 2 ^ (Zpos (digits2_pos m) - 1)).
    { rewrite <- Z.pow_succ_r by lia. f_equal. lia. }
    lia.
  - simpl. lia.
Qed.

Lemma iter_pos_nat {A} (f : A -> A) (p : positive) (x : A) :
  iter_pos f p x = Nat.iter (Pos.to_nat p) f x.
Proof.
  revert x. induction p as [p IH|p IH|]; intros x; simpl iter_pos.
  - rewrite !IH. rewrite Pos2Nat.inj_xI.
    replace (S (2 * Pos.to_nat p))
      with (Pos.to_nat p + Pos.to_nat p + 1)%nat by lia.
    rewrite !Nat.iter_add. reflexivity.
  - rewrite !IH. rewrite Pos2Nat.inj_xO.
    replace (2 * Pos.to_nat p)%nat
      with (Pos.to_nat p + Pos.to_nat p)%nat by lia.
    rewrite Nat.iter_add. reflexivity.
  - reflexivity.
Qed.

Lemma shr_1_m mrs : 0 <= shr_m mrs -> shr_m (shr_1 mrs) = Z.div2 (shr_m mrs).
Proof.
  destruct mrs as [m r s]. simpl. intros Hm.
  destruct m as [|[p|p|]|p]; try reflexivity; lia.
Qed.

(** A shift by fewer places than the number has digits leaves a digit. *)
Lemma shr_iter_m (n : nat) mrs k :
  2 ^ (Z.of_nat n + k) <= shr_m mrs -> 0 <= k ->
  2 ^ k <= shr_m (Nat.iter n shr_1 mrs).
Proof.
  revert mrs. induction n as [|n IH]; intros mrs Hm Hk.
  - simpl in *. exact Hm.
  - rewrite Nat.iter_succ_r. apply IH; [|exact Hk].
    assert (Hpos : 0 <= shr_m mrs).
    { assert (0 < 2 ^ (Z.of_nat (S n) + k))
        by (apply Z.pow_pos_nonneg; lia).
      lia. }
    rewrite shr_1_m by exact Hpos.
    rewrite Z.div2_div.
    replace (Z.of_nat (S n) + k) with (Z.succ (Z.of_nat n + k)) in Hm
      by lia.
    rewrite Z.pow_succ_r in Hm by lia.
    apply Z.div_le_lower_bound; lia.
Qed.

Lemma shr_fexp_pos (m : positive) e l :
  emin <= e ->
  let '(mrs, e') := shr_fexp prec emax (Zpos m) e l in
  0 < shr_m mrs /\ emin <= e'.
Proof.
  intros He. unfold shr_fexp, shr.
  set (n := fexp prec emax (Zdigits2 (Zpos m) + e) - e).
  assert (Hrec : shr_m (shr_record_of_loc (Zpos m) l) = Zpos m)
    by (destruct l as [|[| |]]; reflexivity).
  destruct n as [|p|p] eqn:En.
  - rewrite Hrec. split; [lia|exact He].
  - rewrite iter_pos_nat.
    assert (Hd := digits2_pos_bounds m).
    assert (Hn : Zpos p = Zpos (digits2_pos m) - prec).
    { subst n. unfold fexp in En. simpl Zdigits2 in En.
      unfold FloatOps.emin, SpecFloat.emin, prec, emax in *. lia. }
    split; [|lia].
    assert (H : 2 ^ 0 <= shr_m (Nat.iter (Pos.to_nat p) shr_1
                                  (shr_record_of_loc (Zpos m) l))).
    { apply shr_iter_m; [|lia]. rewrite Hrec.
      rewrite positive_nat_Z. rewrite Z.add_0_r.
      apply Z.le_trans with (2 ^ (Zpos (digits2_pos m) - 1)); [|apply Hd].
      apply Z.pow_le_mono_r; [lia|]. unfold prec in Hn. lia. }
    simpl in H. lia.
  - rewrite Hrec. split; [lia|exact He].
Qed.

Lemma round_nearest_even_pos m l : 0 < m -> 0 < round_nearest_even m l.
Proof.
  intros Hm. destruct l as [|[| |]]; simpl; try lia.
  destruct (Z.even m); lia.
Qed.

(** Rounding never takes a number of the format's range of exponents to
    zero. *)
Lemma binary_round_aux_regular s (m : positive) e l :
  emin <= e -> regular (binary_round_aux prec emax s (Zpos m) e l).
Proof.
  intros He. unfold binary_round_aux.
  assert (H1 := shr_fexp_pos m e l He).
  destruct (shr_fexp prec emax (Zpos m) e l) as [mrs' e'].
  destruct H1 as [Hm' He'].
  assert (Hr := round_nearest_even_pos (shr_m mrs')
                  (loc_of_shr_record mrs') Hm').
  destruct (round_nearest_even (shr_m mrs') (loc_of_shr_record mrs'))
    as [|m1|m1] eqn:Er; try lia.
  assert (H2 := shr_fexp_pos m1 e' loc_Exact He').
  destruct (shr_fexp prec emax (Zpos m1) e' loc_Exact) as [mrs'' e''].
  destruct H2 as [Hm'' He''].
  destruct (shr_m mrs'') as [|m2|m2]; try lia.
  destruct (e'' <=? emax - prec); exact I.
Qed.

Lemma shl_align_spec m e e' :
  let '(m', e1) := shl_align m e e' in
  Zpos m' = Zpos m * 2 ^ (e - e1) /\ e1 = Z.min e e'.
Proof.
  unfold shl_align. destruct (e' - e) as [|d|d] eqn:Ed.
  - replace (e - e) with 0 by lia. split; lia.
  - replace (e - e) with 0 by lia. split; lia.
  - split; [|lia].
    replace (e - e') with (Zpos d) by lia.
    clear Ed. induction d as [|d IH] using Pos.peano_ind.
    + simpl. lia.
    + rewrite Pos.iter_succ, Pos2Z.inj_xO, IH, Pos2Z.inj_succ.
      rewrite Z.pow_succ_r by lia. lia.
Qed.

Lemma binary_round_regular s m e :
  emin <= e -> regular (binary_round prec emax s m e).
Proof.
  intros He. unfold binary_round.
  assert (H := shl_align_spec m e (fexp prec emax (Zpos (digits2_pos m) + e))).
  destruct (shl_align m e (fexp prec emax (Zpos (digits2_pos m) + e)))
    as [mz ez].
  destruct H as [_ Hez].
  apply binary_round_aux_regular.
  unfold fexp in Hez. unfold FloatOps.emin, SpecFloat.emin, prec, emax in *.
  lia.
Qed.

Lemma canonical_bounds m e :
  bounded prec emax m e = true ->
  emin <= e /\ Zpos (digits2_pos m) <= prec
  /\ (emin < e -> Zpos (digits2_pos m) = prec).
Proof.
  unfold bounded, canonical_mantissa, fexp. intros H.
  apply andb_true_iff in H as [H _]. apply Z.eqb_eq in H.
  unfold FloatOps.emin, SpecFloat.emin, prec, emax in *. lia.
Qed.

(** Two mantissas brought to the same exponent compare as the numbers. *)
Lemma aligned_lt m1 e1 m2 e2 ez :
  bounded prec emax m1 e1 = true -> bounded prec emax m2 e2 = true ->
  ez = Z.min e1 e2 ->
  (e1 < e2 \/ (e1 = e2 /\ Zpos m1 < Zpos m2)) ->
  Zpos (fst (shl_align m1 e1 ez)) < Zpos (fst (shl_align m2 e2 ez)).
Proof.
  intros B1 B2 -> Hlt.
  assert (C1 := canonical_bounds _ _ B1).
  assert (C2 := canonical_bounds _ _ B2).
  assert (S1 := shl_align_spec m1 e1 (Z.min e1 e2)).
  assert (S2 := shl_align_spec m2 e2 (Z.min e1 e2)).
  destruct (shl_align m1 e1 (Z.min e1 e2)) as [M1 E1].
  destruct (shl_align m2 e2 (Z.min e1 e2)) as [M2 E2].
  destruct S1 as [S1 F1], S2 as [S2 F2]. simpl fst. rewrite S1, S2.
  assert (D1 := digits2_pos_bounds m1).
  assert (D2 := digits2_pos_bounds m2).
  destruct Hlt as [Hlt|[-> Hlt]].
  - replace (e1 - E1) with 0 by lia. rewrite Z.pow_0_r, Z.mul_1_r.
    replace (e2 - E2) with (Z.succ (e2 - e1 - 1)) by lia.
    rewrite Z.pow_succ_r by lia.
    assert (Hd2 : Zpos (digits2_pos m2) = prec) by (apply C2; lia).
    assert (H1 : Zpos m1 < 2 ^ prec).
    { apply Z.lt_le_trans with (2 ^ Zpos (digits2_pos m1)); [apply D1|].
      apply Z.pow_le_mono_r; lia. }
    rewrite Hd2 in D2.
    assert (H2 : 2 ^ prec = 2 * 2 ^ (prec - 1)) by reflexivity.
    assert (H3 : 0 < 2 ^ (e2 - e1 - 1)) by (apply Z.pow_pos_nonneg; lia).
    nia.
  - replace (e2 - E1) with 0 by lia. replace (e2 - E2) with 0 by lia.
    rewrite Z.pow_0_r. lia.
Qed.

Lemma SFsub_regular a b :
  valid_binary a = true -> valid_binary b = true ->
  sf_lt a b -> regular (SF64sub b a).
Proof.
  unfold sf_lt. intros Va Vb Hlt.
  destruct a as [sa|sa| |sa ma ea], b as [sb|sb| |sb mb eb];
    simpl in Hlt; try discriminate; simpl; try exact I;
    try (destruct sa, sb; try discriminate; exact I).
  simpl in Va, Vb.
  assert (Ca := canonical_bounds _ _ Va).
  assert (Cb := canonical_bounds _ _ Vb).
  set (ez := Z.min eb ea).
  assert (Hez : emin <= ez) by (unfold ez; lia).
  assert (HD : 0 < cond_Zopp sb (Zpos (fst (shl_align mb eb ez)))
                   - cond_Zopp sa (Zpos (fst (shl_align ma ea ez)))).
  { destruct sa, sb; simpl cond_Zopp; try discriminate; try lia.
    - assert (H : Zpos (fst (shl_align mb eb ez))
                  < Zpos (fst (shl_align ma ea ez))).
      { apply aligned_lt; try assumption; [unfold ez; lia|].
        destruct (Z.compare_spec ea eb) as [E|E|E]; try discriminate.
        - right. split; [lia|].
          rewrite Pos.compare_cont_spec in Hlt. simpl in Hlt.
          destruct (Pos.compare_spec ma mb); simpl in Hlt;
            try discriminate.
          lia.
        - left. lia. }
      lia.
    - assert (H : Zpos (fst (shl_align ma ea ez))
                  < Zpos (fst (shl_align mb eb ez))).
      { apply aligned_lt; try assumption; [unfold ez; lia|].
        destruct (Z.compare_spec ea eb) as [E|E|E]; try discriminate.
        - right. split; [lia|].
          rewrite Pos.compare_cont_spec in Hlt. simpl in Hlt.
          destruct (Pos.compare_spec ma mb); simpl in Hlt;
            try discriminate.
          lia.
        - left. lia. }
      lia. }
  fold ez.
  destruct (cond_Zopp sb (Zpos (fst (shl_align mb eb ez)))
            - cond_Zopp sa (Zpos (fst (shl_align ma ea ez)))) as [|D|D];
    try lia.
  simpl. apply binary_round_regular. exact Hez.
Qed.

Lemma regular_not_zero (x : PrimFloat.float) :
  regular (Prim2SF x) -> (x =? 0)%float = false /\ is_nan x = false.
Proof.
  unfold is_nan. rewrite !eqb_spec.
  change (Prim2SF 0) with (S754_zero false).
  destruct (Prim2SF x) as [s|s| |s m e]; simpl; try contradiction;
    intros _; unfold SFeqb; simpl.
  - destruct s; split; reflexivity.
  - destruct s; split; try reflexivity;
      rewrite Z.compare_refl, Pos.compare_cont_refl; reflexivity.
Qed.

(** The difference of two numbers in strict order is a number and not
    zero (underflow is gradual). *)
Theorem sub_regular (x y : PrimFloat.float) :
  flt x y -> ((y - x)%float =? 0)%float = false /\ is_nan (y - x)%float = false.
Proof.
  intros Hlt. apply ltb_slt in Hlt. apply regular_not_zero.
  rewrite sub_spec.
  exact (SFsub_regular _ _ (Prim2SF_valid x) (Prim2SF_valid y) Hlt).
Qed.

Lemma finite_spec (x : PrimFloat.float) :
  is_finite x = true ->
  match Prim2SF x with
  | S754_zero _ | S754_finite _ _ _ => True
  | _ => False
  end.
Proof.
  unfold is_finite, is_nan, is_infinity.
  rewrite !eqb_spec, abs_spec.
  change (Prim2SF infinity) with (S754_infinity false).
  destruct (Prim2SF x) as [s|s| |s m e]; simpl; try exact (fun _ => I);
    unfold SFeqb; simpl; try destruct s; simpl; intros H; discriminate H.
Qed.

(** The difference of two equal finite numbers is zero. *)
Theorem sub_zero (x y : PrimFloat.float) :
  (x =? y)%float = true -> is_finite x = true ->
  ((x - y)%float =? 0)%float = true.
Proof.
  intros Heq Hfin. apply eqb_seq in Heq. apply finite_spec in Hfin.
  rewrite eqb_spec, sub_spec. change (Prim2SF 0) with (S754_zero false).
  unfold sf_eq in Heq.
  destruct (Prim2SF x) as [sx|sx| |sx mx ex], (Prim2SF y) as [sy|sy| |sy my ey];
    try contradiction; simpl in Heq; try discriminate.
  - destruct sx, sy; reflexivity.
  - destruct sy; discriminate.
  - destruct sy; discriminate.
  - destruct sx; discriminate.
  - destruct sy; discriminate.
  - assert (E : sx = sy /\ ex = ey /\ mx = my).
    { destruct sx, sy; try discriminate;
        destruct (Z.compare_spec ex ey); try discriminate;
        rewrite Pos.compare_cont_spec in Heq; simpl in Heq;
        destruct (Pos.compare_spec mx my); try discriminate; auto. }
    destruct E as (-> & -> & ->).
    unfold SF64sub, SFsub. rewrite Z.sub_diag. reflexivity.
Qed.


End FloatFacts.

(** ** Lookup table *)

Section LookupTableProofs.

Import LookupTable.

(** The element at an integer position, for positions inside the list. *)
Local Abbreviation zth a j := (nth (Z.to_nat j) a 0%float).

Local Abbreviation row0 := (V6 0 0 0 0 0 0)%float.

Lemma py_index_inside {A} (l : list A) (i : Z) (d : A) :
  (0 <= i < Z.of_nat (length l))%Z ->
  py_index l i = Ok (nth (Z.to_nat i) l d).
Proof.
  intros Hi. unfold py_index.
  destruct (i <? 0)%Z eqn:E0; [apply Z.ltb_lt in E0; lia|].
  destruct ((i <? 0)%Z || (Z.of_nat (length l) <=? i)%Z) eqn:E1.
  - apply orb_true_iff in E1 as [E1|E1];
      [apply Z.ltb_lt in E1 | apply Z.leb_le in E1]; lia.
  - rewrite (nth_error_nth' l d); [reflexivity|lia].
Qed.

Lemma py_index_last {A} (l : list A) (d : A) :
  l <> [] -> py_index l (-1) = Ok (last l d).
Proof.
  intros Hne.
  destruct (exists_last Hne) as [l' [a ->]].
  rewrite last_last. unfold py_index. rewrite length_app. simpl length.
  cbv zeta. change (-1 <? 0)%Z with true. cbv iota.
  replace (Z.of_nat (length l' + 1) + -1)%Z with (Z.of_nat (length l'))
    by lia.
  destruct ((Z.of_nat (length l') <? 0)%Z
            || (Z.of_nat (length l' + 1) <=? Z.of_nat (length l'))%Z) eqn:E.
  - apply orb_true_iff in E as [E|E];
      [apply Z.ltb_lt in E | apply Z.leb_le in E]; lia.
  - rewrite Nat2Z.id, nth_error_app2, Nat.sub_diag by lia. reflexivity.
Qed.

Lemma last_nth {A} (l : list A) d :
  last l d = nth (length l - 1) l d.
Proof.
  destruct l as [|a l]; [reflexivity|].
  assert (Hne : a :: l <> []) by discriminate.
  destruct (exists_last Hne) as [l' [b E]]. rewrite E.
  rewrite last_last, length_app. simpl length.
  rewrite app_nth2 by lia.
  replace (length l' + 1 - 1 - length l')%nat with 0%nat by lia.
  reflexivity.
Qed.

Lemma Sorted_increasing_at a : Sorted flt a -> increasing_at a.
Proof.
  intros Hs. apply Sorted_StronglySorted in Hs;
    [|exact flt_trans].
  induction Hs as [|x l Hl IH Hall]; intros i j Hij; simpl in Hij; [lia|].
  destruct j as [|j]; [lia|]. destruct i as [|i]; simpl.
  - rewrite Forall_forall in Hall. apply Hall. apply nth_In. lia.
  - apply IH. lia.
Qed.

(** [bisect_right] on any list: the loop ends within its fuel, and the
    position [k] it returns is one the comparisons it made vouch for: the
    element at [k], if there is one, is above [x], and the element before
    [k], if there is one, is not. *)
Lemma bisect_loop_local (a : list PrimFloat.float) (x : PrimFloat.float) :
  forall fuel lo hi,
    (0 <= lo <= hi)%Z -> (hi <= Z.of_nat (length a))%Z ->
    (hi - lo <= Z.of_nat fuel)%Z ->
    exists k,
      bisect_loop fuel a x lo hi = Ok k
      /\ (lo <= k <= hi)%Z
      /\ ((k < hi)%Z -> (x <? zth a k)%float = true)
      /\ ((lo < k)%Z -> (x <? zth a (k - 1))%float = false).
Proof.
  induction fuel as [|fuel IH]; intros lo hi Hlo Hhi Hfuel.
  - simpl. destruct (lo <? hi)%Z eqn:E; [apply Z.ltb_lt in E; lia|].
    apply Z.ltb_ge in E. exists lo. repeat split; try lia.
  - simpl. destruct (lo <? hi)%Z eqn:E.
    + apply Z.ltb_lt in E.
      assert (Hmid : (lo <= (lo + hi) / 2 < hi)%Z).
      { split; [apply Z.div_le_lower_bound | apply Z.div_lt_upper_bound];
          lia. }
      remember ((lo + hi) / 2)%Z as mid eqn:Emid. clear Emid.
      rewrite (py_index_inside a mid 0%float) by lia. cbn [rbind].
      destruct (x <? zth a mid)%float eqn:Ex.
      * destruct (IH lo mid) as (k & Hk & Hb & H1 & H2); try lia.
        exists k. split; [exact Hk|]. split; [lia|]. split.
        -- intros Hlt. destruct (Z.eq_dec k mid) as [->|Hne];
             [exact Ex | apply H1; lia].
        -- exact H2.
      * destruct (IH (mid + 1)%Z hi) as (k & Hk & Hb & H1 & H2); try lia.
        exists k. split; [exact Hk|]. split; [lia|]. split.
        -- exact H1.
        -- intros Hlt. destruct (Z.eq_dec k (mid + 1)) as [->|Hne].
           ++ replace (mid + 1 - 1)%Z with mid by lia. exact Ex.
           ++ apply H2. lia.
    + apply Z.ltb_ge in E. exists lo. repeat split; try lia.
Qed.

Lemma bisect_right_local (a : list PrimFloat.float) (x : PrimFloat.float) :
  exists k,
    bisect_right a x = Ok k
    /\ (0 <= k <= Z.of_nat (length a))%Z
    /\ ((k < Z.of_nat (length a))%Z -> (x <? zth a k)%float = true)
    /\ ((0 < k)%Z -> (x <? zth a (k - 1))%float = false).
Proof. unfold bisect_right. apply bisect_loop_local; lia. Qed.

(** The loop of [bisect_right] ends within its fuel on every list. *)
Lemma bisect_right_total (a : list PrimFloat.float) (x : PrimFloat.float) :
  exists k, bisect_right a x = Ok k.
Proof.
  destruct (bisect_right_local a x) as (k & Hk & _). now exists k.
Qed.

Lemma truediv_ok a b :
  (b =? 0)%float = false -> truediv a b = Ok (a / b)%float.
Proof. intros Hb. unfold truediv. now rewrite Hb. Qed.

(** The segment [get_correction] interpolates on.  On every table with
    two entries or more and a row per entry, sorted or not, a query the
    range check lets through gets as far as the division, on two
    neighbouring entries the bisection has compared the query with. *)
Lemma get_correction_segment (tbl : LookupTable.t) (value : PrimFloat.float) :
  (2 <= length (input_data tbl))%nat ->
  length (corr_data tbl) = length (input_data tbl) ->
  (value <? hd 0%float (input_data tbl))%float = false ->
  (last (input_data tbl) 0%float <? value)%float = false ->
  exists (i : nat) lo hi row next_row,
    nth_error (input_data tbl) i = Some lo
    /\ nth_error (input_data tbl) (S i) = Some hi
    /\ nth_error (corr_data tbl) i = Some row
    /\ nth_error (corr_data tbl) (S i) = Some next_row
    /\ (((value <? lo)%float = false /\ (value <? hi)%float = true)
        \/ (S (S i) = length (input_data tbl)
            /\ (value <? hi)%float = false))
    /\ get_correction tbl value
       = (frac_value <- truediv (value - lo)%float (hi - lo)%float ;;
          Ok (interpolate row next_row frac_value)).
Proof.
  destruct tbl as [name a rows]. cbn [input_data corr_data].
  intros Hlen Hrows Hmin Hmax.
  remember (length a) as n eqn:Hn.
  assert (Hne : a <> []) by (intros ->; simpl in Hn; lia).
  assert (Hhd : hd 0%float a = nth 0 a 0%float) by (destruct a; reflexivity).
  rewrite Hhd in Hmin. rewrite last_nth in Hmax. rewrite <- Hn in Hmax.
  destruct (bisect_right_local a value) as (k & Hk & Hkb & Habove & Hbelow).
  rewrite <- Hn in Hkb, Habove.
  assert (Hk1 : (1 <= k)%Z).
  { destruct (Z_lt_le_dec k 1) as [Hlt|]; [|assumption].
    assert (k = 0%Z) as -> by lia.
    assert (H0 : (value <? zth a 0)%float = true) by (apply Habove; lia).
    change (Z.to_nat 0) with 0%nat in H0. congruence. }
  remember (if Z.eq_dec k (Z.of_nat n) then (n - 2)%nat
            else Z.to_nat (k - 1)) as i eqn:Ei.
  assert (Hi : (S i < n)%nat).
  { subst i. destruct (Z.eq_dec k (Z.of_nat n)); lia. }
  assert (Hind : (if (k - 1 =? Z.of_nat n - 1)%Z then (k - 1 - 1)%Z
                  else (k - 1)%Z) = Z.of_nat i).
  { subst i. destruct (Z.eq_dec k (Z.of_nat n)) as [->|Hne'].
    - rewrite Z.eqb_refl. lia.
    - destruct (k - 1 =? Z.of_nat n - 1)%Z eqn:E;
        [apply Z.eqb_eq in E; lia | lia]. }
  assert (Hfacts :
    ((value <? nth i a 0%float)%float = false
     /\ (value <? nth (S i) a 0%float)%float = true)
    \/ (S (S i) = n /\ (value <? nth (S i) a 0%float)%float = false)).
  { subst i. destruct (Z.eq_dec k (Z.of_nat n)) as [->|Hne'].
    - right. split; [lia|].
      replace (S (n - 2)) with (n - 1)%nat by lia. 
      replace (n - 1)%nat with (Z.to_nat (Z.of_nat n - 1)) by lia.
      apply Hbelow. lia.
    - left. split.
      + apply Hbelow. lia.
      + replace (S (Z.to_nat (k - 1))) with (Z.to_nat k) by lia.
        apply Habove. lia. }
  clear Ei.
  exists i, (nth i a 0%float), (nth (S i) a 0%float),
    (nth i rows row0), (nth (S i) rows row0).
  split; [apply nth_error_nth'; lia|].
  split; [apply nth_error_nth'; lia|].
  split; [apply nth_error_nth'; lia|].
  split; [apply nth_error_nth'; lia|].
  split; [exact Hfacts|].
  unfold get_correction. cbn [input_data corr_data].
  rewrite (py_index_inside a 0 0%float) by lia.
  rewrite (py_index_last a 0%float Hne). cbn [rbind].
  rewrite last_nth. rewrite <- ?Hn.
  change (Z.to_nat 0) with 0%nat.
  rewrite Hmin, Hmax. cbn [orb]. rewrite Hk. cbn [rbind].
  rewrite <- ?Hn. rewrite Hind.
  rewrite (py_index_inside a (Z.of_nat i) 0%float) by lia.
  rewrite (py_index_inside a (Z.of_nat i + 1) 0%float) by lia.
  cbn [rbind].
  replace (Z.to_nat (Z.of_nat i + 1)) with (S i) by lia.
  rewrite Nat2Z.id.
  destruct (truediv (value - nth i a 0) (nth (S i) a 0 - nth i a 0))%float
    as [frac|e]; cbn [rbind]; [|reflexivity].
  rewrite (py_index_inside rows (Z.of_nat i) row0) by lia.
  rewrite (py_index_inside rows (Z.of_nat i + 1) row0) by lia.
  cbn [rbind].
  replace (Z.to_nat (Z.of_nat i + 1)) with (S i) by lia.
  rewrite Nat2Z.id. reflexivity.
Qed.


Lemma py_index_not_range {A} (l : list A) i x lo hi :
  py_index l i <> Raise (ValueErrorRange x lo hi).
Proof.
  unfold py_index.
  destruct (_ || _); [discriminate|].
  destruct (nth_error _ _); discriminate.
Qed.

Lemma bisect_loop_not_range fuel a x lo hi v l h :
  bisect_loop fuel a x lo hi <> Raise (ValueErrorRange v l h).
Proof.
  revert lo hi. induction fuel as [|fuel IH]; intros lo hi; simpl.
  - destruct (lo <? hi)%Z; discriminate.
  - destruct (lo <? hi)%Z; [|discriminate].
    destruct (py_index a ((lo + hi) / 2)) as [am|e] eqn:E; simpl.
    + destruct (x <? am)%float; apply IH.
    + intros Hr. assert (e = ValueErrorRange v l h) by congruence.
      subst e. exact (py_index_not_range _ _ _ _ _ E).
Qed.

(** A query the range check lets through fails, if it does, with another
    error. *)
Lemma passed_range_check (tbl : LookupTable.t) value first rest :
  input_data tbl = first :: rest ->
  (value <? first)%float = false ->
  (last (input_data tbl) 0%float <? value)%float = false ->
  forall x lo hi,
    get_correction tbl value <> Raise (ValueErrorRange x lo hi).
Proof.
  intros Ha E1 E2 x lo hi.
  assert (Hne : input_data tbl <> []) by (rewrite Ha; discriminate).
  assert (Hfirst : py_index (input_data tbl) 0 = Ok first)
    by (rewrite Ha; reflexivity).
  unfold get_correction.
  rewrite Hfirst, (py_index_last _ 0%float Hne). cbn [rbind].
  rewrite E1, E2. cbn [orb]. clear Hfirst.
  unfold bisect_right.
  destruct (bisect_loop _ _ _ _ _) as [k|e] eqn:Ek; cbn [rbind];
    [|intros Hr; assert (e = ValueErrorRange x lo hi) by congruence;
      subst e; exact (bisect_loop_not_range _ _ _ _ _ _ _ _ Ek)].
  repeat match goal with
         | |- context [rbind (py_index ?l ?i) _] =>
             let E := fresh "E" in
             destruct (py_index l i) as [?|e] eqn:E; cbn [rbind];
             [|intros Hr;
               assert (e = ValueErrorRange x lo hi) by congruence;
               subst e; exact (py_index_not_range _ _ _ _ _ E)]
         | |- context [rbind (truediv ?a ?b) _] =>
             unfold truediv; destruct (b =? 0)%float; cbn [rbind];
             [intros Hr; discriminate Hr|]
         end.
  intros Hr; discriminate Hr.
Qed.

(** C5. On a table with at least one entry, [get_correction] raises the
    out-of-range error exactly when the query is strictly below the first
    stored input or strictly above the last; the error carries the query
    and these two bounds and no others; and an out-of-range query returns
    no correction. *)
Theorem out_of_range_iff (tbl : LookupTable.t)
    (value first : PrimFloat.float) rest :
  input_data tbl = first :: rest ->
  let last := last (input_data tbl) 0%float in
  (get_correction tbl value = Raise (ValueErrorRange value first last)
   <-> flt value first \/ flt last value)
  /\ (forall x lo hi,
        get_correction tbl value = Raise (ValueErrorRange x lo hi) ->
        (flt value first \/ flt last value)
        /\ ValueErrorRange x lo hi = ValueErrorRange value first last)
  /\ (flt value first \/ flt last value ->
      forall corr, get_correction tbl value <> Ok corr).
Proof.
  intros Ha. cbv zeta. unfold flt.
  assert (Hne : input_data tbl <> []) by (rewrite Ha; discriminate).
  assert (Hfirst : py_index (input_data tbl) 0 = Ok first)
    by (rewrite Ha; reflexivity).
  assert (Hraise :
    (value <? first)%float = true
    \/ (last (input_data tbl) 0%float <? value)%float = true ->
    get_correction tbl value
    = Raise (ValueErrorRange value first (last (input_data tbl) 0%float))).
  { intros Hout. unfold get_correction.
    rewrite Hfirst, (py_index_last _ 0%float Hne). cbn [rbind].
    assert (E : ((value <? first)
                 || (last (input_data tbl) 0 <? value))%float = true).
    { apply orb_true_iff. exact Hout. }
    rewrite E. reflexivity. }
  assert (Hrange : forall x lo hi,
    get_correction tbl value = Raise (ValueErrorRange x lo hi) ->
    (value <? first)%float = true
    \/ (last (input_data tbl) 0%float <? value)%float = true).
  { intros x lo hi Hr.
    destruct (value <? first)%float eqn:E1; [left; reflexivity|].
    destruct (last (input_data tbl) 0%float <? value)%float eqn:E2;
      [right; reflexivity|].
    exfalso. exact (passed_range_check tbl value first rest Ha E1 E2 _ _ _ Hr). }
  split; [split|split].
  - apply Hrange.
  - exact Hraise.
  - intros x lo hi Hr. assert (Hout := Hrange _ _ _ Hr).
    split; [exact Hout|]. rewrite (Hraise Hout) in Hr. congruence.
  - intros Hout corr. rewrite (Hraise Hout). discriminate.
Qed.



(** *** What the check at the end of [__init__] accepts *)

(** The sorted part, last element first, stays in order when an element
    is inserted. *)
Lemma insert_Sorted x l :
  value_le x x -> Forall (fun y => value_le y y) l ->
  Sorted (fun y z => value_le z y) l ->
  Sorted (fun y z => value_le z y) (insert x l).
Proof.
  intros Hx Hnum Hs. induction Hs as [|y l Hl IH Hhd]; simpl.
  - repeat constructor.
  - apply Forall_cons_iff in Hnum as [Hy Hnum].
    destruct (snd x <? snd y)%float eqn:E.
    + constructor; [exact (IH Hnum)|].
      destruct Hhd as [|z l Hz]; simpl.
      * constructor. now apply flt_fle.
      * destruct (snd x <? snd z)%float; constructor;
          [assumption|now apply flt_fle].
    + constructor; [now constructor|]. constructor.
      apply fle_total; assumption.
Qed.

Lemma insert_Forall (P : obj -> Prop) x l :
  P x -> Forall P l -> Forall P (insert x l).
Proof.
  intros Hx. induction 1 as [|y l Hy Hl IH]; simpl.
  - now constructor.
  - destruct (snd x <? snd y)%float; repeat constructor; assumption.
Qed.

Lemma fold_insert_Sorted l acc :
  Forall (fun y => value_le y y) l -> Forall (fun y => value_le y y) acc ->
  Sorted (fun y z => value_le z y) acc ->
  Sorted (fun y z => value_le z y)
    (fold_left (fun acc x => insert x acc) l acc).
Proof.
  revert acc. induction l as [|x l IH]; intros acc Hl Hnum Hacc; simpl.
  - exact Hacc.
  - apply Forall_cons_iff in Hl as [Hx Hl].
    apply IH; [exact Hl| |].
    + now apply insert_Forall.
    + now apply insert_Sorted.
Qed.

Lemma StronglySorted_snoc {A} (R : A -> A -> Prop) l x :
  StronglySorted R l -> Forall (fun y => R y x) l ->
  StronglySorted R (l ++ [x]).
Proof.
  induction 1 as [|y l Hl IH Hall]; intros Hx; simpl.
  - repeat constructor.
  - apply Forall_cons_iff in Hx as [Hyx Hx].
    constructor; [exact (IH Hx)|].
    apply Forall_app. split; [exact Hall|]. now constructor.
Qed.

Lemma Sorted_rev (l : list obj) :
  Sorted (fun y z => value_le z y) l -> Sorted value_le (rev l).
Proof.
  intros Hs. apply StronglySorted_Sorted.
  apply Sorted_StronglySorted in Hs;
    [|intros x y z Hxy Hyz; exact (fle_trans _ _ _ Hyz Hxy)].
  induction Hs as [|x l Hl IH Hall]; simpl; [constructor|].
  apply StronglySorted_snoc; [exact IH|].
  apply Forall_rev. exact Hall.
Qed.

(** A list without a descent comes back as it is, whatever its values. *)
Lemma fold_insert_no_descent l acc :
  Sorted (fun x y => no_descent (snd x) (snd y)) l ->
  match acc, l with
  | y :: _, x :: _ => no_descent (snd y) (snd x)
  | _, _ => True
  end ->
  fold_left (fun acc x => insert x acc) l acc = (rev l ++ acc)%list.
Proof.
  revert acc. induction l as [|x l IH]; intros acc Hs Hacc; simpl.
  - reflexivity.
  - apply Sorted_inv in Hs as [Hs Hhd].
    assert (E : insert x acc = x :: acc).
    { destruct acc as [|y acc]; [reflexivity|]. simpl.
      unfold no_descent in Hacc. now rewrite Hacc. }
    rewrite E, IH, <- app_assoc; [reflexivity|exact Hs|].
    destruct Hhd; [exact I|assumption].
Qed.

Lemma sorted_no_descent (a : list PrimFloat.float) :
  Sorted no_descent a -> sorted (objects a) = objects a.
Proof.
  intros Hs. unfold sorted. rewrite fold_insert_no_descent.
  - now rewrite app_nil_r, rev_involutive.
  - clear - Hs. unfold objects. generalize 0%nat.
    induction Hs as [|x l Hl IH Hhd]; intros start; simpl; constructor.
    + apply IH.
    + destruct Hhd; simpl; constructor. assumption.
  - exact I.
Qed.

Lemma list_eq_identity l : list_eq l l = true.
Proof.
  induction l as [|x l IH]; simpl; [reflexivity|].
  unfold obj_eq. now rewrite Nat.eqb_refl.
Qed.

(** The objects of a list: the object at a position holds the value
    there. *)
Lemma In_objects_from (l : list PrimFloat.float) start p v :
  In (p, v) (combine (seq start (length l)) l) ->
  nth_error l (p - start) = Some v /\ (start <= p)%nat.
Proof.
  revert start. induction l as [|x l IH]; intros start; simpl; [tauto|].
  intros [E|Hin].
  - injection E as <- <-. rewrite Nat.sub_diag. split; [reflexivity|lia].
  - destruct (IH (S start) Hin) as [Hn Hle].
    replace (p - start)%nat with (S (p - S start)) by lia.
    split; [exact Hn|lia].
Qed.

Lemma In_objects (l : list PrimFloat.float) p v :
  In (p, v) (objects l) -> nth_error l p = Some v.
Proof.
  intros Hin. destruct (In_objects_from l 0 p v Hin) as [H _].
  now rewrite Nat.sub_0_r in H.
Qed.

Lemma objects_values (l : list PrimFloat.float) : map snd (objects l) = l.
Proof.
  unfold objects. generalize 0%nat.
  induction l as [|x l IH]; intros start; simpl; [reflexivity|].
  now rewrite IH.
Qed.

Lemma Sorted_map_snd (l : list obj) :
  Sorted value_le l <-> Sorted fle (map snd l).
Proof.
  induction l as [|x l IH]; simpl; split; intros Hs; try constructor;
    apply Sorted_inv in Hs as [Hs Hhd].
  - now apply IH.
  - destruct Hhd; simpl; constructor. assumption.
  - now apply IH.
  - destruct l; simpl in *; constructor.
    inversion Hhd; subst. assumption.
Qed.

Lemma Forall_map_snd (P : PrimFloat.float -> Prop) (l : list obj) :
  Forall (fun x => P (snd x)) l <-> Forall P (map snd l).
Proof. now rewrite Forall_map. Qed.

(** Two lists Python finds equal, element by element, are in order
    together, when their elements are objects of one list of numbers. *)
Lemma list_eq_Sorted (a : list PrimFloat.float) l l' :
  Forall (fun x => is_nan x = false) a ->
  incl l (objects a) -> incl l' (objects a) ->
  list_eq l l' = true -> Sorted value_le l' -> Sorted value_le l.
Proof.
  intros Hnum. 
  assert (Hobj : forall x y, In x (objects a) -> In y (objects a) ->
                   obj_eq x y = true -> fle (snd x) (snd y) /\ fle (snd y) (snd x)).
  { intros [p v] [q w] Hx Hy He. unfold obj_eq in He. cbn [fst snd] in *.
    apply In_objects in Hx, Hy.
    apply orb_true_iff in He as [He|He].
    - apply Nat.eqb_eq in He. subst q.
      assert (v = w) by congruence. subst w.
      assert (Hv : fle v v).
      { apply fle_refl_iff. rewrite Forall_forall in Hnum.
        apply Hnum. eapply nth_error_In. exact Hx. }
      split; exact Hv.
    - exact (feq_fle _ _ He). }
  revert l'. induction l as [|x l IH]; intros [|x' l'] Hl Hl' He Hs;
    simpl in He; try discriminate; [constructor|].
  apply andb_true_iff in He as [Hx He].
  apply Sorted_inv in Hs as [Hs Hhd].
  assert (Hlt : incl l (objects a)) by (intros z Hz; apply Hl; now right).
  assert (Hlt' : incl l' (objects a)) by (intros z Hz; apply Hl'; now right).
  constructor; [exact (IH l' Hlt Hlt' He Hs)|].
  destruct l as [|y l]; [constructor|].
  destruct l' as [|y' l'']; [discriminate|].
  simpl in He. apply andb_true_iff in He as [Hy _].
  constructor. inversion Hhd; subst.
  destruct (Hobj x x') as [Hxx _];
    [apply Hl; now left|apply Hl'; now left|exact Hx|].
  destruct (Hobj y y') as [_ Hyy];
    [apply Hl; right; now left|apply Hl'; right; now left|exact Hy|].
  unfold value_le in *.
  apply fle_trans with (snd x'); [exact Hxx|].
  apply fle_trans with (snd y'); assumption.
Qed.

Lemma insert_incl x l (s : list obj) :
  In x s -> incl l s -> incl (insert x l) s.
Proof.
  intros Hx. induction l as [|y l IH]; intros Hl; simpl.
  - intros z [<-|[]]. exact Hx.
  - destruct (snd x <? snd y)%float.
    + intros z [<-|Hz]; [apply Hl; now left|].
      apply IH; [|exact Hz]. intros w Hw. apply Hl. now right.
    + intros z [<-|Hz]; [exact Hx|now apply Hl].
Qed.

Lemma fold_insert_incl l acc (s : list obj) :
  incl l s -> incl acc s ->
  incl (fold_left (fun acc x => insert x acc) l acc) s.
Proof.
  revert acc. induction l as [|x l IH]; intros acc Hl Hacc; simpl.
  - exact Hacc.
  - apply IH.
    + intros z Hz. apply Hl. now right.
    + apply insert_incl; [apply Hl; now left|exact Hacc].
Qed.

Lemma Sorted_fle_no_descent (a : list PrimFloat.float) :
  Sorted fle a -> Sorted no_descent a.
Proof.
  induction 1 as [|x l Hl IH Hhd]; constructor; [exact IH|].
  destruct Hhd; constructor. now apply fle_not_flt.
Qed.

(** [input_data != sorted(input_data)] is false for inputs without a
    descent, whatever they are. *)
Lemma sorted_check_no_descent (a : list PrimFloat.float) :
  Sorted no_descent a -> list_eq (objects a) (sorted (objects a)) = true.
Proof.
  intros Hs. rewrite (sorted_no_descent a Hs). apply list_eq_identity.
Qed.

(** [input_data != sorted(input_data)] is false, for inputs without
    not-a-number, exactly when they never decrease: equal neighbours
    pass. *)
Lemma sorted_check_iff (a : list PrimFloat.float) :
  Forall (fun x => is_nan x = false) a ->
  (list_eq (objects a) (sorted (objects a)) = true <-> Sorted fle a).
Proof.
  intros Hnum.
  assert (Hnum' : Forall (fun y => value_le y y) (objects a)).
  { apply Forall_map_snd with (P := fun v => fle v v).
    rewrite objects_values. eapply Forall_impl; [|exact Hnum].
    intros v Hv. now apply fle_refl_iff. }
  split.
  - intros He. rewrite <- (objects_values a). apply Sorted_map_snd.
    apply (list_eq_Sorted a (objects a) (sorted (objects a)) Hnum
             (incl_refl _)); [|exact He|].
    + unfold sorted. intros z Hz. apply in_rev in Hz.
      exact (fold_insert_incl _ _ _ (incl_refl _) (incl_nil_l _) z Hz).
    + apply Sorted_rev.
      apply fold_insert_Sorted; [exact Hnum'|constructor|constructor].
  - intros Hs. apply sorted_check_no_descent.
    now apply Sorted_fle_no_descent.
Qed.

(** Every table that has been read has one correction row per input. *)
Lemma read_line_lengths tbl line tbl' :
  read_line tbl line = Ok tbl' ->
  length (corr_data tbl) = length (input_data tbl) ->
  length (corr_data tbl') = length (input_data tbl').
Proof.
  unfold read_line.
  destruct (PyStr.strip line) as [|c rest]; [now intros [= <-]|].
  destruct (Ascii.eqb c "#"); [now intros [= <-]|].
  destruct (negb _); [discriminate|].
  destruct (input_name tbl).
  - destruct (rmap PyStr.float _) as [data|]; [|discriminate]. cbn [rbind].
    destruct data as [|i [|x [|y [|z [|u [|v [|w [|]]]]]]]]; try discriminate.
    intros [= <-] Hl. cbn [corr_data input_data].
    rewrite !length_app, Hl. reflexivity.
  - destruct (negb _); [discriminate|].
    destruct (negb _); [discriminate|].
    now intros [= <-].
Qed.

Lemma read_lines_lengths lines tbl tbl' :
  read_lines tbl lines = Ok tbl' ->
  length (corr_data tbl) = length (input_data tbl) ->
  length (corr_data tbl') = length (input_data tbl').
Proof.
  revert tbl. induction lines as [|line rest IH]; intros tbl; simpl.
  - now intros [= <-].
  - destruct (read_line tbl line) as [tbl1|] eqn:E; [|discriminate].
    cbn [rbind]. intros Hr Hl. apply (IH tbl1 Hr).
    exact (read_line_lengths _ _ _ E Hl).
Qed.

Lemma init_lengths lines tbl :
  LookupTable.init lines = Ok tbl ->
  length (corr_data tbl) = length (input_data tbl).
Proof.
  unfold LookupTable.init.
  destruct (read_lines _ lines) as [tbl1|] eqn:E; [|discriminate].
  cbn [rbind]. destruct (negb _); [discriminate|].
  intros [= <-]. exact (read_lines_lengths _ _ _ E eq_refl).
Qed.

End LookupTableProofs.

(** *** The lookup table on examples *)

Import LookupTable.

Lemma elevation_sorted : Sorted flt (input_data Sample.elevation).
Proof. repeat first [reflexivity | constructor]. Defined.

(** The elevation table of the specification's first scenario: a query of
    5 gives the x correction 0.5; queries of -1 and 45 are out of range. *)
Example elevation_scenario :
  LookupTable.init Sample.elevation_lines = Ok Sample.elevation
  /\ (exists corr, get_correction Sample.elevation 5 = Ok corr
                   /\ cx corr = 0.5%float)
  /\ get_correction Sample.elevation (-1)
     = Raise (ValueErrorRange (-1) 0 40)
  /\ get_correction Sample.elevation 45 = Raise (ValueErrorRange 45 0 40).
Proof.
  split; [reflexivity|]. split; [|split; reflexivity].
  eexists. split; reflexivity.
Qed.



Lemma out_of_range_iff_witness :
  input_data Sample.elevation = 0%float :: [10; 20; 30; 40]%float
  /\ (flt 45 0 \/ flt (last (input_data Sample.elevation) 0%float) 45)
  /\ get_correction Sample.elevation 45
     = Raise (ValueErrorRange 45 0 40).
Proof.
  assert (Hout : flt 45 0
                 \/ flt (last (input_data Sample.elevation) 0%float) 45)
    by (right; reflexivity).
  split; [reflexivity|]. split; [exact Hout|].
  exact (proj2 (proj1 (out_of_range_iff Sample.elevation 45%float 0%float
                         [10; 20; 30; 40]%float eq_refl)) Hout).
Defined.

(** C2 (the code against its documentation). A file whose input column
    repeats a value is not rejected: it loads, and the query at the repeated
    breakpoint then divides by zero.  By [sorted_check_iff] the check at the
    end of [__init__] rejects decreasing inputs only. *)
Lemma duplicate_inputs_load :
  LookupTable.init Sample.duplicate_lines = Ok Sample.duplicate
  /\ get_correction Sample.duplicate 1 = Raise ZeroDivisionError.
Proof. split; reflexivity. Qed.


(** A single row whose input is not a number loads as well, and there a
    query returns: a row of not-a-number. *)
Example nan_row_returns :
  LookupTable.init Sample.nan_row_lines = Ok Sample.nan_row
  /\ get_correction Sample.nan_row 5
     = Ok (V6 nan nan nan nan nan nan).
Proof. split; reflexivity. Qed.


(** * Further properties of the controller *)

Section ControllerFrames.

Context {H : Type} {hex : SimpleHexapod H} (constants : Constants).

Local Abbreviation controller := (MockMTHexapodController.t H).

Ltac open_monad :=
  cbv beta iota zeta delta
    [bind ret raise get modify lift try_except log_record_add write_config
     hexapod_move set_state assert_state assert_stationary
     do_start do_enable do_standby do_disable do_exit do_clear_error
     do_enter_control do_move_point_to_point do_stop do_position_set
     do_set_pivotpoint do_config_accel do_config_limits do_config_vel
     call close
     utils.check_positive_value utils.check_negative_value
     utils.check_symmetrical_range utils.check_range] in *.

Ltac open_state :=
  cbv beta iota zeta delta
    [state_of offline_substate_of enabled_substate_of states_of envelope
     with_log with_telemetry with_config with_hexapod with_set_position
     tel_with_states tel_with_enabled_substate tel_with_commanded_pos
     tel_with_commanded_length
     encoder_resolution xy_max_limit z_min_limit z_max_limit uv_max_limit
     w_min_limit w_max_limit config hexapod telemetry set_position log
     state offline_substate enabled_substate commanded_pos fst snd] in *.

Ltac case_ifs :=
  repeat match goal with
    | |- context [if ?b then _ else _] => destruct b eqn:?
    | |- context [match move ?p ?q ?h with _ => _ end] =>
        destruct (move p q h) as [[[]|?] ?] eqn:?
    end.

Lemma call_envelope m command (c : controller) :
  envelope (snd (call constants m command c)) = envelope c.
Proof.
  destruct c as [er l1 l2 l3 l4 l5 l6 cfg h tel sp lg].
  destruct m; open_monad; open_state; case_ifs; reflexivity.
Qed.

(** X1. No command, telemetry tick or [close] changes the encoder
    resolution or the hardware limits the constructor stored: whatever
    CONFIG_LIMITS sets, later limits are still checked against the same
    hardware envelope. *)
Theorem envelope_is_fixed command (c : controller) :
  envelope (snd (run_command constants command c)) = envelope c
  /\ envelope (snd (update_telemetry constants c)) = envelope c
  /\ envelope (snd (close c)) = envelope c.
Proof.
  split; [|split].
  - rewrite run_command_eq.
    destruct (CommandCode.of_value (cmd command)); [|reflexivity].
    cbv zeta. destruct (get_command_key command); [|reflexivity].
    destruct (table_get _ command_table) as [m|]; [|reflexivity].
    match goal with
    | |- context [call constants m command ?c1] =>
        assert (E := call_envelope m command c1); set (rc := call constants m command c1) in *
    end.
    simpl snd.
    destruct (fst rc); destruct (method_eqb m m_position_set); exact E.
  - destruct c as [er l1 l2 l3 l4 l5 l6 cfg h tel sp lg].
    unfold update_telemetry. open_monad. open_state. case_ifs; reflexivity.
  - reflexivity.
Qed.

Lemma of_value_ok v :
  (exists code, CommandCode.of_value v = Ok code) <-> In v CommandCode.members.
Proof.
  unfold CommandCode.of_value.
  destruct (existsb (Z.eqb v) CommandCode.members) eqn:E.
  - apply existsb_exists in E as [x [Hin Hx]]. apply Z.eqb_eq in Hx. subst x.
    split; [intros _; exact Hin | intros _; now exists v].
  - split; [intros [code Hc]; discriminate|].
    intros Hin. assert (Ht : existsb (Z.eqb v) CommandCode.members = true).
    { apply existsb_exists. exists v. split; [exact Hin|apply Z.eqb_refl]. }
    congruence.
Qed.

Lemma get_command_key_ok command :
  (exists k, get_command_key command = Ok k)
  <-> ((cmd command = CommandCode.SET_STATE
        \/ cmd command = CommandCode.SET_ENABLED_SUBSTATE) ->
       PyFloat.isfinite (param1 command) = true).
Proof.
  unfold get_command_key.
  destruct ((cmd command =? CommandCode.SET_STATE)
            || (cmd command =? CommandCode.SET_ENABLED_SUBSTATE)) eqn:E.
  - assert (Hc : cmd command = CommandCode.SET_STATE
                 \/ cmd command = CommandCode.SET_ENABLED_SUBSTATE).
    { apply orb_true_iff in E as [E|E]; apply Z.eqb_eq in E; auto. }
    destruct (param1 command) as [q| | |]; simpl; split;
      try (intros _; eexists; reflexivity);
      try (intros _ _; reflexivity);
      try (intros [k Hk]; discriminate);
      intros Hf; specialize (Hf Hc); discriminate.
  - split; [|intros _; eexists; reflexivity].
    intros _ [Hc|Hc]; rewrite Hc in E; discriminate.
Qed.

(** X2. [run_command] returns normally exactly when the opcode is a member
    of [CommandCode] and, for the two opcodes whose key needs it, the first
    parameter is a finite number; in every other case it raises before any
    handler is called.  An exception of a handler never leaves it. *)
Theorem run_command_returns_iff command (c : controller) :
  fst (run_command constants command c) = Ok tt
  <-> In (cmd command) CommandCode.members
      /\ ((cmd command = CommandCode.SET_STATE
           \/ cmd command = CommandCode.SET_ENABLED_SUBSTATE) ->
          PyFloat.isfinite (param1 command) = true).
Proof.
  rewrite <- of_value_ok, <- get_command_key_ok, run_command_eq.
  destruct (CommandCode.of_value (cmd command)) as [code|e].
  - cbv zeta. destruct (get_command_key command) as [k|e].
    + destruct (table_get k command_table); simpl; split; intros _;
        try reflexivity; split; eexists; reflexivity.
    + simpl. split; [discriminate|]. intros [_ [k Hk]]. discriminate.
  - simpl. split; [discriminate|]. intros [[code Hc] _]. discriminate.
Qed.

(** X3. A command whose key is not in [command_table] (or for which the
    key is never looked up) changes nothing of the controller but its log;
    when [run_command] gets as far as the lookup, the last log record is
    the error naming the opcode and first parameter. *)
Theorem unrecognized_command_only_logs command (c : controller) :
  handler_of command = None ->
  let c' := snd (run_command constants command c) in
  with_log (log c) c' = c
  /\ (fst (run_command constants command c) = Ok tt ->
      exists code,
        log c'
        = log c
          ++ [debug_run_command code (param1 command) (param2 command)
                (param3 command);
              error_unrecognized (cmd command) (param1 command)]).
Proof.
  intros Hn. cbv zeta. rewrite run_command_eq. unfold handler_of in Hn.
  destruct c as [er l1 l2 l3 l4 l5 l6 cfg h tel sp lg].
  destruct (CommandCode.of_value (cmd command)) as [code|e].
  - cbv zeta. destruct (get_command_key command) as [k|e].
    + rewrite Hn. simpl. split; [reflexivity|]. intros _. exists code.
      now rewrite <- app_assoc.
    + simpl. split; [reflexivity|discriminate].
  - simpl. split; [reflexivity|discriminate].
Qed.

(** A state-change handler whose requirement holds is [set_state]. *)
Lemma call_set_state k m command (c : controller) target :
  In (k, m) command_table ->
  set_state_target m = Some target ->
  transition_declared k c = true ->
  call constants m command c = set_state target c.
Proof.
  intros Hin Ht Hd. simpl in Hin.
  repeat (destruct Hin as [Hin|Hin]; [injection Hin as <- <-|]);
    try contradiction; try discriminate Ht;
    injection Ht as <-; simpl in Hd;
    cbv beta iota zeta delta
      [call do_start do_enable do_standby do_disable do_exit do_clear_error
       do_enter_control assert_state bind get raise ret];
    try (rewrite Hd; reflexivity).
  apply andb_true_iff in Hd as [Hs Ho]. rewrite Hs, Ho. reflexivity.
Qed.

Lemma set_state_step command (c : controller) m target :
  handler_of command = Some m ->
  set_state_target m = Some target ->
  legal command c = true ->
  let c' := snd (run_command constants command c) in
  fst (call constants m command c) = Ok tt
  /\ states_of c'
     = (target,
        match target with OFFLINE => OfflineSubstate.AVAILABLE | _ => 0 end,
        match target with ENABLED => EnabledSubstate.STATIONARY | _ => 0 end)
  /\ set_position c' = six NaN
  /\ config c' = config c
  /\ hexapod c' = hexapod c
  /\ commanded_pos (telemetry c') = commanded_pos (telemetry c).
Proof.
  intros Hm Ht Hl. cbv zeta. rewrite run_command_eq.
  unfold handler_of in Hm. unfold legal in Hl.
  destruct (CommandCode.of_value (cmd command)) as [code|]; [|discriminate].
  cbv zeta. destruct (get_command_key command) as [k|]; [|discriminate].
  rewrite Hm. apply table_get_In in Hm.
  rewrite (call_set_state k m command c target Hm Ht Hl).
  match goal with
  | |- context [call constants m command ?c1] =>
      rewrite (call_set_state k m command c1 target Hm Ht Hl)
  end.
  assert (Em : method_eqb m m_position_set = false)
    by (destruct m; try discriminate Ht; reflexivity).
  rewrite Em. destruct target; repeat split; reflexivity.
Qed.

(** X4. Each state-change command, dispatched in the state (and substate)
    the transition table declares for it, is accepted and sets the state
    its handler names; [set_state] gives the offline substate AVAILABLE in
    OFFLINE, the enabled substate STATIONARY in ENABLED, and zero
    otherwise.  The staged target is reset, Config, the kinematics model
    and the commanded pose are untouched. *)
Theorem declared_transition_effect command (c : controller) m target :
  handler_of command = Some m ->
  set_state_target m = Some target ->
  legal command c = true ->
  let c' := snd (run_command constants command c) in
  fst (call constants m command c) = Ok tt
  /\ states_of c'
     = (target,
        match target with OFFLINE => OfflineSubstate.AVAILABLE | _ => 0 end,
        match target with ENABLED => EnabledSubstate.STATIONARY | _ => 0 end)
  /\ set_position c' = six NaN
  /\ config c' = config c
  /\ hexapod c' = hexapod c
  /\ commanded_pos (telemetry c') = commanded_pos (telemetry c).
Proof. exact (set_state_step command c m target). Qed.

Lemma states_of_inv (c : controller) st off en :
  states_of c = (st, off, en) ->
  state_of c = st /\ offline_substate_of c = off /\ enabled_substate_of c = en.
Proof. unfold states_of. intros [= -> -> ->]. auto. Qed.

Lemma set_state_step_states p m target (c : controller) :
  table_get (KeyPair CommandCode.SET_STATE p) command_table = Some m ->
  set_state_target m = Some target ->
  PyFloat.int (PyFloat.of_Z p) = Ok p ->
  transition_declared (KeyPair CommandCode.SET_STATE p) c = true ->
  states_of (snd (run_command constants (set_state_command p) c))
  = (target,
     match target with OFFLINE => OfflineSubstate.AVAILABLE | _ => 0 end,
     match target with ENABLED => EnabledSubstate.STATIONARY | _ => 0 end).
Proof.
  intros Hm Ht Hp Hd.
  apply (set_state_step (set_state_command p) c m target); [| exact Ht |].
  - unfold handler_of, get_command_key. simpl cmd. simpl param1.
    rewrite Hp. exact Hm.
  - unfold legal, get_command_key. simpl cmd. simpl param1.
    rewrite Hp. exact Hd.
Qed.

Lemma declared_in_state p st (c : controller) :
  In (p, st)
     [(SetStateParam.START, STANDBY); (SetStateParam.ENABLE, DISABLED);
      (SetStateParam.DISABLE, ENABLED); (SetStateParam.STANDBY, DISABLED);
      (SetStateParam.EXIT, STANDBY); (SetStateParam.CLEAR_ERROR, FAULT);
      (SetStateParam.CLEAR_ERROR, OFFLINE)] ->
  state_of c = st ->
  transition_declared (KeyPair CommandCode.SET_STATE p) c = true.
Proof.
  intros Hin Hst. unfold transition_declared. rewrite Hst. simpl in Hin.
  repeat (destruct Hin as [Hin|Hin]; [injection Hin as <- <-; reflexivity|]).
  contradiction.
Qed.

Lemma declared_enter_control (c : controller) :
  state_of c = OFFLINE ->
  offline_substate_of c = OfflineSubstate.AVAILABLE ->
  transition_declared
    (KeyPair CommandCode.SET_STATE SetStateParam.ENTER_CONTROL) c = true.
Proof.
  intros Hst Hoff. unfold transition_declared. rewrite Hst, Hoff. reflexivity.
Qed.

(** X5. From OFFLINE with the offline substate AVAILABLE, the commands
    ENTER_CONTROL, START, ENABLE, DISABLE, STANDBY and EXIT, in this order,
    are all accepted and bring the controller back to OFFLINE and
    AVAILABLE, with the enabled substate zero. *)
Theorem state_cycle_round_trip (c : controller) :
  state_of c = OFFLINE ->
  offline_substate_of c = OfflineSubstate.AVAILABLE ->
  states_of (run_commands constants [set_state_command SetStateParam.ENTER_CONTROL] c)
    = (STANDBY, 0, 0)
  /\ states_of
       (run_commands constants
          [set_state_command SetStateParam.ENTER_CONTROL;
           set_state_command SetStateParam.START] c)
     = (DISABLED, 0, 0)
  /\ states_of
       (run_commands constants
          [set_state_command SetStateParam.ENTER_CONTROL;
           set_state_command SetStateParam.START;
           set_state_command SetStateParam.ENABLE] c)
     = (ENABLED, 0, EnabledSubstate.STATIONARY)
  /\ states_of
       (run_commands constants
          [set_state_command SetStateParam.ENTER_CONTROL;
           set_state_command SetStateParam.START;
           set_state_command SetStateParam.ENABLE;
           set_state_command SetStateParam.DISABLE;
           set_state_command SetStateParam.STANDBY;
           set_state_command SetStateParam.EXIT] c)
     = (OFFLINE, OfflineSubstate.AVAILABLE, 0).
Proof.
  intros Hst Hoff. unfold run_commands. cbn [fold_left].
  remember (snd (run_command constants
                   (set_state_command SetStateParam.ENTER_CONTROL) c))
    as c1 eqn:E1.
  assert (H1 : states_of c1 = (STANDBY, 0, 0)).
  { subst c1.
    apply (set_state_step_states SetStateParam.ENTER_CONTROL m_enter_control STANDBY c
             eq_refl eq_refl eq_refl).
    now apply declared_enter_control. }
  clear E1.
  remember (snd (run_command constants
                   (set_state_command SetStateParam.START) c1))
    as c2 eqn:E2.
  assert (H2 : states_of c2 = (DISABLED, 0, 0)).
  { subst c2. apply states_of_inv in H1 as (Es & _).
    apply (set_state_step_states SetStateParam.START m_start DISABLED c1
             eq_refl eq_refl eq_refl).
    apply (declared_in_state _ STANDBY); [simpl; auto 10 | exact Es]. }
  clear E2.
  remember (snd (run_command constants
                   (set_state_command SetStateParam.ENABLE) c2))
    as c3 eqn:E3.
  assert (H3 : states_of c3 = (ENABLED, 0, EnabledSubstate.STATIONARY)).
  { subst c3. apply states_of_inv in H2 as (Es & _).
    apply (set_state_step_states SetStateParam.ENABLE m_enable ENABLED c2
             eq_refl eq_refl eq_refl).
    apply (declared_in_state _ DISABLED); [simpl; auto 10 | exact Es]. }
  clear E3.
  remember (snd (run_command constants
                   (set_state_command SetStateParam.DISABLE) c3))
    as c4 eqn:E4.
  assert (H4 : states_of c4 = (DISABLED, 0, 0)).
  { subst c4. apply states_of_inv in H3 as (Es & _).
    apply (set_state_step_states SetStateParam.DISABLE m_disable DISABLED c3
             eq_refl eq_refl eq_refl).
    apply (declared_in_state _ ENABLED); [simpl; auto 10 | exact Es]. }
  clear E4.
  remember (snd (run_command constants
                   (set_state_command SetStateParam.STANDBY) c4))
    as c5 eqn:E5.
  assert (H5 : states_of c5 = (STANDBY, 0, 0)).
  { subst c5. apply states_of_inv in H4 as (Es & _).
    apply (set_state_step_states SetStateParam.STANDBY m_standby STANDBY c4
             eq_refl eq_refl eq_refl).
    apply (declared_in_state _ DISABLED); [simpl; auto 10 | exact Es]. }
  clear E5.
  repeat split; try assumption.
  apply states_of_inv in H5 as (Es & _).
  apply (set_state_step_states SetStateParam.EXIT m_exit OFFLINE c5 eq_refl eq_refl eq_refl).
  apply (declared_in_state _ STANDBY); [simpl; auto 10 | exact Es].
Qed.

(** X6. CLEAR_ERROR is accepted in FAULT and again in OFFLINE: sent twice
    to a controller in FAULT, both commands succeed and the controller is
    in OFFLINE with the offline substate AVAILABLE. *)
Theorem clear_error_twice (c : controller) :
  state_of c = FAULT ->
  let clear := set_state_command SetStateParam.CLEAR_ERROR in
  let c1 := snd (run_command constants clear c) in
  let c2 := snd (run_command constants clear c1) in
  fst (do_clear_error clear c) = Ok tt
  /\ states_of c1 = (OFFLINE, OfflineSubstate.AVAILABLE, 0)
  /\ fst (do_clear_error clear c1) = Ok tt
  /\ states_of c2 = (OFFLINE, OfflineSubstate.AVAILABLE, 0).
Proof.
  intros Hst. cbv zeta.
  assert (Hl : legal (set_state_command SetStateParam.CLEAR_ERROR) c = true).
  { apply (declared_in_state _ FAULT c); [simpl; auto 10 | exact Hst]. }
  destruct (set_state_step (set_state_command SetStateParam.CLEAR_ERROR) c
              m_clear_error OFFLINE eq_refl eq_refl Hl) as (Hok1 & Hs1 & _).
  cbv zeta in Hs1.
  remember (snd (run_command constants
                   (set_state_command SetStateParam.CLEAR_ERROR) c))
    as c1 eqn:E1.
  clear E1.
  assert (Hl1 : legal (set_state_command SetStateParam.CLEAR_ERROR) c1 = true).
  { apply states_of_inv in Hs1 as (Es & _).
    apply (declared_in_state _ OFFLINE c1); [simpl; auto 10 | exact Es]. }
  destruct (set_state_step (set_state_command SetStateParam.CLEAR_ERROR) c1
              m_clear_error OFFLINE eq_refl eq_refl Hl1) as (Hok2 & Hs2 & _).
  split; [exact Hok1|]. split; [exact Hs1|]. split; [exact Hok2|exact Hs2].
Qed.

(** [run_command] for a command whose handler is known. *)
Lemma run_command_handled command (c : controller) m :
  handler_of command = Some m ->
  exists code,
    let c1 :=
      with_log (log c ++ [debug_run_command code (param1 command)
                            (param2 command) (param3 command)]) c in
    let rc := call constants m command c1 in
    run_command constants command c
    = (Ok tt,
       (if method_eqb m m_position_set then fun c3 => c3
        else with_set_position (six NaN))
         match fst rc with
         | Ok _ => snd rc
         | Raise e =>
             with_log (log (snd rc)
                       ++ [error_failed (cmd command) (param1 command) e])
               (snd rc)
         end).
Proof.
  intros Hm. rewrite run_command_eq. unfold handler_of in Hm.
  destruct (CommandCode.of_value (cmd command)) as [code|]; [|discriminate].
  exists code. cbv zeta.
  destruct (get_command_key command) as [k|]; [|discriminate].
  rewrite Hm. destruct (method_eqb m m_position_set); reflexivity.
Qed.

(** X7. STOP in ENABLED is always accepted, whatever the enabled substate:
    it stops the kinematics model, sets the enabled substate to
    STATIONARY and, like every handled command but POSITION_SET, clears the
    staged target; state, Config and commanded pose stay. *)
Theorem stop_forces_stationary command (c : controller) :
  handler_of command = Some m_stop ->
  state_of c = ENABLED ->
  let c' := snd (run_command constants command c) in
  fst (do_stop command c) = Ok tt
  /\ states_of c'
     = (ENABLED, offline_substate_of c, EnabledSubstate.STATIONARY)
  /\ hexapod c' = stop (hexapod c)
  /\ set_position c' = six NaN
  /\ config c' = config c
  /\ commanded_pos (telemetry c') = commanded_pos (telemetry c).
Proof.
  intros Hm Hst. cbv zeta.
  destruct (run_command_handled command c m_stop Hm) as [code E].
  cbv zeta in E. rewrite E. clear E.
  destruct c as [er l1 l2 l3 l4 l5 l6 cfg h tel sp lg].
  destruct tel as [st off en cp cl mp sw lf cf ap ip ts sr sm].
  unfold state_of in Hst. simpl in Hst. subst st.
  open_monad. open_state. simpl. repeat split; reflexivity.
Qed.

(** X8. MOVE_POINT_TO_POINT (or MOVE_LUT) with a staged target whose move
    the kinematics model accepts: the commanded pose becomes the staged
    target, the model is the one [move] returned, the commanded lengths
    are its actuators' end positions, the enabled substate becomes
    MOVING_POINT_TO_POINT and the staged target is cleared. *)
Theorem move_effect command (c : controller) h :
  handler_of command = Some m_move_point_to_point ->
  PyFloat.isfinite (t0 (set_position c)) = true ->
  (let p := set_position c in
   move (T3 (t0 p) (t1 p) (t2 p)) (T3 (t3 p) (t4 p) (t5 p)) (hexapod c))
  = (Ok tt, h) ->
  let c' := snd (run_command constants command c) in
  commanded_pos (telemetry c') = set_position c
  /\ hexapod c' = h
  /\ commanded_length (telemetry c') = map end_pos (actuators h)
  /\ enabled_substate_of c' = EnabledSubstate.MOVING_POINT_TO_POINT
  /\ state_of c' = state_of c
  /\ set_position c' = six NaN
  /\ config c' = config c.
Proof.
  intros Hm Hf Hmove. cbv zeta in *.
  destruct (run_command_handled command c m_move_point_to_point Hm)
    as [code E].
  cbv zeta in E. rewrite E. clear E.
  destruct c as [er l1 l2 l3 l4 l5 l6 cfg h0 tel sp lg].
  destruct tel as [st off en cp cl mp sw lf cf ap ip ts sr sm].
  simpl in Hf, Hmove.
  open_monad. open_state. simpl. rewrite Hf. simpl. rewrite Hmove. simpl.
  repeat split; reflexivity.
Qed.

(** A move without a finite staged target only leaves an error record. *)
Lemma move_rejected command (c : controller) :
  handler_of command = Some m_move_point_to_point ->
  PyFloat.isfinite (t0 (set_position c)) = false ->
  exists code,
    snd (run_command constants command c)
    = with_set_position (six NaN)
        (with_log
           (log c
            ++ [debug_run_command code (param1 command) (param2 command)
                  (param3 command);
                error_failed (cmd command) (param1 command)
                  (RuntimeError
                     "Must call POSITION_SET before calling MOVE_POINT_TO_POINT")])
           c).
Proof.
  intros Hm Hf.
  destruct (run_command_handled command c m_move_point_to_point Hm)
    as [code E].
  exists code. cbv zeta in E. rewrite E. clear E.
  destruct c as [er l1 l2 l3 l4 l5 l6 cfg h0 tel sp lg].
  simpl in Hf. open_monad. open_state. simpl. rewrite Hf. simpl.
  now rewrite <- app_assoc.
Qed.

(** X9. MOVE_POINT_TO_POINT (or MOVE_LUT) without a staged target is
    rejected: the error is logged, and state, substates, telemetry, Config
    and the kinematics model are exactly as before. *)
Theorem move_without_target_is_rejected command (c : controller) :
  handler_of command = Some m_move_point_to_point ->
  PyFloat.isfinite (t0 (set_position c)) = false ->
  let c' := snd (run_command constants command c) in
  telemetry c' = telemetry c
  /\ config c' = config c
  /\ hexapod c' = hexapod c
  /\ set_position c' = six NaN
  /\ In (error_failed (cmd command) (param1 command)
           (RuntimeError
              "Must call POSITION_SET before calling MOVE_POINT_TO_POINT"))
        (log c').
Proof.
  intros Hm Hf. cbv zeta.
  destruct (move_rejected command c Hm Hf) as [code E]. rewrite E.
  repeat split; try reflexivity.
  simpl. apply in_or_app. right. right. left. reflexivity.
Qed.

(** X10. A staged target serves one move only: after any command that
    was dispatched to a handler other than the POSITION_SET one (a move
    included), a MOVE_POINT_TO_POINT is rejected and changes nothing but
    the log. *)
Theorem move_needs_fresh_target first m move_cmd (c : controller) :
  handler_of first = Some m ->
  m <> m_position_set ->
  handler_of move_cmd = Some m_move_point_to_point ->
  let c1 := snd (run_command constants first c) in
  let c2 := snd (run_command constants move_cmd c1) in
  with_log (log c1) c2 = c1
  /\ In (error_failed (cmd move_cmd) (param1 move_cmd)
           (RuntimeError
              "Must call POSITION_SET before calling MOVE_POINT_TO_POINT"))
        (log c2).
Proof.
  intros Hm Hne Hmove. cbv zeta.
  destruct (run_command_handled first c m Hm) as [code E].
  cbv zeta in E.
  assert (Em : method_eqb m m_position_set = false).
  { destruct (method_eqb m m_position_set) eqn:Em; [|reflexivity].
    apply method_eqb_eq in Em. contradiction. }
  rewrite Em in E.
  assert (Hsp : set_position (snd (run_command constants first c)) = six NaN)
    by (rewrite E; reflexivity).
  remember (snd (run_command constants first c)) as c1 eqn:E1. clear E1 E.
  assert (Hf : PyFloat.isfinite (t0 (set_position c1)) = false)
    by (rewrite Hsp; reflexivity).
  destruct (move_rejected move_cmd c1 Hmove Hf) as [code2 E2]. rewrite E2.
  split.
  - destruct c1 as [er l1 l2 l3 l4 l5 l6 cfg h0 tel sp lg].
    simpl in Hsp. subst sp. reflexivity.
  - simpl. apply in_or_app. right. right. left. reflexivity.
Qed.

(** X11. CONFIG_ACCEL sets the strut acceleration to its first parameter
    exactly when the controller is enabled and stationary and the
    parameter is in (0, MAX_ACCEL_LIMIT]; otherwise Config is unchanged.
    Nothing else of Config changes, nor telemetry or the model. *)
Theorem config_accel_effect command (c : controller) :
  handler_of command = Some m_config_accel ->
  let c' := snd (run_command constants command c) in
  let accepted :=
    ControllerState_eqb (state_of c) ENABLED
    && (enabled_substate_of c =? EnabledSubstate.STATIONARY)
    && PyFloat.lt (PyFloat.of_Z 0) (param1 command)
    && PyFloat.le (param1 command) (MAX_ACCEL_LIMIT constants) in
  config c'
  = (if accepted then with_strut_acceleration (param1 command) (config c)
     else config c)
  /\ telemetry c' = telemetry c
  /\ hexapod c' = hexapod c.
Proof.
  intros Hm. cbv zeta.
  destruct (run_command_handled command c m_config_accel Hm) as [code E].
  cbv zeta in E. rewrite E. clear E.
  destruct c as [er l1 l2 l3 l4 l5 l6 cfg h0 tel sp lg].
  destruct tel as [st off en cp cl mp sw lf cf ap ip ts sr sm].
  open_monad. open_state.
  destruct (ControllerState_eqb st ENABLED);
    destruct (en =? EnabledSubstate.STATIONARY);
    destruct (PyFloat.lt (PyFloat.of_Z 0) (param1 command));
    destruct (PyFloat.le (param1 command) (MAX_ACCEL_LIMIT constants));
    repeat split; reflexivity.
Qed.

(** X12. SET_PIVOTPOINT stores its first three parameters as the pivot
    exactly when the controller is enabled and stationary; the values are
    not validated, and nothing else changes but the log and the staged
    target. *)
Theorem set_pivotpoint_effect command (c : controller) :
  handler_of command = Some m_set_pivotpoint ->
  let c' := snd (run_command constants command c) in
  let accepted :=
    ControllerState_eqb (state_of c) ENABLED
    && (enabled_substate_of c =? EnabledSubstate.STATIONARY) in
  config c'
  = (if accepted
     then with_pivot
            (T3 (param1 command) (param2 command) (param3 command))
            (config c)
     else config c)
  /\ telemetry c' = telemetry c
  /\ hexapod c' = hexapod c.
Proof.
  intros Hm. cbv zeta.
  destruct (run_command_handled command c m_set_pivotpoint Hm) as [code E].
  cbv zeta in E. rewrite E. clear E.
  destruct c as [er l1 l2 l3 l4 l5 l6 cfg h0 tel sp lg].
  destruct tel as [st off en cp cl mp sw lf cf ap ip ts sr sm].
  open_monad. open_state.
  destruct (ControllerState_eqb st ENABLED);
    destruct (en =? EnabledSubstate.STATIONARY);
    repeat split; reflexivity.
Qed.

(** X13. CONFIG_LIMITS and CONFIG_VEL are all or nothing: after either,
    Config is exactly as before, or (only for a controller that was
    enabled and stationary) has all the parameters of the command as its
    position limits, respectively velocity limits, and is otherwise as
    before.  A command one of whose parameters is refused applies none. *)
Theorem config_limits_all_or_nothing command (c : controller) m :
  handler_of command = Some m ->
  m = m_config_limits \/ m = m_config_vel ->
  let c' := snd (run_command constants command c) in
  (config c' = config c
   \/ (state_of c = ENABLED
       /\ enabled_substate_of c = EnabledSubstate.STATIONARY
       /\ config c'
          = (if method_eqb m m_config_limits
             then with_pos_limits
                    (T6 (param1 command) (param2 command) (param3 command)
                        (param4 command) (param5 command) (param6 command))
                    (config c)
             else with_vel_limits
                    (T4 (param1 command) (param2 command) (param3 command)
                        (param4 command))
                    (config c))))
  /\ telemetry c' = telemetry c
  /\ hexapod c' = hexapod c.
Proof.
  intros Hm Hcase. cbv zeta.
  destruct (run_command_handled command c m Hm) as [code E].
  cbv zeta in E. rewrite E. clear E.
  destruct c as [er l1 l2 l3 l4 l5 l6 cfg h0 tel sp lg].
  destruct tel as [st off en cp cl mp sw lf cf ap ip ts sr sm].
  destruct Hcase as [-> | ->]; open_monad; open_state.
  all: destruct (ControllerState_eqb st ENABLED) eqn:Est;
    [|repeat split; left; reflexivity].
  all: destruct (en =? EnabledSubstate.STATIONARY) eqn:Een;
    [|repeat split; left; reflexivity].
  all: apply ControllerState_eqb_eq in Est; apply Z.eqb_eq in Een.
  all: cbn [negb method_eqb]; case_ifs; repeat split; auto.
Qed.

Lemma call_keeps_out_of_fault m command (c : controller) :
  state_of (snd (call constants m command c)) = FAULT -> state_of c = FAULT.
Proof.
  destruct c as [er l1 l2 l3 l4 l5 l6 cfg h tel sp lg].
  destruct tel as [st off en cp cl mp sw lf cf ap ip ts sr sm].
  destruct m; open_monad; open_state; case_ifs;
    first [discriminate | intros E; exact E].
Qed.

(** X14. Nothing the controller does enters FAULT: after a command, a
    telemetry tick or [close] the state is FAULT only if it was FAULT
    before (the constructor's [initial_state] is the only way in). *)
Theorem fault_is_never_entered command (c : controller) :
  (state_of (snd (run_command constants command c)) = FAULT ->
   state_of c = FAULT)
  /\ (state_of (snd (update_telemetry constants c)) = FAULT ->
      state_of c = FAULT)
  /\ (state_of (snd (close c)) = FAULT -> state_of c = FAULT).
Proof.
  split; [|split].
  - rewrite run_command_eq.
    destruct (CommandCode.of_value (cmd command)); [|exact (fun E => E)].
    cbv zeta. destruct (get_command_key command); [|exact (fun E => E)].
    destruct (table_get _ command_table) as [m|]; [|exact (fun E => E)].
    match goal with
    | |- context [call constants m command ?c1] =>
        assert (E := call_keeps_out_of_fault m command c1);
        set (rc := call constants m command c1) in *
    end.
    simpl snd.
    destruct (fst rc); destruct (method_eqb m m_position_set); exact E.
  - destruct c as [er l1 l2 l3 l4 l5 l6 cfg h tel sp lg].
    destruct tel as [st off en cp cl mp sw lf cf ap ip ts sr sm].
    unfold update_telemetry. open_monad. open_state.
    case_ifs; exact (fun E => E).
  - exact (fun E => E).
Qed.

(** X15. A telemetry tick never raises, writes only telemetry (Config,
    staged target, kinematics model, commanded pose and log are as
    before), reports the commanded pose as the measured pose, and is
    idempotent as long as the struts read the same: a second tick on the
    same readings of the kinematics model changes nothing. *)
Theorem update_telemetry_idempotent (c : controller) :
  let c' := snd (update_telemetry constants c) in
  fst (update_telemetry constants c) = Ok tt
  /\ with_telemetry (telemetry c) c' = c
  /\ commanded_pos (telemetry c') = commanded_pos (telemetry c)
  /\ measured_pos (telemetry c') = commanded_pos (telemetry c)
  /\ snd (update_telemetry constants c') = c'.
Proof.
  destruct c as [er l1 l2 l3 l4 l5 l6 cfg h tel sp lg].
  destruct tel as [st off en cp cl mp sw lf cf ap ip ts sr sm].
  cbv zeta. unfold update_telemetry. open_monad. open_state.
  destruct st;
    destruct (en =? EnabledSubstate.MOVING_POINT_TO_POINT) eqn:Een;
    destruct (forallb (fun b : bool => b)
                (map (fun a : Actuator => negb (moving a)) (actuators h)))
      eqn:Eall;
    cbn [andb ControllerState_eqb]; open_state;
    rewrite ?Een, ?Eall; cbn [andb ControllerState_eqb]; open_state;
    repeat split; reflexivity.
Qed.

(** X16. A POSITION_SET command changes nothing but the log and the
    staged target, and it changes the staged target only in a controller
    that is enabled and stationary, to exactly its six parameters. *)
Theorem position_set_outcome command (c : controller) :
  cmd command = CommandCode.POSITION_SET ->
  let c' := snd (run_command constants command c) in
  with_set_position (set_position c) (with_log (log c) c') = c
  /\ (set_position c' = set_position c
      \/ (state_of c = ENABLED
          /\ enabled_substate_of c = EnabledSubstate.STATIONARY
          /\ set_position c'
             = T6 (param1 command) (param2 command) (param3 command)
                  (param4 command) (param5 command) (param6 command))).
Proof.
  intros Hcmd. cbv zeta.
  assert (Hm : handler_of command = Some m_position_set)
    by now apply handler_of_position_set.
  destruct (run_command_handled command c m_position_set Hm) as [code E].
  cbv zeta in E. rewrite E. clear E. simpl call.
  match goal with
  | |- context [do_position_set command ?c1] =>
      destruct (position_set_effect command c1) as [[e Er]|[Er [Hs He]]];
      rewrite Er
  end.
  - destruct c as [er l1 l2 l3 l4 l5 l6 cfg h tel sp lg].
    split; [reflexivity|left; reflexivity].
  - destruct c as [er l1 l2 l3 l4 l5 l6 cfg h tel sp lg].
    split; [reflexivity|]. right. split; [exact Hs|]. split; [exact He|].
    reflexivity.
Qed.

Lemma call_substates m command (c : controller) :
  (PyFloat.isfinite (t0 (set_position c)) = true -> state_of c = ENABLED) ->
  (offline_substate_of c
   = match state_of c with OFFLINE => OfflineSubstate.AVAILABLE | _ => 0 end
   /\ (enabled_substate_of c = EnabledSubstate.STATIONARY
       \/ (state_of c = ENABLED
           /\ enabled_substate_of c
              = EnabledSubstate.MOVING_POINT_TO_POINT))) ->
  let c' := snd (call constants m command c) in
  offline_substate_of c'
  = match state_of c' with OFFLINE => OfflineSubstate.AVAILABLE | _ => 0 end
  /\ (enabled_substate_of c' = EnabledSubstate.STATIONARY
      \/ (state_of c' = ENABLED
          /\ enabled_substate_of c'
             = EnabledSubstate.MOVING_POINT_TO_POINT)).
Proof.
  destruct c as [er l1 l2 l3 l4 l5 l6 cfg h tel sp lg].
  destruct tel as [st off en cp cl mp sw lf cf ap ip ts sr sm].
  cbv zeta. open_state. intros Hsp Hinv.
  destruct m; open_monad; open_state; case_ifs; try exact Hinv;
    try (split; [reflexivity | left; reflexivity]).
  all: try (destruct Hinv as [Ho He]; split; [exact Ho | left; reflexivity]).
  all: destruct Hinv as [Ho He]; split; [exact Ho|]; right;
    split; [|reflexivity]; apply Hsp;
    match goal with
    | Hf : negb _ = false |- _ => apply negb_false_iff in Hf; exact Hf
    end.
Qed.

(** X17. In every controller a run can reach: the offline substate is
    AVAILABLE in OFFLINE and zero in every other state (PUBLISH_ONLY is
    never the substate of an offline controller); the enabled substate is
    STATIONARY, or MOVING_POINT_TO_POINT in ENABLED; and a target is
    staged only in ENABLED and STATIONARY. *)
Theorem reachable_substates (c : controller) :
  reachable constants c ->
  offline_substate_of c
  = match state_of c with OFFLINE => OfflineSubstate.AVAILABLE | _ => 0 end
  /\ (enabled_substate_of c = EnabledSubstate.STATIONARY
      \/ (state_of c = ENABLED
          /\ enabled_substate_of c = EnabledSubstate.MOVING_POINT_TO_POINT))
  /\ (PyFloat.isfinite (t0 (set_position c)) = true ->
      state_of c = ENABLED
      /\ enabled_substate_of c = EnabledSubstate.STATIONARY).
Proof.
  intros Hr.
  assert (Hc := reachable_consistent constants c Hr).
  destruct Hc as [_ Hc].
  cut (offline_substate_of c
       = match state_of c with
         | OFFLINE => OfflineSubstate.AVAILABLE
         | _ => 0
         end
       /\ (enabled_substate_of c = EnabledSubstate.STATIONARY
           \/ (state_of c = ENABLED
               /\ enabled_substate_of c
                  = EnabledSubstate.MOVING_POINT_TO_POINT))).
  { intros [Ho He]. split; [exact Ho|]. split; [exact He|exact Hc]. }
  clear Hc.
  induction Hr as [index st|c command Hr IH|c Hr IH|c Hr IH|c h Hr IH].
  - destruct st; split; try reflexivity; left; reflexivity.
  - assert (Hc := reachable_consistent constants c Hr).
    destruct Hc as [_ Hc].
    rewrite run_command_eq.
    destruct (CommandCode.of_value (cmd command)); [|exact IH].
    cbv zeta. destruct (get_command_key command); [|exact IH].
    destruct (table_get _ command_table) as [m|]; [|exact IH].
    match goal with
    | |- context [call constants m command ?c1] =>
        assert (E := call_substates m command c1
                       (fun Hf => proj1 (Hc Hf)) IH);
        set (rc := call constants m command c1) in *
    end.
    cbv zeta in E. simpl snd.
    destruct (fst rc); destruct (method_eqb m m_position_set); exact E.
  - revert IH.
    destruct c as [er l1 l2 l3 l4 l5 l6 cfg h tel sp lg].
    destruct tel as [st off en cp cl mp sw lf cf ap ip ts sr sm].
    unfold update_telemetry. open_monad. open_state. intros [Ho He].
    case_ifs; open_state; split; try exact Ho; try exact He.
    left. reflexivity.
  - exact IH.
  - exact IH.
Qed.

End ControllerFrames.

(** *** The further properties on examples *)

Lemma unrecognized_command_only_logs_witness :
  let track := Sample.command CommandCode.SET_ENABLED_SUBSTATE
                 SetEnabledSubstateParam.TRACK 0 0 0 0 0 in
  handler_of track = None
  /\ with_log (log Sample.staged)
       (snd (run_command Sample.constants track Sample.staged))
     = Sample.staged.
Proof.
  cbv zeta. split; [reflexivity|].
  exact (proj1 (unrecognized_command_only_logs Sample.constants
                  (Sample.command CommandCode.SET_ENABLED_SUBSTATE
                     SetEnabledSubstateParam.TRACK 0 0 0 0 0)
                  Sample.staged eq_refl)).
Defined.

Lemma declared_transition_effect_witness :
  let enable := set_state_command SetStateParam.ENABLE in
  let c := MockMTHexapodController.init Sample.constants M2_HEXAPOD DISABLED in
  handler_of enable = Some m_enable
  /\ set_state_target m_enable = Some ENABLED
  /\ legal enable c = true
  /\ states_of (snd (run_command Sample.constants enable c))
     = (ENABLED, 0, EnabledSubstate.STATIONARY).
Proof.
  cbv zeta. split; [reflexivity|]. split; [reflexivity|].
  split; [reflexivity|].
  exact (proj1 (proj2
           (declared_transition_effect Sample.constants
              (set_state_command SetStateParam.ENABLE)
              (MockMTHexapodController.init Sample.constants M2_HEXAPOD DISABLED)
              m_enable ENABLED eq_refl eq_refl eq_refl))).
Defined.

Lemma state_cycle_round_trip_witness :
  let c := MockMTHexapodController.init Sample.constants CAM_HEXAPOD OFFLINE in
  state_of c = OFFLINE
  /\ offline_substate_of c = OfflineSubstate.AVAILABLE
  /\ states_of
       (run_commands Sample.constants
          [set_state_command SetStateParam.ENTER_CONTROL;
           set_state_command SetStateParam.START;
           set_state_command SetStateParam.ENABLE;
           set_state_command SetStateParam.DISABLE;
           set_state_command SetStateParam.STANDBY;
           set_state_command SetStateParam.EXIT] c)
     = (OFFLINE, OfflineSubstate.AVAILABLE, 0).
Proof.
  cbv zeta. split; [reflexivity|]. split; [reflexivity|].
  exact (proj2 (proj2 (proj2
           (state_cycle_round_trip Sample.constants
              (MockMTHexapodController.init Sample.constants CAM_HEXAPOD OFFLINE)
              eq_refl eq_refl)))).
Defined.

Lemma clear_error_twice_witness :
  let clear := set_state_command SetStateParam.CLEAR_ERROR in
  let c := MockMTHexapodController.init Sample.constants CAM_HEXAPOD FAULT in
  state_of c = FAULT
  /\ states_of
       (snd (run_command Sample.constants clear
               (snd (run_command Sample.constants clear c))))
     = (OFFLINE, OfflineSubstate.AVAILABLE, 0).
Proof.
  cbv zeta. split; [reflexivity|].
  exact (proj2 (proj2 (proj2
           (clear_error_twice Sample.constants
              (MockMTHexapodController.init Sample.constants CAM_HEXAPOD FAULT) eq_refl)))).
Defined.

Lemma stop_forces_stationary_witness :
  let move := Sample.command CommandCode.SET_ENABLED_SUBSTATE
                SetEnabledSubstateParam.MOVE_POINT_TO_POINT 0 0 0 0 0 in
  let stop_cmd := Sample.command CommandCode.SET_ENABLED_SUBSTATE
                    SetEnabledSubstateParam.STOP 0 0 0 0 0 in
  let c := Sample.run [move] Sample.staged in
  handler_of stop_cmd = Some m_stop
  /\ state_of c = ENABLED
  /\ enabled_substate_of c = EnabledSubstate.MOVING_POINT_TO_POINT
  /\ states_of (snd (run_command Sample.constants stop_cmd c))
     = (ENABLED, offline_substate_of c, EnabledSubstate.STATIONARY).
Proof.
  cbv zeta. split; [reflexivity|]. split; [reflexivity|].
  split; [reflexivity|].
  exact (proj1 (proj2
           (stop_forces_stationary Sample.constants
              (Sample.command CommandCode.SET_ENABLED_SUBSTATE
                 SetEnabledSubstateParam.STOP 0 0 0 0 0)
              (Sample.run
                 [Sample.command CommandCode.SET_ENABLED_SUBSTATE
                    SetEnabledSubstateParam.MOVE_POINT_TO_POINT 0 0 0 0 0]
                 Sample.staged)
              eq_refl eq_refl))).
Defined.

Lemma move_effect_witness :
  let move_cmd := Sample.command CommandCode.SET_ENABLED_SUBSTATE
                    SetEnabledSubstateParam.MOVE_LUT 0 0 0 0 0 in
  let p := set_position Sample.staged in
  let h := snd (move (T3 (t0 p) (t1 p) (t2 p)) (T3 (t3 p) (t4 p) (t5 p))
                  (hexapod Sample.staged)) in
  handler_of move_cmd = Some m_move_point_to_point
  /\ PyFloat.isfinite (t0 p) = true
  /\ move (T3 (t0 p) (t1 p) (t2 p)) (T3 (t3 p) (t4 p) (t5 p))
       (hexapod Sample.staged) = (Ok tt, h)
  /\ commanded_pos
       (telemetry (snd (run_command Sample.constants move_cmd Sample.staged)))
     = p.
Proof.
  cbv zeta. split; [reflexivity|]. split; [reflexivity|].
  split; [reflexivity|].
  exact (proj1
           (move_effect Sample.constants
              (Sample.command CommandCode.SET_ENABLED_SUBSTATE
                 SetEnabledSubstateParam.MOVE_LUT 0 0 0 0 0)
              Sample.staged _ eq_refl eq_refl eq_refl)).
Defined.

Lemma move_without_target_is_rejected_witness :
  let move_cmd := Sample.command CommandCode.SET_ENABLED_SUBSTATE
                    SetEnabledSubstateParam.MOVE_POINT_TO_POINT 0 0 0 0 0 in
  let c := MockMTHexapodController.init Sample.constants CAM_HEXAPOD ENABLED in
  handler_of move_cmd = Some m_move_point_to_point
  /\ PyFloat.isfinite (t0 (set_position c)) = false
  /\ telemetry (snd (run_command Sample.constants move_cmd c)) = telemetry c.
Proof.
  cbv zeta. split; [reflexivity|]. split; [reflexivity|].
  exact (proj1
           (move_without_target_is_rejected Sample.constants
              (Sample.command CommandCode.SET_ENABLED_SUBSTATE
                 SetEnabledSubstateParam.MOVE_POINT_TO_POINT 0 0 0 0 0)
              (MockMTHexapodController.init Sample.constants CAM_HEXAPOD ENABLED)
              eq_refl eq_refl)).
Defined.

Lemma move_needs_fresh_target_witness :
  let move_cmd := Sample.command CommandCode.SET_ENABLED_SUBSTATE
                    SetEnabledSubstateParam.MOVE_POINT_TO_POINT 0 0 0 0 0 in
  let c1 := snd (run_command Sample.constants move_cmd Sample.staged) in
  let c2 := snd (run_command Sample.constants move_cmd c1) in
  handler_of move_cmd = Some m_move_point_to_point
  /\ m_move_point_to_point <> m_position_set
  /\ with_log (log c1) c2 = c1.
Proof.
  cbv zeta. split; [reflexivity|].
  assert (Hne : m_move_point_to_point <> m_position_set) by discriminate.
  split; [exact Hne|].
  exact (proj1
           (move_needs_fresh_target Sample.constants
              (Sample.command CommandCode.SET_ENABLED_SUBSTATE
                 SetEnabledSubstateParam.MOVE_POINT_TO_POINT 0 0 0 0 0)
              m_move_point_to_point
              (Sample.command CommandCode.SET_ENABLED_SUBSTATE
                 SetEnabledSubstateParam.MOVE_POINT_TO_POINT 0 0 0 0 0)
              Sample.staged eq_refl Hne eq_refl)).
Defined.

Lemma config_accel_effect_witness :
  let accel := Sample.command CommandCode.CONFIG_ACCEL 250 0 0 0 0 0 in
  handler_of accel = Some m_config_accel
  /\ strut_acceleration
       (config (snd (run_command Sample.constants accel Sample.staged)))
     = PyFloat.of_Z 250.
Proof.
  cbv zeta. split; [reflexivity|].
  rewrite (proj1
             (config_accel_effect Sample.constants
                (Sample.command CommandCode.CONFIG_ACCEL 250 0 0 0 0 0)
                Sample.staged eq_refl)).
  reflexivity.
Defined.

Lemma set_pivotpoint_effect_witness :
  let pivot_cmd := Sample.command CommandCode.SET_PIVOTPOINT 1 2 3 0 0 0 in
  handler_of pivot_cmd = Some m_set_pivotpoint
  /\ pivot (config (snd (run_command Sample.constants pivot_cmd Sample.staged)))
     = T3 (PyFloat.of_Z 1) (PyFloat.of_Z 2) (PyFloat.of_Z 3).
Proof.
  cbv zeta. split; [reflexivity|].
  rewrite (proj1
             (set_pivotpoint_effect Sample.constants
                (Sample.command CommandCode.SET_PIVOTPOINT 1 2 3 0 0 0)
                Sample.staged eq_refl)).
  reflexivity.
Defined.

Lemma config_limits_all_or_nothing_witness :
  let vel := Sample.command CommandCode.CONFIG_VEL 100 1 5000 1 0 0 in
  handler_of vel = Some m_config_vel
  /\ (m_config_vel = m_config_limits \/ m_config_vel = m_config_vel)
  /\ telemetry (snd (run_command Sample.constants vel Sample.staged))
     = telemetry Sample.staged
  /\ config (snd (run_command Sample.constants vel Sample.staged))
     = config Sample.staged.
Proof.
  cbv zeta. split; [reflexivity|].
  assert (Hc : m_config_vel = m_config_limits \/ m_config_vel = m_config_vel)
    by (right; reflexivity).
  split; [exact Hc|].
  split; [|reflexivity].
  exact (proj1 (proj2
           (config_limits_all_or_nothing Sample.constants
              (Sample.command CommandCode.CONFIG_VEL 100 1 5000 1 0 0)
              Sample.staged m_config_vel eq_refl Hc))).
Defined.

Lemma position_set_outcome_witness :
  cmd Sample.position_set = CommandCode.POSITION_SET
  /\ with_set_position
       (set_position (MockMTHexapodController.init Sample.constants CAM_HEXAPOD ENABLED))
       (with_log (log (MockMTHexapodController.init Sample.constants CAM_HEXAPOD ENABLED))
          Sample.staged)
     = MockMTHexapodController.init Sample.constants CAM_HEXAPOD ENABLED.
Proof.
  split; [reflexivity|].
  exact (proj1
           (position_set_outcome Sample.constants Sample.position_set
              (MockMTHexapodController.init Sample.constants CAM_HEXAPOD ENABLED) eq_refl)).
Defined.

Lemma reachable_substates_witness :
  reachable Sample.constants Sample.staged
  /\ offline_substate_of Sample.staged = 0
  /\ (PyFloat.isfinite (t0 (set_position Sample.staged)) = true ->
      state_of Sample.staged = ENABLED
      /\ enabled_substate_of Sample.staged = EnabledSubstate.STATIONARY).
Proof.
  split; [exact reachable_staged|].
  destruct (reachable_substates Sample.constants Sample.staged
              reachable_staged) as (Ho & _ & Hs).
  split; [exact Ho | exact Hs].
Defined.

(** * Further properties of the lookup table *)

Section LookupTableFrames.

Import LookupTable.

Lemma read_lines_app tbl pre post :
  read_lines tbl (pre ++ post)
  = (tbl' <- read_lines tbl pre ;; read_lines tbl' post).
Proof.
  revert tbl. induction pre as [|line pre IH]; intros tbl; simpl.
  - reflexivity.
  - destruct (read_line tbl line) as [tbl1|e]; simpl; [apply IH|reflexivity].
Qed.

Lemma read_line_skipped tbl line :
  is_skipped line = true -> read_line tbl line = Ok tbl.
Proof.
  unfold is_skipped, read_line.
  destruct (PyStr.strip line) as [|c rest]; [reflexivity|].
  intros ->. reflexivity.
Qed.

Lemma read_lines_skip tbl lines :
  read_lines tbl (filter (fun line => negb (is_skipped line)) lines)
  = read_lines tbl lines.
Proof.
  revert tbl. induction lines as [|line lines IH]; intros tbl; simpl.
  - reflexivity.
  - destruct (is_skipped line) eqn:E; simpl.
    + rewrite (read_line_skipped tbl line E). simpl. apply IH.
    + destruct (read_line tbl line); simpl; [apply IH|reflexivity].
Qed.

(** X18. Blank lines and comment lines (a "#" first, once the line is
    stripped) play no part in loading, wherever they stand: a file loads
    to the same table, or fails with the same error, as the file without
    them. *)
Theorem init_skips_comments lines :
  LookupTable.init (filter (fun line => negb (is_skipped line)) lines)
  = LookupTable.init lines.
Proof.
  unfold LookupTable.init. now rewrite read_lines_skip.
Qed.

(** X19. A line that is neither blank nor a comment and does not have
    exactly seven white-space separated entries makes loading fail with a
    RuntimeError, whatever follows it, once the lines before it have been
    read. *)
Theorem init_bad_field_count pre line post tbl :
  read_lines (Table None [] []) pre = Ok tbl ->
  is_skipped line = false ->
  length (PyStr.split (PyStr.strip line)) <> 7%nat ->
  LookupTable.init (pre ++ line :: post)
  = Raise (RuntimeError "Line has other than 7 entries").
Proof.
  intros Hpre Hskip Hlen. unfold LookupTable.init.
  rewrite read_lines_app, Hpre. simpl.
  unfold is_skipped in Hskip. unfold read_line.
  destruct (PyStr.strip line) as [|c rest]; [discriminate|].
  rewrite Hskip.
  destruct (length (PyStr.split (String c rest)) =? 7)%nat eqn:E.
  - apply Nat.eqb_eq in E. contradiction.
  - reflexivity.
Qed.

(** X20. The first line that is neither blank nor a comment is the
    header: when its first entry, lower-cased, is not elevation, azimuth or
    temperature, or its six other entries, lower-cased, are not x y z u v
    w in this order, loading fails with a RuntimeError. *)
Theorem init_bad_header pre line post :
  forallb is_skipped pre = true ->
  is_skipped line = false ->
  length (PyStr.split (PyStr.strip line)) = 7%nat ->
  ~ In (PyStr.lower (hd EmptyString (PyStr.split (PyStr.strip line))))
       input_names
  \/ map PyStr.lower (tl (PyStr.split (PyStr.strip line))) <> corr_names ->
  exists msg, LookupTable.init (pre ++ line :: post) = Raise (RuntimeError msg).
Proof.
  intros Hpre Hskip Hlen Hbad. unfold LookupTable.init.
  assert (Hr : read_lines (Table None [] []) pre = Ok (Table None [] [])).
  { clear - Hpre. induction pre as [|l pre IH]; [reflexivity|].
    simpl in Hpre. apply andb_true_iff in Hpre as [Hl Hp].
    simpl. rewrite (read_line_skipped _ l Hl). simpl. exact (IH Hp). }
  rewrite read_lines_app, Hr. simpl.
  unfold is_skipped in Hskip. unfold read_line.
  destruct (PyStr.strip line) as [|c rest]; [discriminate|].
  rewrite Hskip, Hlen. change (negb (7 =? 7)%nat) with false.
  cbv iota. cbn [input_name].
  match goal with
  | |- context [existsb ?f input_names] =>
      destruct (existsb f input_names) eqn:Ex
  end; cbn [negb].
  - match goal with
    | |- context [string_list_eqb ?l corr_names] =>
        destruct (string_list_eqb l corr_names) eqn:Ec
    end; cbn [negb].
    + exfalso. destruct Hbad as [Hn|Hc].
      * apply Hn. apply existsb_exists in Ex as [x [Hin Hx]].
        apply String.eqb_eq in Hx. now subst x.
      * apply Hc. unfold string_list_eqb in Ec.
        destruct (list_eq_dec string_dec _ corr_names); [assumption|].
        discriminate.
    + eexists. reflexivity.
  - eexists. reflexivity.
Qed.

(** X21. A data line with seven entries one of which [float] cannot read
    makes loading fail with the ValueError of [float] (not with a
    RuntimeError), once the lines before it, a header among them, have
    been read. *)
Theorem init_bad_number pre line post tbl name e :
  read_lines (Table None [] []) pre = Ok tbl ->
  input_name tbl = Some name ->
  is_skipped line = false ->
  length (PyStr.split (PyStr.strip line)) = 7%nat ->
  rmap PyStr.float (PyStr.split (PyStr.strip line)) = Raise e ->
  LookupTable.init (pre ++ line :: post) = Raise e
  /\ exists entry, In entry (PyStr.split (PyStr.strip line))
                   /\ e = PyStr.bad_float entry.
Proof.
  intros Hpre Hname Hskip Hlen Hfloat. split.
  - unfold LookupTable.init. rewrite read_lines_app, Hpre. simpl.
    unfold is_skipped in Hskip. unfold read_line.
    destruct (PyStr.strip line) as [|c rest]; [discriminate|].
    rewrite Hskip, Hlen, Hname, Hfloat. reflexivity.
  - clear - Hfloat.
    induction (PyStr.split (PyStr.strip line)) as [|entry rest IH];
      [discriminate|].
    simpl in Hfloat.
    destruct (PyStr.float entry) as [q|e'] eqn:Ef; simpl in Hfloat.
    + destruct (rmap PyStr.float rest) as [qs|e'']; simpl in Hfloat;
        [discriminate|].
      destruct (IH Hfloat) as [x [Hin Hx]]. exists x. split; [now right|exact Hx].
    + injection Hfloat as <-. exists entry. split; [now left|].
      unfold PyStr.float in Ef.
      destruct (PyStr.parse_float entry); [discriminate|]. now injection Ef.
Qed.

Lemma read_line_names tbl line tbl' :
  read_line tbl line = Ok tbl' ->
  (input_name tbl = None -> input_data tbl = []) ->
  (forall name, input_name tbl = Some name -> In name input_names) ->
  (input_name tbl' = None -> input_data tbl' = [])
  /\ (forall name, input_name tbl' = Some name -> In name input_names).
Proof.
  unfold read_line.
  destruct (PyStr.strip line) as [|c rest]; [intros [= <-]; auto|].
  destruct (Ascii.eqb c "#"); [intros [= <-]; auto|].
  destruct (negb _); [discriminate|].
  destruct (input_name tbl) as [name|] eqn:En.
  - destruct (rmap PyStr.float _) as [data|]; [|discriminate]. cbn [rbind].
    destruct data as [|i [|x [|y [|z [|u [|v [|w [|]]]]]]]]; try discriminate.
    intros [= <-] Hd Hn. cbn [input_name input_data].
    split; [discriminate|exact Hn].
  - cbv zeta.
    destruct (negb (existsb _ input_names)) eqn:Ex; [discriminate|].
    destruct (negb (string_list_eqb _ _)); [discriminate|].
    intros Hr Hd Hn. injection Hr as <-. cbn [input_name input_data].
    split; [discriminate|]. intros name [= <-].
    apply negb_false_iff in Ex. apply existsb_exists in Ex as [x [Hin Hx]].
    apply String.eqb_eq in Hx. now subst x.
Qed.

Lemma read_lines_names lines tbl tbl' :
  read_lines tbl lines = Ok tbl' ->
  (input_name tbl = None -> input_data tbl = []) ->
  (forall name, input_name tbl = Some name -> In name input_names) ->
  (input_name tbl' = None -> input_data tbl' = [])
  /\ (forall name, input_name tbl' = Some name -> In name input_names).
Proof.
  revert tbl. induction lines as [|line rest IH]; intros tbl; simpl.
  - intros [= <-]. auto.
  - destruct (read_line tbl line) as [tbl1|] eqn:E; [|discriminate].
    cbn [rbind]. intros Hr Hd Hn.
    destruct (read_line_names _ _ _ E Hd Hn) as [Hd1 Hn1].
    exact (IH tbl1 Hr Hd1 Hn1).
Qed.

(** X22. Every table that loads is well formed: it has one correction row
    per input value, its axis name, when it has one, is elevation, azimuth
    or temperature in lower case, a table without a header line has no
    rows, and its input values, when none of them is not-a-number, never
    decrease. *)
Theorem loaded_table_shape lines tbl :
  LookupTable.init lines = Ok tbl ->
  length (corr_data tbl) = length (input_data tbl)
  /\ (forall name, input_name tbl = Some name -> In name input_names)
  /\ (input_name tbl = None -> input_data tbl = [])
  /\ (Forall (fun x => is_nan x = false) (input_data tbl) ->
      Sorted fle (input_data tbl)).
Proof.
  intros Hinit. split; [exact (init_lengths _ _ Hinit)|].
  unfold LookupTable.init in Hinit.
  destruct (read_lines _ lines) as [tbl1|] eqn:E; [|discriminate].
  cbn [rbind] in Hinit.
  destruct (list_eq (objects (input_data tbl1))
              (sorted (objects (input_data tbl1)))) eqn:Es;
    simpl in Hinit; [|discriminate].
  injection Hinit as <-.
  destruct (read_lines_names _ _ _ E) as [Hd Hn].
  - reflexivity.
  - discriminate.
  - split; [exact Hn|]. split; [exact Hd|].
    intros Hnum. now apply sorted_check_iff.
Qed.

(** X24. On every table with at least two entries and a row per entry,
    in order or not, a query the range check lets through has one of two
    outcomes: the interpolated correction, or ZeroDivisionError, the
    latter exactly when the difference of the two neighbouring inputs the
    bisection ends on is zero.  The indices it computes are always inside
    the table.  Two inputs in strict order never divide by zero; two equal
    finite inputs do. *)
Theorem get_correction_outcomes (tbl : LookupTable.t)
    (value : PrimFloat.float) :
  (2 <= length (input_data tbl))%nat ->
  length (corr_data tbl) = length (input_data tbl) ->
  (value <? hd 0%float (input_data tbl))%float = false ->
  (last (input_data tbl) 0%float <? value)%float = false ->
  exists (i : nat) lo hi,
    nth_error (input_data tbl) i = Some lo
    /\ nth_error (input_data tbl) (S i) = Some hi
    /\ ((hi - lo =? 0)%float = true ->
        get_correction tbl value = Raise ZeroDivisionError)
    /\ ((hi - lo =? 0)%float = false ->
        exists corr, get_correction tbl value = Ok corr)
    /\ (flt lo hi -> (hi - lo =? 0)%float = false)
    /\ ((hi =? lo)%float = true -> is_finite hi = true ->
        (hi - lo =? 0)%float = true).
Proof.
  intros Hlen Hrows Hmin Hmax.
  destruct (get_correction_segment tbl value Hlen Hrows Hmin Hmax)
    as (i & lo & hi & row & next_row & Hlo & Hhi & Hrow & Hnext
        & _ & Heq).
  exists i, lo, hi. split; [exact Hlo|]. split; [exact Hhi|].
  rewrite Heq. unfold truediv. split; [|split; [|split]].
  - intros E. rewrite E. reflexivity.
  - intros E. rewrite E. eexists. reflexivity.
  - intros Hlt. exact (proj1 (sub_regular lo hi Hlt)).
  - intros E Hfin. exact (sub_zero hi lo E Hfin).
Qed.

(** X25. Once its lines have been read, a file whose input column has no
    value below the one before it loads, whatever the values are; and a
    file whose input column holds no not-a-number loads exactly when the
    column never decreases: equal neighbours are let through, a decrease
    anywhere is refused. *)
Theorem init_accepts_nondecreasing lines tbl :
  read_lines (Table None [] []) lines = Ok tbl ->
  (Sorted no_descent (input_data tbl) -> LookupTable.init lines = Ok tbl)
  /\ (Forall (fun x => is_nan x = false) (input_data tbl) ->
      (LookupTable.init lines = Ok tbl <-> Sorted fle (input_data tbl))
      /\ (~ Sorted fle (input_data tbl) ->
          LookupTable.init lines
          = Raise (RuntimeError "data not monotonically increasing"))).
Proof.
  intros Hread. unfold LookupTable.init. rewrite Hread. cbn [rbind].
  split.
  - intros Hs. now rewrite (sorted_check_no_descent _ Hs).
  - intros Hnum.
    assert (Hiff := sorted_check_iff (input_data tbl) Hnum).
    destruct (list_eq (objects (input_data tbl))
                (sorted (objects (input_data tbl)))) eqn:E; cbn [negb].
    + split; [split; [intros _; now apply Hiff|reflexivity]|].
      intros Hns. exfalso. apply Hns. now apply Hiff.
    + split; [split; [discriminate|]|reflexivity].
      intros Hs. apply Hiff in Hs. discriminate.
Qed.

End LookupTableFrames.

(** *** The further lookup-table properties on examples *)

Lemma init_bad_field_count_witness :
  let header := Table (Some "elevation"%string) [] [] in
  read_lines (Table None [] []) ["elevation x y z u v w"%string] = Ok header
  /\ is_skipped "1 2 3" = false
  /\ length (PyStr.split (PyStr.strip "1 2 3")) <> 7%nat
  /\ LookupTable.init
       (["elevation x y z u v w"%string]
          ++ "1 2 3"%string :: ["2 0 0 0 0 0 0"%string])%list
     = Raise (RuntimeError "Line has other than 7 entries").
Proof.
  cbv zeta.
  assert (Hlen : length (PyStr.split (PyStr.strip "1 2 3")) <> 7%nat)
    by (vm_compute; discriminate).
  split; [reflexivity|]. split; [reflexivity|]. split; [exact Hlen|].
  exact (init_bad_field_count ["elevation x y z u v w"%string] "1 2 3"
           ["2 0 0 0 0 0 0"%string] _ eq_refl eq_refl Hlen).
Defined.

Lemma init_bad_header_witness :
  let line := "pressure x y z u v w"%string in
  forallb is_skipped ["# pressure corrections"; "  "]%string = true
  /\ is_skipped line = false
  /\ length (PyStr.split (PyStr.strip line)) = 7%nat
  /\ ~ In (PyStr.lower (hd EmptyString (PyStr.split (PyStr.strip line))))
          input_names
  /\ exists msg,
      LookupTable.init
        (["# pressure corrections"%string; "  "%string]
           ++ line :: ["0 0 0 0 0 0 0"%string])%list
      = Raise (RuntimeError msg).
Proof.
  cbv zeta.
  assert (Hin : ~ In (PyStr.lower
                        (hd EmptyString
                           (PyStr.split
                              (PyStr.strip "pressure x y z u v w"))))
                     input_names).
  { vm_compute. intros [H|[H|[H|[]]]]; discriminate H. }
  split; [reflexivity|]. split; [reflexivity|]. split; [reflexivity|].
  split; [exact Hin|].
  exact (init_bad_header ["# pressure corrections"; "  "]%string
           "pressure x y z u v w" ["0 0 0 0 0 0 0"%string]
           eq_refl eq_refl eq_refl (or_introl Hin)).
Defined.

Lemma init_bad_number_witness :
  let header := Table (Some "azimuth"%string) [] [] in
  let line := "1 2 abc 4 5 6 7"%string in
  read_lines (Table None [] []) ["Azimuth X Y Z U V W"%string] = Ok header
  /\ input_name header = Some "azimuth"%string
  /\ is_skipped line = false
  /\ length (PyStr.split (PyStr.strip line)) = 7%nat
  /\ rmap PyStr.float (PyStr.split (PyStr.strip line))
     = Raise (PyStr.bad_float "abc")
  /\ LookupTable.init (["Azimuth X Y Z U V W"%string] ++ line :: [])%list
     = Raise (PyStr.bad_float "abc").
Proof.
  cbv zeta.
  split; [reflexivity|]. split; [reflexivity|]. split; [reflexivity|].
  split; [reflexivity|]. split; [reflexivity|].
  exact (proj1
           (init_bad_number ["Azimuth X Y Z U V W"%string] "1 2 abc 4 5 6 7"
              [] _ "azimuth" (PyStr.bad_float "abc")
              eq_refl eq_refl eq_refl eq_refl eq_refl)).
Defined.

Lemma elevation_numbers :
  Forall (fun x => is_nan x = false) (input_data Sample.elevation).
Proof. repeat constructor. Defined.

Lemma duplicate_numbers :
  Forall (fun x => is_nan x = false) (input_data Sample.duplicate).
Proof. repeat constructor. Defined.

Lemma loaded_table_shape_witness :
  LookupTable.init Sample.elevation_lines = Ok Sample.elevation
  /\ length (corr_data Sample.elevation) = length (input_data Sample.elevation)
  /\ Sorted fle (input_data Sample.elevation).
Proof.
  split; [reflexivity|].
  destruct (loaded_table_shape Sample.elevation_lines Sample.elevation
              eq_refl) as (Hl & _ & _ & Hs).
  split; [exact Hl | exact (Hs elevation_numbers)].
Defined.

Lemma get_correction_outcomes_witness :
  (2 <= length (input_data Sample.duplicate))%nat
  /\ length (corr_data Sample.duplicate) = length (input_data Sample.duplicate)
  /\ (1 <? hd 0%float (input_data Sample.duplicate))%float = false
  /\ (last (input_data Sample.duplicate) 0%float <? 1)%float = false
  /\ exists i lo hi,
      nth_error (input_data Sample.duplicate) i = Some lo
      /\ nth_error (input_data Sample.duplicate) (S i) = Some hi
      /\ ((hi - lo =? 0)%float = true ->
          get_correction Sample.duplicate 1 = Raise ZeroDivisionError).
Proof.
  assert (Hlen : (2 <= length (input_data Sample.duplicate))%nat)
    by (simpl; lia).
  split; [exact Hlen|]. split; [reflexivity|].
  split; [reflexivity|]. split; [reflexivity|].
  destruct (get_correction_outcomes Sample.duplicate 1%float
              Hlen eq_refl eq_refl eq_refl)
    as (i & lo & hi & H1 & H2 & H3 & _).
  exists i, lo, hi.
  split; [exact H1|]. split; [exact H2|exact H3].
Defined.

Lemma init_accepts_nondecreasing_witness :
  read_lines (Table None [] []) Sample.duplicate_lines = Ok Sample.duplicate
  /\ Forall (fun x => is_nan x = false) (input_data Sample.duplicate)
  /\ (LookupTable.init Sample.duplicate_lines = Ok Sample.duplicate
      <-> Sorted fle (input_data Sample.duplicate)).
Proof.
  split; [reflexivity|]. split; [exact duplicate_numbers|].
  exact (proj1 (proj2 (init_accepts_nondecreasing Sample.duplicate_lines
                         Sample.duplicate eq_refl) duplicate_numbers)).
Defined.

(** A not-a-number between 0 and -1: no value is below the one before it,
    and the file loads. *)
Example nan_between_loads :
  LookupTable.init Sample.nan_between_lines = Ok Sample.nan_between
  /\ Sorted no_descent (input_data Sample.nan_between)
  /\ ~ Sorted fle (input_data Sample.nan_between).
Proof.
  split; [reflexivity|]. split; [repeat constructor|].
  intros Hs. apply Sorted_inv in Hs as [_ Hhd].
  inversion Hhd as [|b l Hle]; subst. discriminate Hle.
Qed.

(** * The compensation of the CSC *)

Section CompensationProofs.

Import LookupTable.

Variable angle_wrap_nonnegative : PrimFloat.float -> PrimFloat.float.

(** In a column that never decreases the last value is not below the
    first; with more than one value the two are numbers in this order. *)
Lemma first_le_last (a : list PrimFloat.float) first rest :
  a = first :: rest -> Sorted fle a ->
  (last a 0%float <? first)%float = false
  /\ (fle first first -> fle first (last a 0%float)).
Proof.
  intros -> Hs.
  apply Sorted_StronglySorted in Hs; [|exact fle_trans].
  inversion Hs as [|x l Hl Hall]; subst.
  destruct rest as [|y rest]; [split; [apply flt_irrefl|auto]|].
  assert (Hle : fle first (last (first :: y :: rest) 0%float)).
  { rewrite Forall_forall in Hall. apply Hall.
    change (last (first :: y :: rest) 0%float)
      with (last (y :: rest) 0%float).
    destruct (@exists_last _ (y :: rest)) as [l' [b E]]; [discriminate|].
    rewrite E, last_last. apply in_or_app. right. now left. }
  split; [exact (fle_not_flt _ _ Hle)|intros _; exact Hle].
Qed.

Lemma min_max_truncated lo hi value :
  (hi <? lo)%float = false ->
  HexapodCsc.py_min (HexapodCsc.py_max value lo) hi = truncated lo hi value.
Proof.
  intros Hle. unfold HexapodCsc.py_min, HexapodCsc.py_max, truncated.
  destruct (value <? lo)%float; [|reflexivity].
  rewrite Hle. reflexivity.
Qed.

(** The truncated value passes the range check of [get_correction]. *)
Lemma truncated_passes lo hi value :
  (hi <? lo)%float = false ->
  (truncated lo hi value <? lo)%float = false
  /\ (hi <? truncated lo hi value)%float = false.
Proof.
  intros Hle. unfold truncated.
  destruct (value <? lo)%float eqn:E1.
  - split; [apply flt_irrefl|exact Hle].
  - destruct (hi <? value)%float eqn:E2.
    + split; [exact Hle|apply flt_irrefl].
    + split; assumption.
Qed.

(** Between two numbers in order, the truncation of a number lies in
    between. *)
Lemma truncated_in_range lo hi value :
  fle lo hi -> fle value value ->
  fle lo (truncated lo hi value) /\ fle (truncated lo hi value) hi.
Proof.
  intros Hle Hv. destruct (fle_numbers _ _ Hle) as [Hlo Hhi].
  unfold truncated.
  destruct (value <? lo)%float eqn:E1; [split; assumption|].
  destruct (hi <? value)%float eqn:E2; [split; assumption|].
  split; apply fle_total; assumption.
Qed.

(** A well-formed table answers every query its range check lets
    through. *)
Lemma get_correction_returns (tbl : LookupTable.t) value :
  well_formed tbl ->
  (value <? hd 0%float (input_data tbl))%float = false ->
  (last (input_data tbl) 0%float <? value)%float = false ->
  exists corr, get_correction tbl value = Ok corr.
Proof.
  intros (Hs & Hlen & Hrows) Hmin Hmax.
  assert (Hinc := Sorted_increasing_at _ Hs).
  destruct (get_correction_segment tbl value Hlen Hrows Hmin Hmax)
    as (i & lo & hi & row & next_row & Hlo & Hhi & _ & _ & _ & Heq).
  assert (Hi : (S i < length (input_data tbl))%nat)
    by (apply nth_error_Some; congruence).
  assert (Hlt : flt lo hi).
  { apply (nth_error_nth _ _ 0%float) in Hlo, Hhi. subst lo hi.
    apply Hinc. lia. }
  rewrite truediv_ok in Heq by exact (proj1 (sub_regular _ _ Hlt)).
  cbn [rbind] in Heq. eexists. exact Heq.
Qed.

Lemma Sorted_flt_fle a : Sorted flt a -> Sorted fle a.
Proof.
  induction 1 as [|x l Hl IH Hhd]; constructor; [exact IH|].
  destruct Hhd; constructor. now apply flt_fle.
Qed.

(** X26. [do_compensatedMove] truncates the temperature: once the
    elevation and azimuth look-ups have answered, and the temperature table
    has an entry and inputs that never decrease, the temperature look-up is
    made at the value [min(max(temperature, first), last)] leaves, which
    the range check of the table lets through; so the computation never
    fails with the out-of-range error, whatever the temperature,
    not-a-number included.  The value looked up is the temperature itself
    when it is inside the range or not-a-number, and it lies in the range
    when the temperature and the first input are numbers. *)
Theorem temperature_is_truncated (self : HexapodCsc.t)
    (data : HexapodCsc.CompensatedMoveData) first rest ec ac :
  input_data (HexapodCsc.temperature_lut self) = first :: rest ->
  Sorted fle (input_data (HexapodCsc.temperature_lut self)) ->
  get_correction (HexapodCsc.elevation_lut self) (HexapodCsc.elevation data)
  = Ok ec ->
  get_correction (HexapodCsc.azimuth_lut self)
    (angle_wrap_nonnegative (HexapodCsc.azimuth data)) = Ok ac ->
  let last := last (input_data (HexapodCsc.temperature_lut self)) 0%float in
  let used := truncated first last (HexapodCsc.temperature data) in
  ((used <? first)%float = false /\ (last <? used)%float = false)
  /\ (is_nan (HexapodCsc.temperature data) = false ->
      is_nan first = false -> fle first used /\ fle used last)
  /\ (fle first (HexapodCsc.temperature data) ->
      fle (HexapodCsc.temperature data) last ->
      used = HexapodCsc.temperature data)
  /\ (is_nan (HexapodCsc.temperature data) = true ->
      used = HexapodCsc.temperature data)
  /\ HexapodCsc.compensated_position angle_wrap_nonnegative self data
     = (tc <- get_correction (HexapodCsc.temperature_lut self) used ;;
        Ok (vadd (V6 (HexapodCsc.x data) (HexapodCsc.y data)
                     (HexapodCsc.z data) (HexapodCsc.u data)
                     (HexapodCsc.v data) (HexapodCsc.w data))
                 (vadd (vadd ec ac) tc)))
  /\ forall x lo hi,
      HexapodCsc.compensated_position angle_wrap_nonnegative self data
      <> Raise (ValueErrorRange x lo hi).
Proof.
  intros Ha Hs Hec Hac. cbv zeta.
  assert (Hne : input_data (HexapodCsc.temperature_lut self) <> [])
    by (rewrite Ha; discriminate).
  assert (Hfirst : py_index (input_data (HexapodCsc.temperature_lut self)) 0
                   = Ok first) by (rewrite Ha; reflexivity).
  destruct (first_le_last _ first rest Ha Hs) as [Hle Hnum].
  assert (Hin := truncated_passes first _ (HexapodCsc.temperature data) Hle).
  assert (Heq :
    HexapodCsc.compensated_position angle_wrap_nonnegative self data
    = (tc <- get_correction (HexapodCsc.temperature_lut self)
               (truncated first
                  (last (input_data (HexapodCsc.temperature_lut self))
                     0%float)
                  (HexapodCsc.temperature data)) ;;
       Ok (vadd (V6 (HexapodCsc.x data) (HexapodCsc.y data)
                    (HexapodCsc.z data) (HexapodCsc.u data)
                    (HexapodCsc.v data) (HexapodCsc.w data))
                (vadd (vadd ec ac) tc)))).
  { unfold HexapodCsc.compensated_position.
    rewrite Hec. cbn [rbind]. rewrite Hac. cbn [rbind].
    rewrite Hfirst. cbn [rbind]. rewrite (py_index_last _ 0%float Hne).
    cbn [rbind]. rewrite (min_max_truncated _ _ _ Hle). reflexivity. }
  split; [exact Hin|]. split; [|split; [|split; [|split]]].
  - intros Ht Hf. apply truncated_in_range.
    + apply Hnum. now apply fle_refl_iff.
    + now apply fle_refl_iff.
  - intros H1 H2. unfold truncated.
    rewrite (fle_not_flt _ _ H1), (fle_not_flt _ _ H2). reflexivity.
  - intros Hnan. unfold truncated.
    destruct (HexapodCsc.temperature data <? first)%float eqn:E1.
    + apply flt_numbers in E1 as [E1 _]. apply fle_refl_iff in E1.
      congruence.
    + destruct (last _ _ <? HexapodCsc.temperature data)%float eqn:E2;
        [|reflexivity].
      apply flt_numbers in E2 as [_ E2]. apply fle_refl_iff in E2.
      congruence.
  - exact Heq.
  - intros x lo hi. rewrite Heq.
    match goal with
    | |- context [get_correction ?tbl ?value] =>
        destruct (get_correction tbl value) as [tc|e] eqn:E
    end; cbn [rbind]; [discriminate|].
    intros Hr. assert (He : e = ValueErrorRange x lo hi) by congruence.
    subst e.
    exact (passed_range_check _ _ first rest Ha (proj1 Hin) (proj2 Hin)
             _ _ _ E).
Qed.

(** X27. With three well-formed tables (strictly increasing inputs, at
    least two, a row for each), an elevation inside the elevation table and
    a wrapped azimuth inside the azimuth table, the compensation of
    [do_compensatedMove] succeeds for every temperature, and the position
    it computes is the commanded one plus the three corrections. *)
Theorem compensation_returns (self : HexapodCsc.t)
    (data : HexapodCsc.CompensatedMoveData) :
  well_formed (HexapodCsc.elevation_lut self) ->
  well_formed (HexapodCsc.azimuth_lut self) ->
  well_formed (HexapodCsc.temperature_lut self) ->
  in_range (HexapodCsc.elevation_lut self) (HexapodCsc.elevation data) ->
  in_range (HexapodCsc.azimuth_lut self)
    (angle_wrap_nonnegative (HexapodCsc.azimuth data)) ->
  exists ec ac tc,
    get_correction (HexapodCsc.elevation_lut self) (HexapodCsc.elevation data)
    = Ok ec
    /\ get_correction (HexapodCsc.azimuth_lut self)
         (angle_wrap_nonnegative (HexapodCsc.azimuth data)) = Ok ac
    /\ get_correction (HexapodCsc.temperature_lut self)
         (truncated
            (hd 0%float (input_data (HexapodCsc.temperature_lut self)))
            (last (input_data (HexapodCsc.temperature_lut self)) 0%float)
            (HexapodCsc.temperature data)) = Ok tc
    /\ HexapodCsc.compensated_position angle_wrap_nonnegative self data
       = Ok (vadd (V6 (HexapodCsc.x data) (HexapodCsc.y data)
                      (HexapodCsc.z data) (HexapodCsc.u data)
                      (HexapodCsc.v data) (HexapodCsc.w data))
                  (vadd (vadd ec ac) tc)).
Proof.
  intros He Ha Ht [Hre1 Hre2] [Hra1 Hra2].
  destruct (get_correction_returns _ _ He (fle_not_flt _ _ Hre1)
              (fle_not_flt _ _ Hre2)) as [ec Hec].
  destruct (get_correction_returns _ _ Ha (fle_not_flt _ _ Hra1)
              (fle_not_flt _ _ Hra2)) as [ac Hac].
  assert (Hs : Sorted fle (input_data (HexapodCsc.temperature_lut self)))
    by (apply Sorted_flt_fle; exact (proj1 Ht)).
  destruct (input_data (HexapodCsc.temperature_lut self))
    as [|first rest] eqn:Hd.
  { destruct Ht as (_ & Hlen & _). rewrite Hd in Hlen. simpl in Hlen. lia. }
  rewrite <- Hd in Hs.
  destruct (first_le_last _ first rest Hd Hs) as [Hle _].
  destruct (truncated_passes first _ (HexapodCsc.temperature data) Hle)
    as [Hin1 Hin2].
  assert (Hhd : hd 0%float (input_data (HexapodCsc.temperature_lut self))
                = first) by (rewrite Hd; reflexivity).
  rewrite <- Hhd in Hin1 at 2.
  destruct (get_correction_returns _ _ Ht Hin1 Hin2) as [tc Htc].
  assert (Hne : input_data (HexapodCsc.temperature_lut self) <> [])
    by (rewrite Hd; discriminate).
  assert (Hfirst : py_index (input_data (HexapodCsc.temperature_lut self)) 0
                   = Ok first) by (rewrite Hd; reflexivity).
  rewrite <- Hd. exists ec, ac, tc.
  split; [exact Hec|]. split; [exact Hac|].
  rewrite Hhd. split; [exact Htc|].
  unfold HexapodCsc.compensated_position.
  rewrite Hec. cbn [rbind]. rewrite Hac. cbn [rbind].
  rewrite Hfirst. cbn [rbind]. rewrite (py_index_last _ 0%float Hne).
  cbn [rbind]. rewrite (min_max_truncated _ _ _ Hle), Htc. reflexivity.
Qed.

End CompensationProofs.

(** *** The compensation on an example *)

Lemma elevation_well_formed : well_formed Sample.elevation.
Proof.
  split; [exact elevation_sorted|]. split; [simpl; lia|reflexivity].
Defined.

Lemma elevation_nondecreasing :
  Sorted LookupTable.fle (LookupTable.input_data Sample.elevation).
Proof. repeat constructor. Defined.

Lemma temperature_is_truncated_witness :
  let self := HexapodCsc.Csc Sample.elevation Sample.elevation
                Sample.elevation in
  let data := HexapodCsc.MoveData 5 10 100 0 0 0 0 0 0 in
  LookupTable.input_data (HexapodCsc.temperature_lut self)
  = (0 :: [10; 20; 30; 40])%float
  /\ Sorted LookupTable.fle
       (LookupTable.input_data (HexapodCsc.temperature_lut self))
  /\ exists ec ac,
      LookupTable.get_correction Sample.elevation 5 = Ok ec
      /\ LookupTable.get_correction Sample.elevation 10 = Ok ac
      /\ HexapodCsc.compensated_position (fun a => a) self data
         = (tc <- LookupTable.get_correction Sample.elevation 40 ;;
            Ok (LookupTable.vadd (LookupTable.V6 0 0 0 0 0 0)
                  (LookupTable.vadd (LookupTable.vadd ec ac) tc))).
Proof.
  cbv zeta.
  split; [reflexivity|]. split; [exact elevation_nondecreasing|].
  eexists. eexists. split; [reflexivity|]. split; [reflexivity|].
  exact (proj1 (proj2 (proj2 (proj2 (proj2
           (temperature_is_truncated (fun a => a)
              (HexapodCsc.Csc Sample.elevation Sample.elevation
                 Sample.elevation)
              (HexapodCsc.MoveData 5 10 100 0 0 0 0 0 0)
              0%float [10; 20; 30; 40]%float _ _ eq_refl
              elevation_nondecreasing eq_refl eq_refl)))))).
Defined.

(** A temperature that is not-a-number is looked up as it is, and the
    position computed is not-a-number in every coordinate. *)
Example nan_temperature_is_looked_up :
  HexapodCsc.compensated_position (fun a => a)
    (HexapodCsc.Csc Sample.elevation Sample.elevation Sample.elevation)
    (HexapodCsc.MoveData 5 10 nan 1 2 3 0 0 0)
  = Ok (LookupTable.V6 nan nan nan nan nan nan).
Proof. reflexivity. Qed.

Lemma compensation_returns_witness :
  let self := HexapodCsc.Csc Sample.elevation Sample.elevation
                Sample.elevation in
  let data := HexapodCsc.MoveData 5 10 (-20) 1 2 3 0 0 0 in
  well_formed Sample.elevation
  /\ in_range Sample.elevation 5%float
  /\ in_range Sample.elevation 10%float
  /\ exists corr,
      HexapodCsc.compensated_position (fun a => a) self data = Ok corr.
Proof.
  cbv zeta.
  assert (H5 : in_range Sample.elevation 5%float) by (split; reflexivity).
  assert (H10 : in_range Sample.elevation 10%float) by (split; reflexivity).
  split; [exact elevation_well_formed|]. split; [exact H5|].
  split; [exact H10|].
  destruct (compensation_returns (fun a => a)
              (HexapodCsc.Csc Sample.elevation Sample.elevation
                 Sample.elevation)
              (HexapodCsc.MoveData 5 10 (-20) 1 2 3 0 0 0)
              elevation_well_formed elevation_well_formed
              elevation_well_formed H5 H10)
    as (ec & ac & tc & _ & _ & _ & Hr).
  eexists. exact Hr.
Defined.
